(** * Hibana chat front end: wallet session and transaction-confirmation flow

    A shallow embedding of the two stateful React components of the
    repository,

    - [WalletProvider]  (chat-ui/src/contexts/WalletContext.js), and
    - [ChatInterface]   (the application component: [handleSendMessage],
      [handleSubmit]),

    together with the host operations they use: the string built-ins
    [trim], [toUpperCase], [includes], the regular expression of the
    [tx_data] marker, [fetch], the injected wallet provider
    ([window.ethereum]) and [setTimeout].

    Strings are Stdlib strings holding the text in UTF-8, so that an
    ASCII character is one byte.  [trim] and [toUpperCase] follow
    ECMAScript on all of Unicode: the white space and line terminators of
    the language, and the full upper-case mapping of the Unicode
    Character Database.  Literals of the source, markers and addresses
    are ASCII text, where a byte is a UTF-16 code unit of the host.
    Asynchronous handlers are programs
    of a small free monad over the effects the source performs; an
    interpreter runs them against an environment (backend and provider
    oracles) and records every external call together with the component
    state that is visible while the call is outstanding.

    A handler is a closure of the render that created it: it reads the
    state variables ([account], [inputText], [pendingTransaction], ...) as
    they were at that render, and writes through the setters.  The
    handlers therefore take the render's values as arguments, and the
    callback handed to [setTimeout] carries the values it captured.  A
    turn of the controller is a submission followed by the timer it may
    have set, with no other event in between. *)

From Stdlib Require Import String Ascii List Bool Arith ZArith Lia.
Import ListNotations.
Local Open Scope string_scope.
Local Open Scope bool_scope.

(* ================================================================== *)
(** ** Host string operations *)
(* ================================================================== *)

Module JsString.

Definition code (c : ascii) : nat := nat_of_ascii c.

Definition between (lo hi : nat) (c : ascii) : bool :=
  Nat.leb lo (code c) && Nat.leb (code c) hi.

(** A character of the ASCII range: a single byte of the text. *)
Definition isAscii (c : ascii) : bool := Nat.ltb (code c) 128.

Definition isLower (c : ascii) : bool := between 97 122 c.

(** The upper case of an ASCII character. *)
Definition upcase (c : ascii) : ascii :=
  if isLower c then ascii_of_nat (code c - 32) else c.

(** [s.startsWith(p)] *)
Fixpoint startsWith (s p : string) {struct p} : bool :=
  match p, s with
  | EmptyString, _ => true
  | String _ _, EmptyString => false
  | String a p', String c s' => Ascii.eqb a c && startsWith s' p'
  end.

(** [s.includes(needle)] *)
Fixpoint includes (s needle : string) : bool :=
  startsWith s needle ||
  match s with
  | EmptyString => false
  | String _ s' => includes s' needle
  end.

(** Truthiness of a string value: only the empty string is falsy. *)
Definition nonEmpty (s : string) : bool :=
  match s with EmptyString => false | _ => true end.

(** The text made of the given bytes. *)
Definition fromCodes (codes : list nat) : string :=
  fold_right (fun n s => String (ascii_of_nat n) s) EmptyString codes.

(** The code points [String.prototype.trim] removes, in UTF-8: the
    WhiteSpace and LineTerminator productions of ECMAScript. *)
Definition whiteSpace : list string :=
  [fromCodes [9];              (* U+0009 TAB *)
   fromCodes [10];             (* U+000A LF *)
   fromCodes [11];             (* U+000B VT *)
   fromCodes [12];             (* U+000C FF *)
   fromCodes [13];             (* U+000D CR *)
   fromCodes [32];             (* U+0020 SPACE *)
   fromCodes [194; 160];       (* U+00A0 NO-BREAK SPACE *)
   fromCodes [225; 154; 128];  (* U+1680 OGHAM SPACE MARK *)
   fromCodes [226; 128; 128];  (* U+2000 EN QUAD *)
   fromCodes [226; 128; 129];  (* U+2001 EM QUAD *)
   fromCodes [226; 128; 130];  (* U+2002 EN SPACE *)
   fromCodes [226; 128; 131];  (* U+2003 EM SPACE *)
   fromCodes [226; 128; 132];  (* U+2004 THREE-PER-EM SPACE *)
   fromCodes [226; 128; 133];  (* U+2005 FOUR-PER-EM SPACE *)
   fromCodes [226; 128; 134];  (* U+2006 SIX-PER-EM SPACE *)
   fromCodes [226; 128; 135];  (* U+2007 FIGURE SPACE *)
   fromCodes [226; 128; 136];  (* U+2008 PUNCTUATION SPACE *)
   fromCodes [226; 128; 137];  (* U+2009 THIN SPACE *)
   fromCodes [226; 128; 138];  (* U+200A HAIR SPACE *)
   fromCodes [226; 128; 168];  (* U+2028 LINE SEPARATOR *)
   fromCodes [226; 128; 169];  (* U+2029 PARAGRAPH SEPARATOR *)
   fromCodes [226; 128; 175];  (* U+202F NARROW NO-BREAK SPACE *)
   fromCodes [226; 129; 159];  (* U+205F MEDIUM MATHEMATICAL SPACE *)
   fromCodes [227; 128; 128];  (* U+3000 IDEOGRAPHIC SPACE *)
   fromCodes [239; 187; 191]]. (* U+FEFF ZERO WIDTH NO-BREAK SPACE *)

(** The first of [keys] that [s] starts with. *)
Fixpoint prefixOf (keys : list string) (s : string) : option string :=
  match keys with
  | [] => None
  | key :: keys' => if startsWith s key then Some key else prefixOf keys' s
  end.

(** [s] without its leading white space; [skip] bytes of a character
    already recognised are dropped first. *)
Fixpoint strip (skip : nat) (s : string) : string :=
  match s with
  | EmptyString => EmptyString
  | String _ s' =>
      match skip with
      | S skip' => strip skip' s'
      | O =>
          match prefixOf whiteSpace s with
          | Some space => strip (String.length space - 1) s'
          | None => s
          end
      end
  end.

Definition trimStart (s : string) : string := strip 0 s.

(** [s] is white space throughout. *)
Definition blank (s : string) : bool := negb (nonEmpty (trimStart s)).

Fixpoint trimEnd (s : string) : string :=
  match s with
  | EmptyString => EmptyString
  | String c s' => if blank s then EmptyString else String c (trimEnd s')
  end.

(** [s.trim()] *)
Definition trim (s : string) : string := trimEnd (trimStart s).

(** The code points outside ASCII that [String.prototype.toUpperCase]
    changes, each with its upper case, in UTF-8: the full case mapping of
    the Unicode Character Database (UnicodeData and the unconditional
    entries of SpecialCasing, version 14). *)
Definition upperTable : list (string * string) :=
  [
   ("µ", "Μ"); ("ß", "SS"); ("à", "À"); ("á", "Á"); ("â", "Â"); ("ã", "Ã");
   ("ä", "Ä"); ("å", "Å"); ("æ", "Æ"); ("ç", "Ç"); ("è", "È"); ("é", "É");
   ("ê", "Ê"); ("ë", "Ë"); ("ì", "Ì"); ("í", "Í"); ("î", "Î"); ("ï", "Ï");
   ("ð", "Ð"); ("ñ", "Ñ"); ("ò", "Ò"); ("ó", "Ó"); ("ô", "Ô"); ("õ", "Õ");
   ("ö", "Ö"); ("ø", "Ø"); ("ù", "Ù"); ("ú", "Ú"); ("û", "Û"); ("ü", "Ü");
   ("ý", "Ý"); ("þ", "Þ"); ("ÿ", "Ÿ"); ("ā", "Ā"); ("ă", "Ă"); ("ą", "Ą");
   ("ć", "Ć"); ("ĉ", "Ĉ"); ("ċ", "Ċ"); ("č", "Č"); ("ď", "Ď"); ("đ", "Đ");
   ("ē", "Ē"); ("ĕ", "Ĕ"); ("ė", "Ė"); ("ę", "Ę"); ("ě", "Ě"); ("ĝ", "Ĝ");
   ("ğ", "Ğ"); ("ġ", "Ġ"); ("ģ", "Ģ"); ("ĥ", "Ĥ"); ("ħ", "Ħ"); ("ĩ", "Ĩ");
   ("ī", "Ī"); ("ĭ", "Ĭ"); ("į", "Į"); ("ı", "I"); ("ĳ", "Ĳ"); ("ĵ", "Ĵ");
   ("ķ", "Ķ"); ("ĺ", "Ĺ"); ("ļ", "Ļ"); ("ľ", "Ľ"); ("ŀ", "Ŀ"); ("ł", "Ł");
   ("ń", "Ń"); ("ņ", "Ņ"); ("ň", "Ň"); ("ŉ", "ʼN"); ("ŋ", "Ŋ"); ("ō", "Ō");
   ("ŏ", "Ŏ"); ("ő", "Ő"); ("œ", "Œ"); ("ŕ", "Ŕ"); ("ŗ", "Ŗ"); ("ř", "Ř");
   ("ś", "Ś"); ("ŝ", "Ŝ"); ("ş", "Ş"); ("š", "Š"); ("ţ", "Ţ"); ("ť", "Ť");
   ("ŧ", "Ŧ"); ("ũ", "Ũ"); ("ū", "Ū"); ("ŭ", "Ŭ"); ("ů", "Ů"); ("ű", "Ű");
   ("ų", "Ų"); ("ŵ", "Ŵ"); ("ŷ", "Ŷ"); ("ź", "Ź"); ("ż", "Ż"); ("ž", "Ž");
   ("ſ", "S"); ("ƀ", "Ƀ"); ("ƃ", "Ƃ"); ("ƅ", "Ƅ"); ("ƈ", "Ƈ"); ("ƌ", "Ƌ");
   ("ƒ", "Ƒ"); ("ƕ", "Ƕ"); ("ƙ", "Ƙ"); ("ƚ", "Ƚ"); ("ƞ", "Ƞ"); ("ơ", "Ơ");
   ("ƣ", "Ƣ"); ("ƥ", "Ƥ"); ("ƨ", "Ƨ"); ("ƭ", "Ƭ"); ("ư", "Ư"); ("ƴ", "Ƴ");
   ("ƶ", "Ƶ"); ("ƹ", "Ƹ"); ("ƽ", "Ƽ"); ("ƿ", "Ƿ"); ("ǅ", "Ǆ"); ("ǆ", "Ǆ");
   ("ǈ", "Ǉ"); ("ǉ", "Ǉ"); ("ǋ", "Ǌ"); ("ǌ", "Ǌ"); ("ǎ", "Ǎ"); ("ǐ", "Ǐ");
   ("ǒ", "Ǒ"); ("ǔ", "Ǔ"); ("ǖ", "Ǖ"); ("ǘ", "Ǘ"); ("ǚ", "Ǚ"); ("ǜ", "Ǜ");
   ("ǝ", "Ǝ"); ("ǟ", "Ǟ"); ("ǡ", "Ǡ"); ("ǣ", "Ǣ"); ("ǥ", "Ǥ"); ("ǧ", "Ǧ");
   ("ǩ", "Ǩ"); ("ǫ", "Ǫ"); ("ǭ", "Ǭ"); ("ǯ", "Ǯ"); ("ǰ", "J̌"); ("ǲ", "Ǳ");
   ("ǳ", "Ǳ"); ("ǵ", "Ǵ"); ("ǹ", "Ǹ"); ("ǻ", "Ǻ"); ("ǽ", "Ǽ"); ("ǿ", "Ǿ");
   ("ȁ", "Ȁ"); ("ȃ", "Ȃ"); ("ȅ", "Ȅ"); ("ȇ", "Ȇ"); ("ȉ", "Ȉ"); ("ȋ", "Ȋ");
   ("ȍ", "Ȍ"); ("ȏ", "Ȏ"); ("ȑ", "Ȑ"); ("ȓ", "Ȓ"); ("ȕ", "Ȕ"); ("ȗ", "Ȗ");
   ("ș", "Ș"); ("ț", "Ț"); ("ȝ", "Ȝ"); ("ȟ", "Ȟ"); ("ȣ", "Ȣ"); ("ȥ", "Ȥ");
   ("ȧ", "Ȧ"); ("ȩ", "Ȩ"); ("ȫ", "Ȫ"); ("ȭ", "Ȭ"); ("ȯ", "Ȯ"); ("ȱ", "Ȱ");
   ("ȳ", "Ȳ"); ("ȼ", "Ȼ"); ("ȿ", "Ȿ"); ("ɀ", "Ɀ"); ("ɂ", "Ɂ"); ("ɇ", "Ɇ");
   ("ɉ", "Ɉ"); ("ɋ", "Ɋ"); ("ɍ", "Ɍ"); ("ɏ", "Ɏ"); ("ɐ", "Ɐ"); ("ɑ", "Ɑ");
   ("ɒ", "Ɒ"); ("ɓ", "Ɓ"); ("ɔ", "Ɔ"); ("ɖ", "Ɖ"); ("ɗ", "Ɗ"); ("ə", "Ə");
   ("ɛ", "Ɛ"); ("ɜ", "Ɜ"); ("ɠ", "Ɠ"); ("ɡ", "Ɡ"); ("ɣ", "Ɣ"); ("ɥ", "Ɥ");
   ("ɦ", "Ɦ"); ("ɨ", "Ɨ"); ("ɩ", "Ɩ"); ("ɪ", "Ɪ"); ("ɫ", "Ɫ"); ("ɬ", "Ɬ");
   ("ɯ", "Ɯ"); ("ɱ", "Ɱ"); ("ɲ", "Ɲ"); ("ɵ", "Ɵ"); ("ɽ", "Ɽ"); ("ʀ", "Ʀ");
   ("ʂ", "Ʂ"); ("ʃ", "Ʃ"); ("ʇ", "Ʇ"); ("ʈ", "Ʈ"); ("ʉ", "Ʉ"); ("ʊ", "Ʊ");
   ("ʋ", "Ʋ"); ("ʌ", "Ʌ"); ("ʒ", "Ʒ"); ("ʝ", "Ʝ"); ("ʞ", "Ʞ"); ("ͅ", "Ι");
   ("ͱ", "Ͱ"); ("ͳ", "Ͳ"); ("ͷ", "Ͷ"); ("ͻ", "Ͻ"); ("ͼ", "Ͼ"); ("ͽ", "Ͽ");
   ("ΐ", "Ϊ́"); ("ά", "Ά"); ("έ", "Έ"); ("ή", "Ή"); ("ί", "Ί");
   ("ΰ", "Ϋ́"); ("α", "Α"); ("β", "Β"); ("γ", "Γ"); ("δ", "Δ"); ("ε", "Ε");
   ("ζ", "Ζ"); ("η", "Η"); ("θ", "Θ"); ("ι", "Ι"); ("κ", "Κ"); ("λ", "Λ");
   ("μ", "Μ"); ("ν", "Ν"); ("ξ", "Ξ"); ("ο", "Ο"); ("π", "Π"); ("ρ", "Ρ");
   ("ς", "Σ"); ("σ", "Σ"); ("τ", "Τ"); ("υ", "Υ"); ("φ", "Φ"); ("χ", "Χ");
   ("ψ", "Ψ"); ("ω", "Ω"); ("ϊ", "Ϊ"); ("ϋ", "Ϋ"); ("ό", "Ό"); ("ύ", "Ύ");
   ("ώ", "Ώ"); ("ϐ", "Β"); ("ϑ", "Θ"); ("ϕ", "Φ"); ("ϖ", "Π"); ("ϗ", "Ϗ");
   ("ϙ", "Ϙ"); ("ϛ", "Ϛ"); ("ϝ", "Ϝ"); ("ϟ", "Ϟ"); ("ϡ", "Ϡ"); ("ϣ", "Ϣ");
   ("ϥ", "Ϥ"); ("ϧ", "Ϧ"); ("ϩ", "Ϩ"); ("ϫ", "Ϫ"); ("ϭ", "Ϭ"); ("ϯ", "Ϯ");
   ("ϰ", "Κ"); ("ϱ", "Ρ"); ("ϲ", "Ϲ"); ("ϳ", "Ϳ"); ("ϵ", "Ε"); ("ϸ", "Ϸ");
   ("ϻ", "Ϻ"); ("а", "А"); ("б", "Б"); ("в", "В"); ("г", "Г"); ("д", "Д");
   ("е", "Е"); ("ж", "Ж"); ("з", "З"); ("и", "И"); ("й", "Й"); ("к", "К");
   ("л", "Л"); ("м", "М"); ("н", "Н"); ("о", "О"); ("п", "П"); ("р", "Р");
   ("с", "С"); ("т", "Т"); ("у", "У"); ("ф", "Ф"); ("х", "Х"); ("ц", "Ц");
   ("ч", "Ч"); ("ш", "Ш"); ("щ", "Щ"); ("ъ", "Ъ"); ("ы", "Ы"); ("ь", "Ь");
   ("э", "Э"); ("ю", "Ю"); ("я", "Я"); ("ѐ", "Ѐ"); ("ё", "Ё"); ("ђ", "Ђ");
   ("ѓ", "Ѓ"); ("є", "Є"); ("ѕ", "Ѕ"); ("і", "І"); ("ї", "Ї"); ("ј", "Ј");
   ("љ", "Љ"); ("њ", "Њ"); ("ћ", "Ћ"); ("ќ", "Ќ"); ("ѝ", "Ѝ"); ("ў", "Ў");
   ("џ", "Џ"); ("ѡ", "Ѡ"); ("ѣ", "Ѣ"); ("ѥ", "Ѥ"); ("ѧ", "Ѧ"); ("ѩ", "Ѩ");
   ("ѫ", "Ѫ"); ("ѭ", "Ѭ"); ("ѯ", "Ѯ"); ("ѱ", "Ѱ"); ("ѳ", "Ѳ"); ("ѵ", "Ѵ");
   ("ѷ", "Ѷ"); ("ѹ", "Ѹ"); ("ѻ", "Ѻ"); ("ѽ", "Ѽ"); ("ѿ", "Ѿ"); ("ҁ", "Ҁ");
   ("ҋ", "Ҋ"); ("ҍ", "Ҍ"); ("ҏ", "Ҏ"); ("ґ", "Ґ"); ("ғ", "Ғ"); ("ҕ", "Ҕ");
   ("җ", "Җ"); ("ҙ", "Ҙ"); ("қ", "Қ"); ("ҝ", "Ҝ"); ("ҟ", "Ҟ"); ("ҡ", "Ҡ");
   ("ң", "Ң"); ("ҥ", "Ҥ"); ("ҧ", "Ҧ"); ("ҩ", "Ҩ"); ("ҫ", "Ҫ"); ("ҭ", "Ҭ");
   ("ү", "Ү"); ("ұ", "Ұ"); ("ҳ", "Ҳ"); ("ҵ", "Ҵ"); ("ҷ", "Ҷ"); ("ҹ", "Ҹ");
   ("һ", "Һ"); ("ҽ", "Ҽ"); ("ҿ", "Ҿ"); ("ӂ", "Ӂ"); ("ӄ", "Ӄ"); ("ӆ", "Ӆ");
   ("ӈ", "Ӈ"); ("ӊ", "Ӊ"); ("ӌ", "Ӌ"); ("ӎ", "Ӎ"); ("ӏ", "Ӏ"); ("ӑ", "Ӑ");
   ("ӓ", "Ӓ"); ("ӕ", "Ӕ"); ("ӗ", "Ӗ"); ("ә", "Ә"); ("ӛ", "Ӛ"); ("ӝ", "Ӝ");
   ("ӟ", "Ӟ"); ("ӡ", "Ӡ"); ("ӣ", "Ӣ"); ("ӥ", "Ӥ"); ("ӧ", "Ӧ"); ("ө", "Ө");
   ("ӫ", "Ӫ"); ("ӭ", "Ӭ"); ("ӯ", "Ӯ"); ("ӱ", "Ӱ"); ("ӳ", "Ӳ"); ("ӵ", "Ӵ");
   ("ӷ", "Ӷ"); ("ӹ", "Ӹ"); ("ӻ", "Ӻ"); ("ӽ", "Ӽ"); ("ӿ", "Ӿ"); ("ԁ", "Ԁ");
   ("ԃ", "Ԃ"); ("ԅ", "Ԅ"); ("ԇ", "Ԇ"); ("ԉ", "Ԉ"); ("ԋ", "Ԋ"); ("ԍ", "Ԍ");
   ("ԏ", "Ԏ"); ("ԑ", "Ԑ"); ("ԓ", "Ԓ"); ("ԕ", "Ԕ"); ("ԗ", "Ԗ"); ("ԙ", "Ԙ");
   ("ԛ", "Ԛ"); ("ԝ", "Ԝ"); ("ԟ", "Ԟ"); ("ԡ", "Ԡ"); ("ԣ", "Ԣ"); ("ԥ", "Ԥ");
   ("ԧ", "Ԧ"); ("ԩ", "Ԩ"); ("ԫ", "Ԫ"); ("ԭ", "Ԭ"); ("ԯ", "Ԯ"); ("ա", "Ա");
   ("բ", "Բ"); ("գ", "Գ"); ("դ", "Դ"); ("ե", "Ե"); ("զ", "Զ"); ("է", "Է");
   ("ը", "Ը"); ("թ", "Թ"); ("ժ", "Ժ"); ("ի", "Ի"); ("լ", "Լ"); ("խ", "Խ");
   ("ծ", "Ծ"); ("կ", "Կ"); ("հ", "Հ"); ("ձ", "Ձ"); ("ղ", "Ղ"); ("ճ", "Ճ");
   ("մ", "Մ"); ("յ", "Յ"); ("ն", "Ն"); ("շ", "Շ"); ("ո", "Ո"); ("չ", "Չ");
   ("պ", "Պ"); ("ջ", "Ջ"); ("ռ", "Ռ"); ("ս", "Ս"); ("վ", "Վ"); ("տ", "Տ");
   ("ր", "Ր"); ("ց", "Ց"); ("ւ", "Ւ"); ("փ", "Փ"); ("ք", "Ք"); ("օ", "Օ");
   ("ֆ", "Ֆ"); ("և", "ԵՒ"); ("ა", "Ა"); ("ბ", "Ბ"); ("გ", "Გ"); ("დ", "Დ");
   ("ე", "Ე"); ("ვ", "Ვ"); ("ზ", "Ზ"); ("თ", "Თ"); ("ი", "Ი"); ("კ", "Კ");
   ("ლ", "Ლ"); ("მ", "Მ"); ("ნ", "Ნ"); ("ო", "Ო"); ("პ", "Პ"); ("ჟ", "Ჟ");
   ("რ", "Რ"); ("ს", "Ს"); ("ტ", "Ტ"); ("უ", "Უ"); ("ფ", "Ფ"); ("ქ", "Ქ");
   ("ღ", "Ღ"); ("ყ", "Ყ"); ("შ", "Შ"); ("ჩ", "Ჩ"); ("ც", "Ც"); ("ძ", "Ძ");
   ("წ", "Წ"); ("ჭ", "Ჭ"); ("ხ", "Ხ"); ("ჯ", "Ჯ"); ("ჰ", "Ჰ"); ("ჱ", "Ჱ");
   ("ჲ", "Ჲ"); ("ჳ", "Ჳ"); ("ჴ", "Ჴ"); ("ჵ", "Ჵ"); ("ჶ", "Ჶ"); ("ჷ", "Ჷ");
   ("ჸ", "Ჸ"); ("ჹ", "Ჹ"); ("ჺ", "Ჺ"); ("ჽ", "Ჽ"); ("ჾ", "Ჾ"); ("ჿ", "Ჿ");
   ("ᏸ", "Ᏸ"); ("ᏹ", "Ᏹ"); ("ᏺ", "Ᏺ"); ("ᏻ", "Ᏻ"); ("ᏼ", "Ᏼ"); ("ᏽ", "Ᏽ");
   ("ᲀ", "В"); ("ᲁ", "Д"); ("ᲂ", "О"); ("ᲃ", "С"); ("ᲄ", "Т"); ("ᲅ", "Т");
   ("ᲆ", "Ъ"); ("ᲇ", "Ѣ"); ("ᲈ", "Ꙋ"); ("ᵹ", "Ᵹ"); ("ᵽ", "Ᵽ"); ("ᶎ", "Ᶎ");
   ("ḁ", "Ḁ"); ("ḃ", "Ḃ"); ("ḅ", "Ḅ"); ("ḇ", "Ḇ"); ("ḉ", "Ḉ"); ("ḋ", "Ḋ");
   ("ḍ", "Ḍ"); ("ḏ", "Ḏ"); ("ḑ", "Ḑ"); ("ḓ", "Ḓ"); ("ḕ", "Ḕ"); ("ḗ", "Ḗ");
   ("ḙ", "Ḙ"); ("ḛ", "Ḛ"); ("ḝ", "Ḝ"); ("ḟ", "Ḟ"); ("ḡ", "Ḡ"); ("ḣ", "Ḣ");
   ("ḥ", "Ḥ"); ("ḧ", "Ḧ"); ("ḩ", "Ḩ"); ("ḫ", "Ḫ"); ("ḭ", "Ḭ"); ("ḯ", "Ḯ");
   ("ḱ", "Ḱ"); ("ḳ", "Ḳ"); ("ḵ", "Ḵ"); ("ḷ", "Ḷ"); ("ḹ", "Ḹ"); ("ḻ", "Ḻ");
   ("ḽ", "Ḽ"); ("ḿ", "Ḿ"); ("ṁ", "Ṁ"); ("ṃ", "Ṃ"); ("ṅ", "Ṅ"); ("ṇ", "Ṇ");
   ("ṉ", "Ṉ"); ("ṋ", "Ṋ"); ("ṍ", "Ṍ"); ("ṏ", "Ṏ"); ("ṑ", "Ṑ"); ("ṓ", "Ṓ");
   ("ṕ", "Ṕ"); ("ṗ", "Ṗ"); ("ṙ", "Ṙ"); ("ṛ", "Ṛ"); ("ṝ", "Ṝ"); ("ṟ", "Ṟ");
   ("ṡ", "Ṡ"); ("ṣ", "Ṣ"); ("ṥ", "Ṥ"); ("ṧ", "Ṧ"); ("ṩ", "Ṩ"); ("ṫ", "Ṫ");
   ("ṭ", "Ṭ"); ("ṯ", "Ṯ"); ("ṱ", "Ṱ"); ("ṳ", "Ṳ"); ("ṵ", "Ṵ"); ("ṷ", "Ṷ");
   ("ṹ", "Ṹ"); ("ṻ", "Ṻ"); ("ṽ", "Ṽ"); ("ṿ", "Ṿ"); ("ẁ", "Ẁ"); ("ẃ", "Ẃ");
   ("ẅ", "Ẅ"); ("ẇ", "Ẇ"); ("ẉ", "Ẉ"); ("ẋ", "Ẋ"); ("ẍ", "Ẍ"); ("ẏ", "Ẏ");
   ("ẑ", "Ẑ"); ("ẓ", "Ẓ"); ("ẕ", "Ẕ"); ("ẖ", "H̱"); ("ẗ", "T̈");
   ("ẘ", "W̊"); ("ẙ", "Y̊"); ("ẚ", "Aʾ"); ("ẛ", "Ṡ"); ("ạ", "Ạ");
   ("ả", "Ả"); ("ấ", "Ấ"); ("ầ", "Ầ"); ("ẩ", "Ẩ"); ("ẫ", "Ẫ"); ("ậ", "Ậ");
   ("ắ", "Ắ"); ("ằ", "Ằ"); ("ẳ", "Ẳ"); ("ẵ", "Ẵ"); ("ặ", "Ặ"); ("ẹ", "Ẹ");
   ("ẻ", "Ẻ"); ("ẽ", "Ẽ"); ("ế", "Ế"); ("ề", "Ề"); ("ể", "Ể"); ("ễ", "Ễ");
   ("ệ", "Ệ"); ("ỉ", "Ỉ"); ("ị", "Ị"); ("ọ", "Ọ"); ("ỏ", "Ỏ"); ("ố", "Ố");
   ("ồ", "Ồ"); ("ổ", "Ổ"); ("ỗ", "Ỗ"); ("ộ", "Ộ"); ("ớ", "Ớ"); ("ờ", "Ờ");
   ("ở", "Ở"); ("ỡ", "Ỡ"); ("ợ", "Ợ"); ("ụ", "Ụ"); ("ủ", "Ủ"); ("ứ", "Ứ");
   ("ừ", "Ừ"); ("ử", "Ử"); ("ữ", "Ữ"); ("ự", "Ự"); ("ỳ", "Ỳ"); ("ỵ", "Ỵ");
   ("ỷ", "Ỷ"); ("ỹ", "Ỹ"); ("ỻ", "Ỻ"); ("ỽ", "Ỽ"); ("ỿ", "Ỿ"); ("ἀ", "Ἀ");
   ("ἁ", "Ἁ"); ("ἂ", "Ἂ"); ("ἃ", "Ἃ"); ("ἄ", "Ἄ"); ("ἅ", "Ἅ"); ("ἆ", "Ἆ");
   ("ἇ", "Ἇ"); ("ἐ", "Ἐ"); ("ἑ", "Ἑ"); ("ἒ", "Ἒ"); ("ἓ", "Ἓ"); ("ἔ", "Ἔ");
   ("ἕ", "Ἕ"); ("ἠ", "Ἠ"); ("ἡ", "Ἡ"); ("ἢ", "Ἢ"); ("ἣ", "Ἣ"); ("ἤ", "Ἤ");
   ("ἥ", "Ἥ"); ("ἦ", "Ἦ"); ("ἧ", "Ἧ"); ("ἰ", "Ἰ"); ("ἱ", "Ἱ"); ("ἲ", "Ἲ");
   ("ἳ", "Ἳ"); ("ἴ", "Ἴ"); ("ἵ", "Ἵ"); ("ἶ", "Ἶ"); ("ἷ", "Ἷ"); ("ὀ", "Ὀ");
   ("ὁ", "Ὁ"); ("ὂ", "Ὂ"); ("ὃ", "Ὃ"); ("ὄ", "Ὄ"); ("ὅ", "Ὅ"); ("ὐ", "Υ̓");
   ("ὑ", "Ὑ"); ("ὒ", "Υ̓̀"); ("ὓ", "Ὓ"); ("ὔ", "Υ̓́"); ("ὕ", "Ὕ");
   ("ὖ", "Υ̓͂"); ("ὗ", "Ὗ"); ("ὠ", "Ὠ"); ("ὡ", "Ὡ"); ("ὢ", "Ὢ"); ("ὣ", "Ὣ");
   ("ὤ", "Ὤ"); ("ὥ", "Ὥ"); ("ὦ", "Ὦ"); ("ὧ", "Ὧ"); ("ὰ", "Ὰ"); ("ά", "Ά");
   ("ὲ", "Ὲ"); ("έ", "Έ"); ("ὴ", "Ὴ"); ("ή", "Ή"); ("ὶ", "Ὶ"); ("ί", "Ί");
   ("ὸ", "Ὸ"); ("ό", "Ό"); ("ὺ", "Ὺ"); ("ύ", "Ύ"); ("ὼ", "Ὼ"); ("ώ", "Ώ");
   ("ᾀ", "ἈΙ"); ("ᾁ", "ἉΙ"); ("ᾂ", "ἊΙ"); ("ᾃ", "ἋΙ"); ("ᾄ", "ἌΙ");
   ("ᾅ", "ἍΙ"); ("ᾆ", "ἎΙ"); ("ᾇ", "ἏΙ"); ("ᾈ", "ἈΙ"); ("ᾉ", "ἉΙ");
   ("ᾊ", "ἊΙ"); ("ᾋ", "ἋΙ"); ("ᾌ", "ἌΙ"); ("ᾍ", "ἍΙ"); ("ᾎ", "ἎΙ");
   ("ᾏ", "ἏΙ"); ("ᾐ", "ἨΙ"); ("ᾑ", "ἩΙ"); ("ᾒ", "ἪΙ"); ("ᾓ", "ἫΙ");
   ("ᾔ", "ἬΙ"); ("ᾕ", "ἭΙ"); ("ᾖ", "ἮΙ"); ("ᾗ", "ἯΙ"); ("ᾘ", "ἨΙ");
   ("ᾙ", "ἩΙ"); ("ᾚ", "ἪΙ"); ("ᾛ", "ἫΙ"); ("ᾜ", "ἬΙ"); ("ᾝ", "ἭΙ");
   ("ᾞ", "ἮΙ"); ("ᾟ", "ἯΙ"); ("ᾠ", "ὨΙ"); ("ᾡ", "ὩΙ"); ("ᾢ", "ὪΙ");
   ("ᾣ", "ὫΙ"); ("ᾤ", "ὬΙ"); ("ᾥ", "ὭΙ"); ("ᾦ", "ὮΙ"); ("ᾧ", "ὯΙ");
   ("ᾨ", "ὨΙ"); ("ᾩ", "ὩΙ"); ("ᾪ", "ὪΙ"); ("ᾫ", "ὫΙ"); ("ᾬ", "ὬΙ");
   ("ᾭ", "ὭΙ"); ("ᾮ", "ὮΙ"); ("ᾯ", "ὯΙ"); ("ᾰ", "Ᾰ"); ("ᾱ", "Ᾱ");
   ("ᾲ", "ᾺΙ"); ("ᾳ", "ΑΙ"); ("ᾴ", "ΆΙ"); ("ᾶ", "Α͂"); ("ᾷ", "Α͂Ι");
   ("ᾼ", "ΑΙ"); ("ι", "Ι"); ("ῂ", "ῊΙ"); ("ῃ", "ΗΙ"); ("ῄ", "ΉΙ");
   ("ῆ", "Η͂"); ("ῇ", "Η͂Ι"); ("ῌ", "ΗΙ"); ("ῐ", "Ῐ"); ("ῑ", "Ῑ");
   ("ῒ", "Ϊ̀"); ("ΐ", "Ϊ́"); ("ῖ", "Ι͂"); ("ῗ", "Ϊ͂"); ("ῠ", "Ῠ");
   ("ῡ", "Ῡ"); ("ῢ", "Ϋ̀"); ("ΰ", "Ϋ́"); ("ῤ", "Ρ̓"); ("ῥ", "Ῥ");
   ("ῦ", "Υ͂"); ("ῧ", "Ϋ͂"); ("ῲ", "ῺΙ"); ("ῳ", "ΩΙ"); ("ῴ", "ΏΙ");
   ("ῶ", "Ω͂"); ("ῷ", "Ω͂Ι"); ("ῼ", "ΩΙ"); ("ⅎ", "Ⅎ"); ("ⅰ", "Ⅰ");
   ("ⅱ", "Ⅱ"); ("ⅲ", "Ⅲ"); ("ⅳ", "Ⅳ"); ("ⅴ", "Ⅴ"); ("ⅵ", "Ⅵ"); ("ⅶ", "Ⅶ");
   ("ⅷ", "Ⅷ"); ("ⅸ", "Ⅸ"); ("ⅹ", "Ⅹ"); ("ⅺ", "Ⅺ"); ("ⅻ", "Ⅻ"); ("ⅼ", "Ⅼ");
   ("ⅽ", "Ⅽ"); ("ⅾ", "Ⅾ"); ("ⅿ", "Ⅿ"); ("ↄ", "Ↄ"); ("ⓐ", "Ⓐ"); ("ⓑ", "Ⓑ");
   ("ⓒ", "Ⓒ"); ("ⓓ", "Ⓓ"); ("ⓔ", "Ⓔ"); ("ⓕ", "Ⓕ"); ("ⓖ", "Ⓖ"); ("ⓗ", "Ⓗ");
   ("ⓘ", "Ⓘ"); ("ⓙ", "Ⓙ"); ("ⓚ", "Ⓚ"); ("ⓛ", "Ⓛ"); ("ⓜ", "Ⓜ"); ("ⓝ", "Ⓝ");
   ("ⓞ", "Ⓞ"); ("ⓟ", "Ⓟ"); ("ⓠ", "Ⓠ"); ("ⓡ", "Ⓡ"); ("ⓢ", "Ⓢ"); ("ⓣ", "Ⓣ");
   ("ⓤ", "Ⓤ"); ("ⓥ", "Ⓥ"); ("ⓦ", "Ⓦ"); ("ⓧ", "Ⓧ"); ("ⓨ", "Ⓨ"); ("ⓩ", "Ⓩ");
   ("ⰰ", "Ⰰ"); ("ⰱ", "Ⰱ"); ("ⰲ", "Ⰲ"); ("ⰳ", "Ⰳ"); ("ⰴ", "Ⰴ"); ("ⰵ", "Ⰵ");
   ("ⰶ", "Ⰶ"); ("ⰷ", "Ⰷ"); ("ⰸ", "Ⰸ"); ("ⰹ", "Ⰹ"); ("ⰺ", "Ⰺ"); ("ⰻ", "Ⰻ");
   ("ⰼ", "Ⰼ"); ("ⰽ", "Ⰽ"); ("ⰾ", "Ⰾ"); ("ⰿ", "Ⰿ"); ("ⱀ", "Ⱀ"); ("ⱁ", "Ⱁ");
   ("ⱂ", "Ⱂ"); ("ⱃ", "Ⱃ"); ("ⱄ", "Ⱄ"); ("ⱅ", "Ⱅ"); ("ⱆ", "Ⱆ"); ("ⱇ", "Ⱇ");
   ("ⱈ", "Ⱈ"); ("ⱉ", "Ⱉ"); ("ⱊ", "Ⱊ"); ("ⱋ", "Ⱋ"); ("ⱌ", "Ⱌ"); ("ⱍ", "Ⱍ");
   ("ⱎ", "Ⱎ"); ("ⱏ", "Ⱏ"); ("ⱐ", "Ⱐ"); ("ⱑ", "Ⱑ"); ("ⱒ", "Ⱒ"); ("ⱓ", "Ⱓ");
   ("ⱔ", "Ⱔ"); ("ⱕ", "Ⱕ"); ("ⱖ", "Ⱖ"); ("ⱗ", "Ⱗ"); ("ⱘ", "Ⱘ"); ("ⱙ", "Ⱙ");
   ("ⱚ", "Ⱚ"); ("ⱛ", "Ⱛ"); ("ⱜ", "Ⱜ"); ("ⱝ", "Ⱝ"); ("ⱞ", "Ⱞ"); ("ⱟ", "Ⱟ");
   ("ⱡ", "Ⱡ"); ("ⱥ", "Ⱥ"); ("ⱦ", "Ⱦ"); ("ⱨ", "Ⱨ"); ("ⱪ", "Ⱪ"); ("ⱬ", "Ⱬ");
   ("ⱳ", "Ⱳ"); ("ⱶ", "Ⱶ"); ("ⲁ", "Ⲁ"); ("ⲃ", "Ⲃ"); ("ⲅ", "Ⲅ"); ("ⲇ", "Ⲇ");
   ("ⲉ", "Ⲉ"); ("ⲋ", "Ⲋ"); ("ⲍ", "Ⲍ"); ("ⲏ", "Ⲏ"); ("ⲑ", "Ⲑ"); ("ⲓ", "Ⲓ");
   ("ⲕ", "Ⲕ"); ("ⲗ", "Ⲗ"); ("ⲙ", "Ⲙ"); ("ⲛ", "Ⲛ"); ("ⲝ", "Ⲝ"); ("ⲟ", "Ⲟ");
   ("ⲡ", "Ⲡ"); ("ⲣ", "Ⲣ"); ("ⲥ", "Ⲥ"); ("ⲧ", "Ⲧ"); ("ⲩ", "Ⲩ"); ("ⲫ", "Ⲫ");
   ("ⲭ", "Ⲭ"); ("ⲯ", "Ⲯ"); ("ⲱ", "Ⲱ"); ("ⲳ", "Ⲳ"); ("ⲵ", "Ⲵ"); ("ⲷ", "Ⲷ");
   ("ⲹ", "Ⲹ"); ("ⲻ", "Ⲻ"); ("ⲽ", "Ⲽ"); ("ⲿ", "Ⲿ"); ("ⳁ", "Ⳁ"); ("ⳃ", "Ⳃ");
   ("ⳅ", "Ⳅ"); ("ⳇ", "Ⳇ"); ("ⳉ", "Ⳉ"); ("ⳋ", "Ⳋ"); ("ⳍ", "Ⳍ"); ("ⳏ", "Ⳏ");
   ("ⳑ", "Ⳑ"); ("ⳓ", "Ⳓ"); ("ⳕ", "Ⳕ"); ("ⳗ", "Ⳗ"); ("ⳙ", "Ⳙ"); ("ⳛ", "Ⳛ");
   ("ⳝ", "Ⳝ"); ("ⳟ", "Ⳟ"); ("ⳡ", "Ⳡ"); ("ⳣ", "Ⳣ"); ("ⳬ", "Ⳬ"); ("ⳮ", "Ⳮ");
   ("ⳳ", "Ⳳ"); ("ⴀ", "Ⴀ"); ("ⴁ", "Ⴁ"); ("ⴂ", "Ⴂ"); ("ⴃ", "Ⴃ"); ("ⴄ", "Ⴄ");
   ("ⴅ", "Ⴅ"); ("ⴆ", "Ⴆ"); ("ⴇ", "Ⴇ"); ("ⴈ", "Ⴈ"); ("ⴉ", "Ⴉ"); ("ⴊ", "Ⴊ");
   ("ⴋ", "Ⴋ"); ("ⴌ", "Ⴌ"); ("ⴍ", "Ⴍ"); ("ⴎ", "Ⴎ"); ("ⴏ", "Ⴏ"); ("ⴐ", "Ⴐ");
   ("ⴑ", "Ⴑ"); ("ⴒ", "Ⴒ"); ("ⴓ", "Ⴓ"); ("ⴔ", "Ⴔ"); ("ⴕ", "Ⴕ"); ("ⴖ", "Ⴖ");
   ("ⴗ", "Ⴗ"); ("ⴘ", "Ⴘ"); ("ⴙ", "Ⴙ"); ("ⴚ", "Ⴚ"); ("ⴛ", "Ⴛ"); ("ⴜ", "Ⴜ");
   ("ⴝ", "Ⴝ"); ("ⴞ", "Ⴞ"); ("ⴟ", "Ⴟ"); ("ⴠ", "Ⴠ"); ("ⴡ", "Ⴡ"); ("ⴢ", "Ⴢ");
   ("ⴣ", "Ⴣ"); ("ⴤ", "Ⴤ"); ("ⴥ", "Ⴥ"); ("ⴧ", "Ⴧ"); ("ⴭ", "Ⴭ"); ("ꙁ", "Ꙁ");
   ("ꙃ", "Ꙃ"); ("ꙅ", "Ꙅ"); ("ꙇ", "Ꙇ"); ("ꙉ", "Ꙉ"); ("ꙋ", "Ꙋ"); ("ꙍ", "Ꙍ");
   ("ꙏ", "Ꙏ"); ("ꙑ", "Ꙑ"); ("ꙓ", "Ꙓ"); ("ꙕ", "Ꙕ"); ("ꙗ", "Ꙗ"); ("ꙙ", "Ꙙ");
   ("ꙛ", "Ꙛ"); ("ꙝ", "Ꙝ"); ("ꙟ", "Ꙟ"); ("ꙡ", "Ꙡ"); ("ꙣ", "Ꙣ"); ("ꙥ", "Ꙥ");
   ("ꙧ", "Ꙧ"); ("ꙩ", "Ꙩ"); ("ꙫ", "Ꙫ"); ("ꙭ", "Ꙭ"); ("ꚁ", "Ꚁ"); ("ꚃ", "Ꚃ");
   ("ꚅ", "Ꚅ"); ("ꚇ", "Ꚇ"); ("ꚉ", "Ꚉ"); ("ꚋ", "Ꚋ"); ("ꚍ", "Ꚍ"); ("ꚏ", "Ꚏ");
   ("ꚑ", "Ꚑ"); ("ꚓ", "Ꚓ"); ("ꚕ", "Ꚕ"); ("ꚗ", "Ꚗ"); ("ꚙ", "Ꚙ"); ("ꚛ", "Ꚛ");
   ("ꜣ", "Ꜣ"); ("ꜥ", "Ꜥ"); ("ꜧ", "Ꜧ"); ("ꜩ", "Ꜩ"); ("ꜫ", "Ꜫ"); ("ꜭ", "Ꜭ");
   ("ꜯ", "Ꜯ"); ("ꜳ", "Ꜳ"); ("ꜵ", "Ꜵ"); ("ꜷ", "Ꜷ"); ("ꜹ", "Ꜹ"); ("ꜻ", "Ꜻ");
   ("ꜽ", "Ꜽ"); ("ꜿ", "Ꜿ"); ("ꝁ", "Ꝁ"); ("ꝃ", "Ꝃ"); ("ꝅ", "Ꝅ"); ("ꝇ", "Ꝇ");
   ("ꝉ", "Ꝉ"); ("ꝋ", "Ꝋ"); ("ꝍ", "Ꝍ"); ("ꝏ", "Ꝏ"); ("ꝑ", "Ꝑ"); ("ꝓ", "Ꝓ");
   ("ꝕ", "Ꝕ"); ("ꝗ", "Ꝗ"); ("ꝙ", "Ꝙ"); ("ꝛ", "Ꝛ"); ("ꝝ", "Ꝝ"); ("ꝟ", "Ꝟ");
   ("ꝡ", "Ꝡ"); ("ꝣ", "Ꝣ"); ("ꝥ", "Ꝥ"); ("ꝧ", "Ꝧ"); ("ꝩ", "Ꝩ"); ("ꝫ", "Ꝫ");
   ("ꝭ", "Ꝭ"); ("ꝯ", "Ꝯ"); ("ꝺ", "Ꝺ"); ("ꝼ", "Ꝼ"); ("ꝿ", "Ꝿ"); ("ꞁ", "Ꞁ");
   ("ꞃ", "Ꞃ"); ("ꞅ", "Ꞅ"); ("ꞇ", "Ꞇ"); ("ꞌ", "Ꞌ"); ("ꞑ", "Ꞑ"); ("ꞓ", "Ꞓ");
   ("ꞔ", "Ꞔ"); ("ꞗ", "Ꞗ"); ("ꞙ", "Ꞙ"); ("ꞛ", "Ꞛ"); ("ꞝ", "Ꞝ"); ("ꞟ", "Ꞟ");
   ("ꞡ", "Ꞡ"); ("ꞣ", "Ꞣ"); ("ꞥ", "Ꞥ"); ("ꞧ", "Ꞧ"); ("ꞩ", "Ꞩ"); ("ꞵ", "Ꞵ");
   ("ꞷ", "Ꞷ"); ("ꞹ", "Ꞹ"); ("ꞻ", "Ꞻ"); ("ꞽ", "Ꞽ"); ("ꞿ", "Ꞿ"); ("ꟁ", "Ꟁ");
   ("ꟃ", "Ꟃ"); ("ꟈ", "Ꟈ"); ("ꟊ", "Ꟊ"); ("ꟑ", "Ꟑ"); ("ꟗ", "Ꟗ"); ("ꟙ", "Ꟙ");
   ("ꟶ", "Ꟶ"); ("ꭓ", "Ꭓ"); ("ꭰ", "Ꭰ"); ("ꭱ", "Ꭱ"); ("ꭲ", "Ꭲ"); ("ꭳ", "Ꭳ");
   ("ꭴ", "Ꭴ"); ("ꭵ", "Ꭵ"); ("ꭶ", "Ꭶ"); ("ꭷ", "Ꭷ"); ("ꭸ", "Ꭸ"); ("ꭹ", "Ꭹ");
   ("ꭺ", "Ꭺ"); ("ꭻ", "Ꭻ"); ("ꭼ", "Ꭼ"); ("ꭽ", "Ꭽ"); ("ꭾ", "Ꭾ"); ("ꭿ", "Ꭿ");
   ("ꮀ", "Ꮀ"); ("ꮁ", "Ꮁ"); ("ꮂ", "Ꮂ"); ("ꮃ", "Ꮃ"); ("ꮄ", "Ꮄ"); ("ꮅ", "Ꮅ");
   ("ꮆ", "Ꮆ"); ("ꮇ", "Ꮇ"); ("ꮈ", "Ꮈ"); ("ꮉ", "Ꮉ"); ("ꮊ", "Ꮊ"); ("ꮋ", "Ꮋ");
   ("ꮌ", "Ꮌ"); ("ꮍ", "Ꮍ"); ("ꮎ", "Ꮎ"); ("ꮏ", "Ꮏ"); ("ꮐ", "Ꮐ"); ("ꮑ", "Ꮑ");
   ("ꮒ", "Ꮒ"); ("ꮓ", "Ꮓ"); ("ꮔ", "Ꮔ"); ("ꮕ", "Ꮕ"); ("ꮖ", "Ꮖ"); ("ꮗ", "Ꮗ");
   ("ꮘ", "Ꮘ"); ("ꮙ", "Ꮙ"); ("ꮚ", "Ꮚ"); ("ꮛ", "Ꮛ"); ("ꮜ", "Ꮜ"); ("ꮝ", "Ꮝ");
   ("ꮞ", "Ꮞ"); ("ꮟ", "Ꮟ"); ("ꮠ", "Ꮠ"); ("ꮡ", "Ꮡ"); ("ꮢ", "Ꮢ"); ("ꮣ", "Ꮣ");
   ("ꮤ", "Ꮤ"); ("ꮥ", "Ꮥ"); ("ꮦ", "Ꮦ"); ("ꮧ", "Ꮧ"); ("ꮨ", "Ꮨ"); ("ꮩ", "Ꮩ");
   ("ꮪ", "Ꮪ"); ("ꮫ", "Ꮫ"); ("ꮬ", "Ꮬ"); ("ꮭ", "Ꮭ"); ("ꮮ", "Ꮮ"); ("ꮯ", "Ꮯ");
   ("ꮰ", "Ꮰ"); ("ꮱ", "Ꮱ"); ("ꮲ", "Ꮲ"); ("ꮳ", "Ꮳ"); ("ꮴ", "Ꮴ"); ("ꮵ", "Ꮵ");
   ("ꮶ", "Ꮶ"); ("ꮷ", "Ꮷ"); ("ꮸ", "Ꮸ"); ("ꮹ", "Ꮹ"); ("ꮺ", "Ꮺ"); ("ꮻ", "Ꮻ");
   ("ꮼ", "Ꮼ"); ("ꮽ", "Ꮽ"); ("ꮾ", "Ꮾ"); ("ꮿ", "Ꮿ"); ("ﬀ", "FF"); ("ﬁ", "FI");
   ("ﬂ", "FL"); ("ﬃ", "FFI"); ("ﬄ", "FFL"); ("ﬅ", "ST"); ("ﬆ", "ST");
   ("ﬓ", "ՄՆ"); ("ﬔ", "ՄԵ"); ("ﬕ", "ՄԻ"); ("ﬖ", "ՎՆ"); ("ﬗ", "ՄԽ");
   ("ａ", "Ａ"); ("ｂ", "Ｂ"); ("ｃ", "Ｃ"); ("ｄ", "Ｄ"); ("ｅ", "Ｅ"); ("ｆ", "Ｆ");
   ("ｇ", "Ｇ"); ("ｈ", "Ｈ"); ("ｉ", "Ｉ"); ("ｊ", "Ｊ"); ("ｋ", "Ｋ"); ("ｌ", "Ｌ");
   ("ｍ", "Ｍ"); ("ｎ", "Ｎ"); ("ｏ", "Ｏ"); ("ｐ", "Ｐ"); ("ｑ", "Ｑ"); ("ｒ", "Ｒ");
   ("ｓ", "Ｓ"); ("ｔ", "Ｔ"); ("ｕ", "Ｕ"); ("ｖ", "Ｖ"); ("ｗ", "Ｗ"); ("ｘ", "Ｘ");
   ("ｙ", "Ｙ"); ("ｚ", "Ｚ"); ("𐐨", "𐐀"); ("𐐩", "𐐁"); ("𐐪", "𐐂"); ("𐐫", "𐐃");
   ("𐐬", "𐐄"); ("𐐭", "𐐅"); ("𐐮", "𐐆"); ("𐐯", "𐐇"); ("𐐰", "𐐈"); ("𐐱", "𐐉");
   ("𐐲", "𐐊"); ("𐐳", "𐐋"); ("𐐴", "𐐌"); ("𐐵", "𐐍"); ("𐐶", "𐐎"); ("𐐷", "𐐏");
   ("𐐸", "𐐐"); ("𐐹", "𐐑"); ("𐐺", "𐐒"); ("𐐻", "𐐓"); ("𐐼", "𐐔"); ("𐐽", "𐐕");
   ("𐐾", "𐐖"); ("𐐿", "𐐗"); ("𐑀", "𐐘"); ("𐑁", "𐐙"); ("𐑂", "𐐚"); ("𐑃", "𐐛");
   ("𐑄", "𐐜"); ("𐑅", "𐐝"); ("𐑆", "𐐞"); ("𐑇", "𐐟"); ("𐑈", "𐐠"); ("𐑉", "𐐡");
   ("𐑊", "𐐢"); ("𐑋", "𐐣"); ("𐑌", "𐐤"); ("𐑍", "𐐥"); ("𐑎", "𐐦"); ("𐑏", "𐐧");
   ("𐓘", "𐒰"); ("𐓙", "𐒱"); ("𐓚", "𐒲"); ("𐓛", "𐒳"); ("𐓜", "𐒴"); ("𐓝", "𐒵");
   ("𐓞", "𐒶"); ("𐓟", "𐒷"); ("𐓠", "𐒸"); ("𐓡", "𐒹"); ("𐓢", "𐒺"); ("𐓣", "𐒻");
   ("𐓤", "𐒼"); ("𐓥", "𐒽"); ("𐓦", "𐒾"); ("𐓧", "𐒿"); ("𐓨", "𐓀"); ("𐓩", "𐓁");
   ("𐓪", "𐓂"); ("𐓫", "𐓃"); ("𐓬", "𐓄"); ("𐓭", "𐓅"); ("𐓮", "𐓆"); ("𐓯", "𐓇");
   ("𐓰", "𐓈"); ("𐓱", "𐓉"); ("𐓲", "𐓊"); ("𐓳", "𐓋"); ("𐓴", "𐓌"); ("𐓵", "𐓍");
   ("𐓶", "𐓎"); ("𐓷", "𐓏"); ("𐓸", "𐓐"); ("𐓹", "𐓑"); ("𐓺", "𐓒"); ("𐓻", "𐓓");
   ("𐖗", "𐕰"); ("𐖘", "𐕱"); ("𐖙", "𐕲"); ("𐖚", "𐕳"); ("𐖛", "𐕴"); ("𐖜", "𐕵");
   ("𐖝", "𐕶"); ("𐖞", "𐕷"); ("𐖟", "𐕸"); ("𐖠", "𐕹"); ("𐖡", "𐕺"); ("𐖣", "𐕼");
   ("𐖤", "𐕽"); ("𐖥", "𐕾"); ("𐖦", "𐕿"); ("𐖧", "𐖀"); ("𐖨", "𐖁"); ("𐖩", "𐖂");
   ("𐖪", "𐖃"); ("𐖫", "𐖄"); ("𐖬", "𐖅"); ("𐖭", "𐖆"); ("𐖮", "𐖇"); ("𐖯", "𐖈");
   ("𐖰", "𐖉"); ("𐖱", "𐖊"); ("𐖳", "𐖌"); ("𐖴", "𐖍"); ("𐖵", "𐖎"); ("𐖶", "𐖏");
   ("𐖷", "𐖐"); ("𐖸", "𐖑"); ("𐖹", "𐖒"); ("𐖻", "𐖔"); ("𐖼", "𐖕"); ("𐳀", "𐲀");
   ("𐳁", "𐲁"); ("𐳂", "𐲂"); ("𐳃", "𐲃"); ("𐳄", "𐲄"); ("𐳅", "𐲅"); ("𐳆", "𐲆");
   ("𐳇", "𐲇"); ("𐳈", "𐲈"); ("𐳉", "𐲉"); ("𐳊", "𐲊"); ("𐳋", "𐲋"); ("𐳌", "𐲌");
   ("𐳍", "𐲍"); ("𐳎", "𐲎"); ("𐳏", "𐲏"); ("𐳐", "𐲐"); ("𐳑", "𐲑"); ("𐳒", "𐲒");
   ("𐳓", "𐲓"); ("𐳔", "𐲔"); ("𐳕", "𐲕"); ("𐳖", "𐲖"); ("𐳗", "𐲗"); ("𐳘", "𐲘");
   ("𐳙", "𐲙"); ("𐳚", "𐲚"); ("𐳛", "𐲛"); ("𐳜", "𐲜"); ("𐳝", "𐲝"); ("𐳞", "𐲞");
   ("𐳟", "𐲟"); ("𐳠", "𐲠"); ("𐳡", "𐲡"); ("𐳢", "𐲢"); ("𐳣", "𐲣"); ("𐳤", "𐲤");
   ("𐳥", "𐲥"); ("𐳦", "𐲦"); ("𐳧", "𐲧"); ("𐳨", "𐲨"); ("𐳩", "𐲩"); ("𐳪", "𐲪");
   ("𐳫", "𐲫"); ("𐳬", "𐲬"); ("𐳭", "𐲭"); ("𐳮", "𐲮"); ("𐳯", "𐲯"); ("𐳰", "𐲰");
   ("𐳱", "𐲱"); ("𐳲", "𐲲"); ("𑣀", "𑢠"); ("𑣁", "𑢡"); ("𑣂", "𑢢"); ("𑣃", "𑢣");
   ("𑣄", "𑢤"); ("𑣅", "𑢥"); ("𑣆", "𑢦"); ("𑣇", "𑢧"); ("𑣈", "𑢨"); ("𑣉", "𑢩");
   ("𑣊", "𑢪"); ("𑣋", "𑢫"); ("𑣌", "𑢬"); ("𑣍", "𑢭"); ("𑣎", "𑢮"); ("𑣏", "𑢯");
   ("𑣐", "𑢰"); ("𑣑", "𑢱"); ("𑣒", "𑢲"); ("𑣓", "𑢳"); ("𑣔", "𑢴"); ("𑣕", "𑢵");
   ("𑣖", "𑢶"); ("𑣗", "𑢷"); ("𑣘", "𑢸"); ("𑣙", "𑢹"); ("𑣚", "𑢺"); ("𑣛", "𑢻");
   ("𑣜", "𑢼"); ("𑣝", "𑢽"); ("𑣞", "𑢾"); ("𑣟", "𑢿"); ("𖹠", "𖹀"); ("𖹡", "𖹁");
   ("𖹢", "𖹂"); ("𖹣", "𖹃"); ("𖹤", "𖹄"); ("𖹥", "𖹅"); ("𖹦", "𖹆"); ("𖹧", "𖹇");
   ("𖹨", "𖹈"); ("𖹩", "𖹉"); ("𖹪", "𖹊"); ("𖹫", "𖹋"); ("𖹬", "𖹌"); ("𖹭", "𖹍");
   ("𖹮", "𖹎"); ("𖹯", "𖹏"); ("𖹰", "𖹐"); ("𖹱", "𖹑"); ("𖹲", "𖹒"); ("𖹳", "𖹓");
   ("𖹴", "𖹔"); ("𖹵", "𖹕"); ("𖹶", "𖹖"); ("𖹷", "𖹗"); ("𖹸", "𖹘"); ("𖹹", "𖹙");
   ("𖹺", "𖹚"); ("𖹻", "𖹛"); ("𖹼", "𖹜"); ("𖹽", "𖹝"); ("𖹾", "𖹞"); ("𖹿", "𖹟");
   ("𞤢", "𞤀"); ("𞤣", "𞤁"); ("𞤤", "𞤂"); ("𞤥", "𞤃"); ("𞤦", "𞤄"); ("𞤧", "𞤅");
   ("𞤨", "𞤆"); ("𞤩", "𞤇"); ("𞤪", "𞤈"); ("𞤫", "𞤉"); ("𞤬", "𞤊"); ("𞤭", "𞤋");
   ("𞤮", "𞤌"); ("𞤯", "𞤍"); ("𞤰", "𞤎"); ("𞤱", "𞤏"); ("𞤲", "𞤐"); ("𞤳", "𞤑");
   ("𞤴", "𞤒"); ("𞤵", "𞤓"); ("𞤶", "𞤔"); ("𞤷", "𞤕"); ("𞤸", "𞤖"); ("𞤹", "𞤗");
   ("𞤺", "𞤘"); ("𞤻", "𞤙"); ("𞤼", "𞤚"); ("𞤽", "𞤛"); ("𞤾", "𞤜"); ("𞤿", "𞤝");
   ("𞥀", "𞤞"); ("𞥁", "𞤟"); ("𞥂", "𞤠"); ("𞥃", "𞤡")
  ].

(** The entry of [table] whose key [s] starts with. *)
Fixpoint lookup (table : list (string * string)) (s : string)
  : option (string * string) :=
  match table with
  | [] => None
  | (key, image) :: table' =>
      if startsWith s key then Some (key, image) else lookup table' s
  end.

(** Upper case, character by character; [skip] bytes of a character
    already converted are dropped first. *)
Fixpoint upper (skip : nat) (s : string) : string :=
  match s with
  | EmptyString => EmptyString
  | String c s' =>
      match skip with
      | S skip' => upper skip' s'
      | O =>
          if isAscii c then String (upcase c) (upper 0 s')
          else
            match lookup upperTable s with
            | Some (key, image) => image ++ upper (String.length key - 1) s'
            | None => String c (upper 0 s')
            end
      end
  end.

(** [s.toUpperCase()] *)
Definition toUpperCase (s : string) : string := upper 0 s.

(** Case-insensitive equality, the way the source tests it: the two
    strings have the same upper case. *)
Definition equalsIgnoreCase (s t : string) : bool :=
  String.eqb (toUpperCase s) (toUpperCase t).

(** Every text made of one alternative for each part, in order. *)
Definition spellings (parts : list (list string)) : list string :=
  fold_right (fun alternatives rest =>
                flat_map (fun a => map (append a) rest) alternatives)
             [EmptyString] parts.

(** The spellings of the confirmation word: each letter in either case,
    the [i] also dotless (U+0131), and [fi] also as the ligature
    (U+FB01). *)
Definition confirmSpellings : list string :=
  spellings
    [["c"; "C"]; ["o"; "O"]; ["n"; "N"];
     ["fi"; "fI"; "fı"; "Fi"; "FI"; "Fı"; "ﬁ"];
     ["r"; "R"]; ["m"; "M"]].

End JsString.
Import JsString.

(* ================================================================== *)
(** ** The [tx_data] marker

    [/tx_data:(0x[a-fA-F0-9]+):(0x[a-fA-F0-9]+):(\d+)/] *)
(* ================================================================== *)

Module TxData.

(** [[a-fA-F0-9]] *)
Definition isHexDigit (c : ascii) : bool :=
  between 97 102 c || between 65 70 c || between 48 57 c.

(** [\d] *)
Definition isDigit (c : ascii) : bool := between 48 57 c.

(** Longest prefix of [s] whose characters satisfy [p], and the rest:
    a greedy [p+] / [p*]. *)
Fixpoint span (p : ascii -> bool) (s : string) : string * string :=
  match s with
  | EmptyString => (EmptyString, EmptyString)
  | String c s' =>
      if p c then let (h, r) := span p s' in (String c h, r)
      else (EmptyString, s)
  end.

(** A literal of the pattern: the rest of [s] after [lit]. *)
Fixpoint expect (lit s : string) : option string :=
  match lit, s with
  | EmptyString, _ => Some s
  | String _ _, EmptyString => None
  | String a lit', String c s' =>
      if Ascii.eqb a c then expect lit' s' else None
  end.

(** A greedy non-empty run [p+]. *)
Definition plus (p : ascii -> bool) (s : string) : option (string * string) :=
  match span p s with
  | (EmptyString, _) => None
  | (h, r) => Some (h, r)
  end.

(** The group [(0x[a-fA-F0-9]+)]: captured text and rest. *)
Definition hexGroup (s : string) : option (string * string) :=
  match expect "0x" s with
  | None => None
  | Some r =>
      match plus isHexDigit r with
      | None => None
      | Some (h, r') => Some ("0x" ++ h, r')
      end
  end.

(** The whole pattern anchored at the start of [s]; the result is
    capture groups 1 and 2.  Every [+] of the pattern is followed by a
    character outside its class (or ends the pattern), so the greedy run
    is the only one a backtracking matcher can succeed with. *)
Definition matchAt (s : string) : option (string * string) :=
  match expect "tx_data:" s with
  | None => None
  | Some r0 =>
      match hexGroup r0 with
      | None => None
      | Some (g1, r1) =>
          match expect ":" r1 with
          | None => None
          | Some r2 =>
              match hexGroup r2 with
              | None => None
              | Some (g2, r3) =>
                  match expect ":" r3 with
                  | None => None
                  | Some r4 =>
                      match plus isDigit r4 with
                      | None => None
                      | Some _ => Some (g1, g2)
                      end
                  end
              end
          end
      end
  end.

(** [s.match(re)] for the non-global pattern: the leftmost position at
    which the pattern matches; [None] is JavaScript's [null]. *)
Fixpoint txDataMatch (s : string) : option (string * string) :=
  match matchAt s with
  | Some m => Some m
  | None =>
      match s with
      | EmptyString => None
      | String _ s' => txDataMatch s'
      end
  end.

(** The pattern as the specification words it:
    [tx_data:<0x-hex>:<0x-hex>:<decimal>] somewhere in the text. *)
Fixpoint allChars (p : ascii -> bool) (s : string) : bool :=
  match s with
  | EmptyString => true
  | String c s' => p c && allChars p s'
  end.

(** A marker at the start of [s], with capture groups [g1] and [g2]. *)
Definition MarkerAt (s g1 g2 : string) : Prop :=
  exists a b d post,
    s = "tx_data:" ++ g1 ++ ":" ++ g2 ++ ":" ++ d ++ post /\
    g1 = "0x" ++ a /\ g2 = "0x" ++ b /\
    nonEmpty a = true /\ allChars isHexDigit a = true /\
    nonEmpty b = true /\ allChars isHexDigit b = true /\
    nonEmpty d = true /\ allChars isDigit d = true.

(** A marker somewhere in [s]. *)
Definition Marker (s g1 g2 : string) : Prop :=
  exists pre rest, s = pre ++ rest /\ MarkerAt rest g1 g2.

End TxData.
Import TxData.

(* ================================================================== *)
(** ** Asynchronous programs

    Values the handlers exchange with their environment, the effects they
    perform, and the interpreter. *)
(* ================================================================== *)

Module Js.

(** A thrown or rejected value: [null] or [undefined], or any other
    value, seen through its [message] property ([None]: the property is
    undefined). *)
Inductive Error : Type :=
| nullish
| thrown (message : option string).

Definition newError (m : string) : Error := thrown (Some m).

(** What the host throws on a property access on [null] or [undefined]. *)
Definition TypeError : Error :=
  newError "Cannot read properties of undefined".

(** A settled promise. *)
Inductive Settled (A : Type) : Type :=
| Fulfilled (a : A)
| Rejected (e : Error).
Arguments Fulfilled {A} a.
Arguments Rejected {A} e.

(** Truthiness of a value that is a string, [null] or [undefined]. *)
Definition truthy (v : option string) : bool :=
  match v with
  | Some s => nonEmpty s
  | None => false
  end.

(** The string a truthy value is. *)
Definition asTruthy (v : option string) : option string :=
  match v with
  | Some s => if nonEmpty s then Some s else None
  | None => None
  end.

(** [v || d] *)
Definition orElse (v : option string) (d : string) : string :=
  match asTruthy v with
  | Some s => s
  | None => d
  end.

(** A value interpolated in a template literal. *)
Definition template (v : option string) : string :=
  match v with
  | Some s => s
  | None => "undefined"
  end.

(** The body posted to the backend: [{ message, wallet_address? }]. *)
Record RequestBody := {
  req_message : option string;
  req_wallet_address : option string
}.

(** The parsed body of a backend response: [data.response]. *)
Record Data := { response : option string }.

(** What [fetch] resolves to: [response.ok] and [response.json()]. *)
Record Response := { ok : bool; json : Settled Data }.

(** [transactionParameters] *)
Record TransactionParameters := {
  from : string;
  to : string;
  value : string;
  gas : string
}.

(** [window.ethereum.request({ method, params })] *)
Inductive Method : Type :=
| eth_requestAccounts
| eth_accounts
| eth_sendTransaction (params : list TransactionParameters).

Definition result (m : Method) : Type :=
  match m with
  | eth_requestAccounts => list string
  | eth_accounts => list string
  | eth_sendTransaction _ => string
  end.

(** The closure handed to [setTimeout] in [handleSubmit], with the values
    it captured from the render it was created in. *)
Inductive Callback : Type :=
| resendPending (account pendingTransaction : option string).

(** The function registered with [window.ethereum.on]. *)
Inductive Listener : Type :=
| handleAccountsChangedRef.

(** Effects of a handler over component state [S]. *)
Inductive Effect (S : Type) : Type -> Type :=
| SetState (f : S -> S) : Effect S unit
| WindowEthereum : Effect S bool
| Fetch (route : string) (body : RequestBody) : Effect S (Settled Response)
| Request (m : Method) : Effect S (Settled (result m))
| SetTimeout (cb : Callback) (ms : nat) : Effect S unit
| On (event : string) (l : Listener) : Effect S unit
| RemoveListener (event : string) (l : Listener) : Effect S unit.
Arguments SetState {S} f.
Arguments WindowEthereum {S}.
Arguments Fetch {S} route body.
Arguments Request {S} m.
Arguments SetTimeout {S} cb ms.
Arguments On {S} event l.
Arguments RemoveListener {S} event l.

(** Handler programs: finite trees of effects ending in a value or in a
    thrown error. *)
Inductive Prog (S A : Type) : Type :=
| Ret (a : A)
| Throw (e : Error)
| Vis {X : Type} (e : Effect S X) (k : X -> Prog S A).
Arguments Ret {S A} a.
Arguments Throw {S A} e.
Arguments Vis {S A X} e k.

Fixpoint bind {S A B} (p : Prog S A) (f : A -> Prog S B) : Prog S B :=
  match p with
  | Ret a => f a
  | Throw e => Throw e
  | Vis e k => Vis e (fun x => bind (k x) f)
  end.

(** [try { p } catch (e) { h e }] *)
Fixpoint tryCatch {S A} (p : Prog S A) (h : Error -> Prog S A) : Prog S A :=
  match p with
  | Ret a => Ret a
  | Throw e => h e
  | Vis e k => Vis e (fun x => tryCatch (k x) h)
  end.

(** [try { p } finally { f }] *)
Fixpoint tryFinally {S A} (p : Prog S A) (f : Prog S unit) : Prog S A :=
  match p with
  | Ret a => bind f (fun _ => Ret a)
  | Throw e => bind f (fun _ => Throw e)
  | Vis e k => Vis e (fun x => tryFinally (k x) f)
  end.

Definition perform {S X} (e : Effect S X) : Prog S X := Vis e Ret.

(** [e.message]: reading a property of [null] or [undefined] throws. *)
Definition message {S} (e : Error) : Prog S (option string) :=
  match e with
  | nullish => Throw TypeError
  | thrown m => Ret m
  end.

(** [await e]: a rejection is thrown at the await. *)
Definition await {S X} (e : Effect S (Settled X)) : Prog S X :=
  Vis e (fun r => match r with
                  | Fulfilled x => Ret x
                  | Rejected err => Throw err
                  end).

(** [await] of a promise that is already at hand. *)
Definition awaitValue {S X} (r : Settled X) : Prog S X :=
  match r with
  | Fulfilled x => Ret x
  | Rejected err => Throw err
  end.

End Js.
Import Js.

Declare Scope prog_scope.
Delimit Scope prog_scope with prog.
Notation "x <- p ;; k" := (bind p (fun x => k))
  (at level 61, p at next level, right associativity) : prog_scope.
Notation "p ;; k" := (bind p (fun _ => k))
  (at level 61, right associativity) : prog_scope.
Local Open Scope prog_scope.

Module Runtime.

(** The injected wallet provider: what each request settles to. *)
Record Provider := { request : forall m : Method, Settled (result m) }.

(** The world outside the components. *)
Record Environment := {
  ethereum : option Provider;
  backend : string -> RequestBody -> Settled Response
}.

(** An external call a handler issued. *)
Inductive Call : Type :=
| CallFetch (route : string) (body : RequestBody)
| CallRequest (m : Method).

(** Interpreter state: the component state, the calls issued so far, each
    with the component state visible while it was outstanding, the pending
    timers and the listeners registered with the provider. *)
Record World (S : Type) := {
  store : S;
  trace : list (Call * S);
  timers : list (Callback * nat);
  listeners : list (string * Listener)
}.
Arguments store {S} w.
Arguments trace {S} w.
Arguments timers {S} w.
Arguments listeners {S} w.

Definition calls {S} (w : World S) : list Call := map fst (trace w).

Definition withStore {S} (w : World S) (s : S) : World S :=
  {| store := s; trace := trace w; timers := timers w; listeners := listeners w |}.

Definition logCall {S} (c : Call) (w : World S) : World S :=
  {| store := store w; trace := trace w ++ [(c, store w)];
     timers := timers w; listeners := listeners w |}.

Definition addTimer {S} (cb : Callback) (ms : nat) (w : World S) : World S :=
  {| store := store w; trace := trace w;
     timers := timers w ++ [(cb, ms)]; listeners := listeners w |}.

Definition listener_eqb (a b : string * Listener) : bool :=
  String.eqb (fst a) (fst b) &&
  match snd a, snd b with
  | handleAccountsChangedRef, handleAccountsChangedRef => true
  end.

(** [removeListener] removes one registration of the listener. *)
Fixpoint removeFirst (x : string * Listener) (l : list (string * Listener))
  : list (string * Listener) :=
  match l with
  | [] => []
  | y :: l' => if listener_eqb x y then l' else y :: removeFirst x l'
  end.

Definition setListeners {S} (ls : list (string * Listener)) (w : World S) : World S :=
  {| store := store w; trace := trace w; timers := timers w; listeners := ls |}.

Definition isSome {A} (o : option A) : bool :=
  match o with Some _ => true | None => false end.

Definition handle {S X} (env : Environment) (e : Effect S X) (w : World S)
  : X * World S :=
  match e in Effect _ X return X * World S with
  | SetState f => (tt, withStore w (f (store w)))
  | WindowEthereum => (isSome (ethereum env), w)
  | Fetch route body => (backend env route body, logCall (CallFetch route body) w)
  | Request m =>
      match ethereum env with
      | Some p => (request p m, logCall (CallRequest m) w)
      | None => (Rejected TypeError, w)
      end
  | SetTimeout cb ms => (tt, addTimer cb ms w)
  | On event l => (tt, setListeners (listeners w ++ [(event, l)]) w)
  | RemoveListener event l => (tt, setListeners (removeFirst (event, l) (listeners w)) w)
  end.

(** How a handler ended. *)
Inductive Completion (A : Type) : Type :=
| Returned (a : A)
| Uncaught (e : Error).
Arguments Returned {A} a.
Arguments Uncaught {A} e.

Fixpoint run {S A} (env : Environment) (p : Prog S A) (w : World S)
  : Completion A * World S :=
  match p with
  | Ret a => (Returned a, w)
  | Throw e => (Uncaught e, w)
  | Vis e k => let (x, w') := handle env e w in run env (k x) w'
  end.

Definition exec {S A} (env : Environment) (p : Prog S A) (w : World S) : World S :=
  snd (run env p w).

End Runtime.
Import Runtime.

(* ================================================================== *)
(** ** WalletProvider (contexts/WalletContext.js) *)
(* ================================================================== *)

Module Wallet.

Record State := {
  account : option string;
  isConnecting : bool;
  error : option string
}.

Definition setAccount (v : option string) : Prog State unit :=
  perform (SetState (fun s =>
    {| account := v; isConnecting := isConnecting s; error := error s |})).

Definition setIsConnecting (v : bool) : Prog State unit :=
  perform (SetState (fun s =>
    {| account := account s; isConnecting := v; error := error s |})).

Definition setError (v : option string) : Prog State unit :=
  perform (SetState (fun s =>
    {| account := account s; isConnecting := isConnecting s; error := v |})).

(** [typeof window !== 'undefined' && window.ethereum], as evaluated by a
    render. *)
Definition isMetaMaskAvailable (env : Environment) : bool :=
  isSome (ethereum env).

Definition connectWallet (isMetaMaskAvailable : bool) : Prog State unit :=
  if negb isMetaMaskAvailable then
    setError (Some "MetaMask is not installed. Please install MetaMask to connect your wallet.")
  else
    setIsConnecting true ;;
    setError None ;;
    tryFinally
      (tryCatch
         (accounts <- await (Request eth_requestAccounts) ;;
          if Nat.ltb 0 (List.length accounts) then
            setAccount (nth_error accounts 0)
          else
            setError (Some "No accounts found. Please create an account in MetaMask."))
         (fun error =>
            error_message <- message error ;;
            setError (Some (orElse error_message "Failed to connect to wallet"))))
      (setIsConnecting false).

Definition disconnectWallet : Prog State unit :=
  setAccount None.

Definition handleAccountsChanged (accounts : list string) : Prog State unit :=
  if Nat.ltb 0 (List.length accounts) then
    setAccount (nth_error accounts 0)
  else
    setAccount None.

(** The body of the account-change effect, run on mount. *)
Definition mountEffect (isMetaMaskAvailable : bool) : Prog State unit :=
  if isMetaMaskAvailable then
    perform (On "accountsChanged" handleAccountsChangedRef) ;;
    tryCatch
      (accounts <- await (Request eth_accounts) ;;
       handleAccountsChanged accounts)
      (fun _ => Ret tt)
  else
    Ret tt.

(** The clean-up function the effect returns, run on teardown. *)
Definition cleanupEffect (isMetaMaskAvailable : bool) : Prog State unit :=
  if isMetaMaskAvailable then
    perform (RemoveListener "accountsChanged" handleAccountsChangedRef)
  else
    Ret tt.

Definition listenerBody (l : Listener) : list string -> Prog State unit :=
  match l with
  | handleAccountsChangedRef => handleAccountsChanged
  end.

(** The provider emits [accountsChanged]: every listener registered for
    the event is called with the new account list. *)
Fixpoint emit (env : Environment) (ls : list (string * Listener))
  (accounts : list string) (w : World State) : World State :=
  match ls with
  | [] => w
  | (event, l) :: ls' =>
      if String.eqb event "accountsChanged" then
        emit env ls' accounts (exec env (listenerBody l accounts) w)
      else
        emit env ls' accounts w
  end.

Definition accountsChanged (env : Environment) (accounts : list string)
  (w : World State) : World State :=
  emit env (listeners w) accounts w.

(** The registration made by the account-change effect. *)
Definition accountsChangedListener : string * Listener :=
  ("accountsChanged", handleAccountsChangedRef).

(** Component life cycle and its controls, as events on the world. *)
Definition mount (env : Environment) (w : World State) : World State :=
  exec env (mountEffect (isMetaMaskAvailable env)) w.

Definition unmount (env : Environment) (w : World State) : World State :=
  exec env (cleanupEffect (isMetaMaskAvailable env)) w.

Definition connect (env : Environment) (w : World State) : World State :=
  exec env (connectWallet (isMetaMaskAvailable env)) w.

Definition disconnect (env : Environment) (w : World State) : World State :=
  exec env disconnectWallet w.

End Wallet.

(* ================================================================== *)
(** ** ChatInterface (the application component) *)
(* ================================================================== *)

Module Chat.

Inductive Sender : Type := user | bot.

Record Message := { text : string; type : Sender }.

Record State := {
  messages : list Message;
  inputText : string;
  isLoading : bool;
  awaitingConfirmation : bool;
  pendingTransaction : option string
}.

Definition BACKEND_ROUTE : string := "api/routes/chat/".

Definition setMessages (f : list Message -> list Message) : Prog State unit :=
  perform (SetState (fun s =>
    {| messages := f (messages s); inputText := inputText s;
       isLoading := isLoading s;
       awaitingConfirmation := awaitingConfirmation s;
       pendingTransaction := pendingTransaction s |})).

Definition setInputText (v : string) : Prog State unit :=
  perform (SetState (fun s =>
    {| messages := messages s; inputText := v;
       isLoading := isLoading s;
       awaitingConfirmation := awaitingConfirmation s;
       pendingTransaction := pendingTransaction s |})).

Definition setIsLoading (v : bool) : Prog State unit :=
  perform (SetState (fun s =>
    {| messages := messages s; inputText := inputText s;
       isLoading := v;
       awaitingConfirmation := awaitingConfirmation s;
       pendingTransaction := pendingTransaction s |})).

Definition setAwaitingConfirmation (v : bool) : Prog State unit :=
  perform (SetState (fun s =>
    {| messages := messages s; inputText := inputText s;
       isLoading := isLoading s;
       awaitingConfirmation := v;
       pendingTransaction := pendingTransaction s |})).

Definition setPendingTransaction (v : option string) : Prog State unit :=
  perform (SetState (fun s =>
    {| messages := messages s; inputText := inputText s;
       isLoading := isLoading s;
       awaitingConfirmation := awaitingConfirmation s;
       pendingTransaction := v |})).

(** [prev => [...prev, m]] *)
Definition append (m : Message) (prev : list Message) : list Message :=
  prev ++ [m].

Definition apology : string :=
  "Sorry, there was an error processing your request. Please try again.".

(** [requestBody]: the wallet address is included only when an account
    is connected. *)
Definition requestBody (account text : option string) : RequestBody :=
  {| req_message := text;
     req_wallet_address := if truthy account then account else None |}.

(** [handleSendMessage], closed over the [account] of its render.  The
    inner result is [Some v] when the transaction block returns [v] and
    [None] when control falls through to [return data.response]. *)
Definition handleSendMessage (account : option string) (text : option string)
  : Prog State string :=
  tryCatch
    (response <- await (Fetch BACKEND_ROUTE (requestBody account text)) ;;
     (if negb (ok response)
      then Throw (newError "Network response was not ok")
      else Ret tt) ;;
     data <- awaitValue (json response) ;;
     data_response <-
       match Js.response data with
       | Some r => Ret r
       | None => Throw TypeError
       end ;;
     (if includes data_response "Transaction Preview:" then
        setAwaitingConfirmation true ;;
        setPendingTransaction text
      else Ret tt) ;;
     returned <-
       (if includes data_response "tx_data:" then
          tryCatch
            (match txDataMatch data_response with
             | Some (toAddress, valueHex) =>
                 ethereum <- perform WindowEthereum ;;
                 match ethereum, asTruthy account with
                 | true, Some account =>
                     let transactionParameters :=
                       {| from := account;
                          to := toAddress;
                          value := valueHex;
                          gas := "0x5208" |} in
                     txHash <- await (Request (eth_sendTransaction [transactionParameters])) ;;
                     Ret (Some ("Transaction sent successfully! Transaction hash: " ++ txHash))
                 | _, _ => Ret None
                 end
             | None => Ret None
             end)
            (fun walletError =>
               walletError_message <- message walletError ;;
               Ret (Some ("Error sending transaction: " ++ template walletError_message)))
        else Ret None) ;;
     match returned with
     | Some v => Ret v
     | None => Ret data_response
     end)
    (fun error => Ret apology).

Definition cancelled : string :=
  "Transaction cancelled. How else can I help you?".

Definition connectFailed : string :=
  "Failed to connect wallet. Please connect your wallet and try again.".

(** How a block of [handleSubmit] ends: by falling through, or by
    [return]. *)
Inductive Exit : Type := FallThrough | Return.

(** [handleSubmit], closed over the [account] and the state of its
    render.  [connectFirst] is the condition [!account && window.ethereum]. *)
Definition handleSubmit (account : option string) (render : State)
  : Prog State unit :=
  if negb (nonEmpty (trim (inputText render))) || isLoading render then
    Ret tt
  else
    let messageText := trim (inputText render) in
    setInputText "" ;;
    setIsLoading true ;;
    setMessages (append {| text := messageText; type := user |}) ;;
    exit <-
      (if awaitingConfirmation render then
         if String.eqb (toUpperCase messageText) "CONFIRM" then
           setAwaitingConfirmation false ;;
           connectFirst <-
             (if negb (truthy account) then perform WindowEthereum
              else Ret false) ;;
           exit <-
             (if connectFirst then
                tryCatch
                  (accounts <- await (Request eth_requestAccounts) ;;
                   if Nat.ltb 0 (List.length accounts) then
                     perform (SetTimeout
                       (resendPending account (pendingTransaction render)) 1000) ;;
                     Ret Return
                   else
                     Ret FallThrough)
                  (fun error =>
                     setMessages (append {| text := connectFailed; type := bot |}) ;;
                     setIsLoading false ;;
                     Ret Return)
              else
                Ret FallThrough) ;;
           match exit with
           | Return => Ret Return
           | FallThrough =>
               response <- handleSendMessage account (pendingTransaction render) ;;
               setMessages (append {| text := response; type := bot |}) ;;
               Ret FallThrough
           end
         else
           setAwaitingConfirmation false ;;
           setPendingTransaction None ;;
           setMessages (append {| text := cancelled; type := bot |}) ;;
           Ret FallThrough
       else
         response <- handleSendMessage account (Some messageText) ;;
         setMessages (append {| text := response; type := bot |}) ;;
         Ret FallThrough) ;;
    match exit with
    | Return => Ret tt
    | FallThrough => setIsLoading false
    end.

(** The body of a timer callback. *)
Definition callbackBody (cb : Callback) : Prog State unit :=
  match cb with
  | resendPending account pendingTransaction =>
      response <- handleSendMessage account pendingTransaction ;;
      setMessages (append {| text := response; type := bot |}) ;;
      setIsLoading false
  end.

(** The form is submitted: the handler of the current render runs. *)
Definition submit (env : Environment) (account : option string)
  (w : World State) : World State :=
  exec env (handleSubmit account (store w)) w.

Definition clearTimers (w : World State) : World State :=
  {| store := store w; trace := trace w; timers := []; listeners := listeners w |}.

(** The pending timers fire, in the order they were set. *)
Fixpoint fire (env : Environment) (cbs : list (Callback * nat))
  (w : World State) : World State :=
  match cbs with
  | [] => w
  | (cb, _) :: cbs' => fire env cbs' (exec env (callbackBody cb) w)
  end.

(** One turn of the controller: a submission and the timer it may have
    set. *)
Definition turn (env : Environment) (account : option string)
  (w : World State) : World State :=
  let w' := submit env account w in
  fire env (timers w') (clearTimers w').

(** *** Observations used to state the properties *)

Local Open Scope list_scope.

(** The calls issued between two worlds of one run. *)
Definition issued {S} (w w' : World S) : list Call :=
  skipn (List.length (trace w)) (calls w').

(** The text of a backend reply the controller can use: the request
    succeeded, the status is 2xx and the body carries a [response]. *)
Definition replyText (r : Settled Response) : option string :=
  match r with
  | Fulfilled resp =>
      if ok resp then
        match json resp with
        | Fulfilled data => Js.response data
        | Rejected _ => None
        end
      else None
  | Rejected _ => None
  end.

(** A backend call that fails at the network level or answers with a
    non-2xx status. *)
Definition requestFailed (r : Settled Response) : bool :=
  match r with
  | Fulfilled resp => negb (ok resp)
  | Rejected _ => true
  end.

(** The value [handleSendMessage] returns once its transaction request
    has settled with [r]: the success text; the error text of the inner
    [catch]; or, when reading the message of the rejection throws there,
    the apology of the outer [catch]. *)
Definition relayed (r : Settled string) : string :=
  match r with
  | Fulfilled txHash => "Transaction sent successfully! Transaction hash: " ++ txHash
  | Rejected (thrown (Some walletError_message)) =>
      "Error sending transaction: " ++ walletError_message
  | Rejected (thrown None) => "Error sending transaction: undefined"
  | Rejected nullish => apology
  end.

(** The state after the preview check of a reply [r] to [text]
    (lines 72-75 of [handleSendMessage]). *)
Definition previewed (r : string) (text : option string) (s : State) : State :=
  if includes r "Transaction Preview:" then
    {| messages := messages s; inputText := inputText s;
       isLoading := isLoading s;
       awaitingConfirmation := true;
       pendingTransaction := text |}
  else s.

(** The state once [handleSubmit] has accepted [messageText]: the input
    is cleared, the turn is loading and the user message is appended;
    [awaiting] is the confirmation flag at that point. *)
Definition accepted (messageText : string) (awaiting : bool) (s : State) : State :=
  {| messages := messages s ++ [{| text := messageText; type := user |}];
     inputText := "";
     isLoading := true;
     awaitingConfirmation := awaiting;
     pendingTransaction := pendingTransaction s |}.

(** The state once a turn has ended with the bot message [reply]. *)
Definition finished (reply : string) (s : State) : State :=
  {| messages := messages s ++ [{| text := reply; type := bot |}];
     inputText := inputText s;
     isLoading := false;
     awaitingConfirmation := awaitingConfirmation s;
     pendingTransaction := pendingTransaction s |}.

(** The calls [handleSendMessage] can add to the trace: the backend call,
    then at most one transaction request. *)
Definition sendCalls (account text : option string) (s : State)
  (t : list (Call * State)) : Prop :=
  t = [(CallFetch BACKEND_ROUTE (requestBody account text), s)] \/
  exists params s',
    t = [(CallFetch BACKEND_ROUTE (requestBody account text), s);
         (CallRequest (eth_sendTransaction params), s')].

(** World [wF] is world [wX] after [handleSendMessage account text] has
    run there and its reply has been appended. *)
Definition Resolved (env : Environment) (account text : option string)
  (wX wF : World State) : Prop :=
  exists reply w',
    run env (handleSendMessage account text) wX = (Returned reply, w') /\
    store wF = finished reply (store w') /\
    trace wF = trace w'.

(** The ways a turn can go, from world [w] to world [wF]. *)
Inductive TurnPath (env : Environment) (account : option string)
  (w wF : World State) : Prop :=
| Ignored :
    nonEmpty (trim (inputText (store w))) = false \/ isLoading (store w) = true ->
    store wF = store w ->
    trace wF = trace w ->
    TurnPath env account w wF
| Cancelled :
    nonEmpty (trim (inputText (store w))) = true ->
    isLoading (store w) = false ->
    awaitingConfirmation (store w) = true ->
    String.eqb (toUpperCase (trim (inputText (store w)))) "CONFIRM" = false ->
    store wF =
      {| messages := messages (store w) ++
           [{| text := trim (inputText (store w)); type := user |};
            {| text := cancelled; type := bot |}];
         inputText := "";
         isLoading := false;
         awaitingConfirmation := false;
         pendingTransaction := None |} ->
    trace wF = trace w ->
    TurnPath env account w wF
| ConnectFailed (p : Provider) (e : Error) :
    nonEmpty (trim (inputText (store w))) = true ->
    isLoading (store w) = false ->
    awaitingConfirmation (store w) = true ->
    String.eqb (toUpperCase (trim (inputText (store w)))) "CONFIRM" = true ->
    truthy account = false ->
    ethereum env = Some p ->
    request p eth_requestAccounts = Rejected e ->
    store wF =
      finished connectFailed (accepted (trim (inputText (store w))) false (store w)) ->
    trace wF = trace w ++
      [(CallRequest eth_requestAccounts,
        accepted (trim (inputText (store w))) false (store w))] ->
    TurnPath env account w wF
| Submitted (wX : World State) :
    nonEmpty (trim (inputText (store w))) = true ->
    isLoading (store w) = false ->
    awaitingConfirmation (store w) = false ->
    store wX = accepted (trim (inputText (store w))) false (store w) ->
    trace wX = trace w ->
    Resolved env account (Some (trim (inputText (store w)))) wX wF ->
    TurnPath env account w wF
| Confirmed (wX : World State) :
    nonEmpty (trim (inputText (store w))) = true ->
    isLoading (store w) = false ->
    awaitingConfirmation (store w) = true ->
    String.eqb (toUpperCase (trim (inputText (store w)))) "CONFIRM" = true ->
    store wX = accepted (trim (inputText (store w))) false (store w) ->
    (truthy account = true \/ ethereum env = None) /\ trace wX = trace w
    \/
    (truthy account = false /\
     exists p accounts,
       ethereum env = Some p /\
       request p eth_requestAccounts = Fulfilled accounts /\
       trace wX = trace w ++
         [(CallRequest eth_requestAccounts,
           accepted (trim (inputText (store w))) false (store w))]) ->
    Resolved env account (pendingTransaction (store w)) wX wF ->
    TurnPath env account w wF.

(** The last message of the conversation. *)
Definition lastMessage (s : State) : option Message :=
  List.last (map Some (messages s)) None.

(** The controller is idle: no turn in progress, no confirmation awaited. *)
Definition idle (s : State) : bool :=
  negb (isLoading s) && negb (awaitingConfirmation s).

End Chat.

(* ================================================================== *)
(** ** Sample environments and worlds *)
(* ================================================================== *)

Module Samples.

(** A provider whose user approves every request. *)
Definition approving : Provider :=
  {| request := fun m =>
       match m return Settled (result m) with
       | eth_requestAccounts => Fulfilled ["0xme"; "0xother"]
       | eth_accounts => Fulfilled ["0xme"; "0xother"]
       | eth_sendTransaction _ => Fulfilled "0xHASH"
       end |}.

(** A provider that rejects every request with [e]. *)
Definition rejecting (e : Error) : Provider :=
  {| request := fun m =>
       match m return Settled (result m) with
       | eth_requestAccounts => Rejected e
       | eth_accounts => Rejected e
       | eth_sendTransaction _ => Rejected e
       end |}.

(** A provider with no account. *)
Definition accountless : Provider :=
  {| request := fun m =>
       match m return Settled (result m) with
       | eth_requestAccounts => Fulfilled []
       | eth_accounts => Fulfilled []
       | eth_sendTransaction _ => Rejected (newError "unauthorized")
       end |}.

(** A provider the page is not authorised with yet: it reports no
    account until the user approves the connection request. *)
Definition unauthorized : Provider :=
  {| request := fun m =>
       match m return Settled (result m) with
       | eth_requestAccounts => Fulfilled ["0xme"]
       | eth_accounts => Fulfilled []
       | eth_sendTransaction _ => Fulfilled "0xHASH"
       end |}.

(** A provider that rejects every request with [null]. *)
Definition silent : Provider :=
  {| request := fun m =>
       match m return Settled (result m) with
       | eth_requestAccounts => Rejected nullish
       | eth_accounts => Rejected nullish
       | eth_sendTransaction _ => Rejected nullish
       end |}.

(** A backend that answers every request with the text [r]. *)
Definition replying (r : string) (route : string) (body : RequestBody)
  : Settled Response :=
  Fulfilled {| ok := true; json := Fulfilled {| response := Some r |} |}.

(** A backend that answers with a non-2xx status. *)
Definition unavailable (route : string) (body : RequestBody) : Settled Response :=
  Fulfilled {| ok := false; json := Rejected (newError "Unexpected token") |}.

(** A backend that cannot be reached. *)
Definition offline (route : string) (body : RequestBody) : Settled Response :=
  Rejected (newError "Failed to fetch").

Definition world {S : Type} (s : S) : World S :=
  {| store := s; trace := []; timers := []; listeners := [] |}.

(** An idle conversation with [input] typed in. *)
Definition typed (input : string) : Chat.State :=
  {| Chat.messages := [];
     Chat.inputText := input;
     Chat.isLoading := false;
     Chat.awaitingConfirmation := false;
     Chat.pendingTransaction := None |}.

(** A conversation awaiting the confirmation of a transfer, with [input]
    typed in. *)
Definition awaiting (input : string) : Chat.State :=
  {| Chat.messages := [];
     Chat.inputText := input;
     Chat.isLoading := false;
     Chat.awaitingConfirmation := true;
     Chat.pendingTransaction := Some "send 5 wei to 0xABC" |}.

Definition disconnected : Wallet.State :=
  {| Wallet.account := None;
     Wallet.isConnecting := false;
     Wallet.error := Some "stale" |}.

Definition connected : Wallet.State :=
  {| Wallet.account := Some "0xme";
     Wallet.isConnecting := false;
     Wallet.error := None |}.

End Samples.

(* ================================================================== *)
(** ** WalletConnector (components/WalletConnector.js) *)
(* ================================================================== *)

Module Connector.

(** The first [n] characters of [s], and [s] without them. *)
Fixpoint take (n : nat) (s : string) : string :=
  match n, s with
  | S n', String c s' => String c (take n' s')
  | _, _ => EmptyString
  end.

Fixpoint drop (n : nat) (s : string) : string :=
  match n, s with
  | S n', String _ s' => drop n' s'
  | _, _ => s
  end.

(** An index argument of [substring], brought into [0 .. len]. *)
Definition clamp (len : nat) (i : Z) : nat :=
  Z.to_nat (Z.min (Z.max 0 i) (Z.of_nat len)).

(** [s.substring(start, finish)]: both indices are clamped to the string
    and swapped when out of order; without [finish] the substring runs to
    the end. *)
Definition substring (s : string) (start : Z) (finish : option Z) : string :=
  let len := String.length s in
  let a := clamp len start in
  let b := match finish with
           | Some e => clamp len e
           | None => len
           end in
  take (Nat.max a b - Nat.min a b) (drop (Nat.min a b) s).

(** [formatAddress]: the first 6 and the last 4 characters. *)
Definition formatAddress (address : option string) : string :=
  match asTruthy address with
  | None => ""
  | Some address =>
      substring address 0 (Some 6%Z) ++ "..." ++
      substring address (Z.of_nat (String.length address) - 4) None
  end.

(** The value of the wallet context, as [useWallet()] returns it. *)
Record Context := {
  account : option string;
  isConnecting : bool;
  error : option string;
  isMetaMaskAvailable : bool
}.

Definition useWallet (env : Environment) (s : Wallet.State) : Context :=
  {| account := Wallet.account s;
     isConnecting := Wallet.isConnecting s;
     error := Wallet.error s;
     isMetaMaskAvailable := Wallet.isMetaMaskAvailable env |}.

(** The handlers the component binds to its buttons. *)
Inductive Handler : Type := connectWallet | disconnectWallet.

(** What the component renders, without its styling. *)
Inductive Element : Type :=
| Badge (label : string)
| Button (label : string) (onClick : Handler) (disabled : bool)
| Link (label href : string)
| ErrorText (message : string).

Definition WalletConnector (ctx : Context) : list Element :=
  if truthy (account ctx) then
    [Badge (formatAddress (account ctx));
     Button "Disconnect" disconnectWallet false]
  else
    ((if negb (isMetaMaskAvailable ctx) then
        [Link "Install MetaMask" "https://metamask.io/download/"]
      else
        [Button (if isConnecting ctx then "Connecting..." else "Connect Wallet")
           connectWallet (isConnecting ctx)])
     ++
     match asTruthy (error ctx) with
     | Some message => [ErrorText message]
     | None => []
     end)%list.

(** The view of a wallet state. *)
Definition view (env : Environment) (s : Wallet.State) : list Element :=
  WalletConnector (useWallet env s).

End Connector.

(* ================================================================== *)
(** ** The wallet session under sequences of events *)
(* ================================================================== *)

Module Session.

Inductive Event : Type :=
| Mount
| Unmount
| Connect
| Disconnect
| AccountsChanged (accounts : list string).

Definition step (env : Environment) (w : World Wallet.State) (e : Event)
  : World Wallet.State :=
  match e with
  | Mount => Wallet.mount env w
  | Unmount => Wallet.unmount env w
  | Connect => Wallet.connect env w
  | Disconnect => Wallet.disconnect env w
  | AccountsChanged accounts => Wallet.accountsChanged env accounts w
  end.

Definition steps (env : Environment) (es : list Event) (w : World Wallet.State)
  : World Wallet.State :=
  fold_left (step env) es w.

(** The calls of the session: the two account requests. *)
Definition accountRequest (c : Call) : bool :=
  match c with
  | CallRequest eth_requestAccounts => true
  | CallRequest eth_accounts => true
  | _ => false
  end.

(** A call recorded with a consistent connecting flag: set while the
    authorization request is outstanding, and only then. *)
Definition consistent (entry : Call * Wallet.State) : bool :=
  match fst entry with
  | CallRequest eth_requestAccounts => Wallet.isConnecting (snd entry)
  | CallRequest eth_accounts => negb (Wallet.isConnecting (snd entry))
  | _ => false
  end.

End Session.

(* ================================================================== *)
(** ** The application: both components together *)
(* ================================================================== *)

Module App.

Definition connectedNotice (account : string) : string :=
  "Your wallet has been connected successfully! Your address is: " ++ account.

(** The effect of [ChatInterface] that announces a connected wallet. *)
Definition accountEffect (account : option string) : Prog Chat.State unit :=
  match asTruthy account with
  | Some account =>
      Chat.setMessages
        (Chat.append {| Chat.text := connectedNotice account; Chat.type := Chat.bot |})
  | None => Ret tt
  end.

(** The comparison of an effect's dependency between two renders. *)
Definition sameValue (a b : option string) : bool :=
  match a, b with
  | Some x, Some y => String.eqb x y
  | None, None => true
  | _, _ => false
  end.

(** A render of [ChatInterface] after [account] went from [previous] to
    [next]: the effect runs when its dependency changed. *)
Definition rerender (env : Environment) (previous next : option string)
  (c : World Chat.State) : World Chat.State :=
  if sameValue previous next then c else exec env (accountEffect next) c.

(** [onChange] of the input, which is disabled while loading. *)
Definition change (env : Environment) (value : string) (c : World Chat.State)
  : World Chat.State :=
  if Chat.isLoading (store c) then c else exec env (Chat.setInputText value) c.

Record World := {
  wallet : Runtime.World Wallet.State;
  chat : Runtime.World Chat.State
}.

Inductive Event : Type :=
| Session (e : Session.Event)
| Change (value : string)
| Submit
| Timeout.

Definition step (env : Environment) (w : World) (e : Event) : World :=
  match e with
  | Session e =>
      let wallet' := Session.step env (wallet w) e in
      {| wallet := wallet';
         chat := rerender env (Wallet.account (store (wallet w)))
                   (Wallet.account (store wallet')) (chat w) |}
  | Change value =>
      {| wallet := wallet w; chat := change env value (chat w) |}
  | Submit =>
      {| wallet := wallet w;
         chat := Chat.submit env (Wallet.account (store (wallet w))) (chat w) |}
  | Timeout =>
      {| wallet := wallet w;
         chat := Chat.fire env (timers (chat w)) (Chat.clearTimers (chat w)) |}
  end.

Definition steps (env : Environment) (es : list Event) (w : World) : World :=
  fold_left (step env) es w.

(** The state both components start in. *)
Definition greeting : string :=
  "Hi, I'm Artemis! 👋 I'm your Copilot for Flare, ready to help you with operations like connecting your wallet, sending tokens, and executing token swaps. 

⚠️ While I aim to be accurate, never risk funds you can't afford to lose.".

Definition initial : World :=
  {| wallet :=
       {| store := {| Wallet.account := None;
                      Wallet.isConnecting := false;
                      Wallet.error := None |};
          trace := []; timers := []; listeners := [] |};
     chat :=
       {| store := {| Chat.messages := [{| Chat.text := greeting; Chat.type := Chat.bot |}];
                      Chat.inputText := "";
                      Chat.isLoading := false;
                      Chat.awaitingConfirmation := false;
                      Chat.pendingTransaction := None |};
          trace := []; timers := []; listeners := [] |} |}.

(** The pending timer of a resubmission: one callback that captured a
    falsy account and a non-empty text. *)
Definition resubmission (t : list (Callback * nat)) : Prop :=
  exists account text,
    t = [(resendPending account (Some text), 1000)] /\
    truthy account = false /\ nonEmpty text = true.

(** What holds of the chat component between events. *)
Definition Stable (c : Runtime.World Chat.State) : Prop :=
  (Chat.awaitingConfirmation (store c) = true ->
   exists text, Chat.pendingTransaction (store c) = Some text /\
                nonEmpty text = true) /\
  (timers c = [] /\ Chat.isLoading (store c) = false
   \/
   resubmission (timers c) /\
   Chat.isLoading (store c) = true /\
   Chat.awaitingConfirmation (store c) = false).

(** Every backend call went to the fixed route with a non-empty message. *)
Definition CallsOk (c : Runtime.World Chat.State) : Prop :=
  forall route body,
    In (CallFetch route body) (calls c) ->
    route = Chat.BACKEND_ROUTE /\
    exists text, req_message body = Some text /\ nonEmpty text = true.

End App.

Import Chat.
Local Open Scope prog_scope.

(* ================================================================== *)
(** ** Facts about the string operations *)
(* ================================================================== *)

Lemma startsWith_prefix (s p : string) :
  startsWith s p = true -> exists r, s = p ++ r.
Proof.
  revert s; induction p as [|a p IH]; intros s; simpl.
  - intros _. now exists s.
  - destruct s as [|c s]; [discriminate|]. intros H.
    apply andb_true_iff in H as [E H]. apply Ascii.eqb_eq in E as ->.
    destruct (IH _ H) as [r ->]. now exists r.
Qed.

Lemma lookup_Some (table : list (string * string)) (s key image : string) :
  lookup table s = Some (key, image) ->
  In (key, image) table /\ exists r, s = key ++ r.
Proof.
  induction table as [|[k i] table IH]; simpl; [discriminate|].
  destruct (startsWith s k) eqn:P.
  - intros [= -> ->]. split; [now left | now apply startsWith_prefix].
  - intros H. destruct (IH H) as [I R]. split; [now right | exact R].
Qed.

(** The bytes of a character already converted are passed over. *)
Lemma upper_skip (key r : string) :
  upper (String.length key) (key ++ r) = upper 0 r.
Proof. induction key as [|c key IH]; simpl; [reflexivity | exact IH]. Qed.

Lemma upperTable_nonEmpty (key image : string) :
  In (key, image) upperTable -> nonEmpty key = true /\ nonEmpty image = true.
Proof.
  assert (A : forallb (fun e => nonEmpty (fst e) && nonEmpty (snd e)) upperTable = true)
    by (vm_compute; reflexivity).
  intros I. rewrite forallb_forall in A. apply A in I. simpl in I.
  now apply andb_true_iff in I.
Qed.

(** How an upper-cased text can begin with an ASCII character [a]: with
    an ASCII character of the text whose upper case is [a], or with the
    upper case of one of the characters of the table. *)
Lemma upper_head (s : string) (a : ascii) (t : string) :
  isAscii a = true ->
  toUpperCase s = String a t ->
  (exists c s',
     s = String c s' /\ upcase c = a /\ toUpperCase s' = t)
  \/
  (exists key image r,
     In (key, image)
        (filter (fun e => startsWith (String a t) (snd e)) upperTable) /\
     s = key ++ r /\
     image ++ toUpperCase r = String a t).
Proof.
  intros A. unfold toUpperCase. destruct s as [|c s]; [discriminate|].
  cbn [upper]. destruct (isAscii c) eqn:Ac.
  - intros [= U T]. left. now exists c, s.
  - destruct (lookup upperTable (String c s)) as [[key image]|] eqn:L.
    + apply lookup_Some in L as [I [r R]].
      destruct (upperTable_nonEmpty _ _ I) as [K _].
      destruct key as [|k key]; [discriminate|]. simpl in R.
      injection R as -> ->.
      replace (String.length (String k key) - 1) with (String.length key)
        by (simpl; lia).
      rewrite upper_skip.
      intros H. right. exists (String k key), image, r.
      split; [|split; [reflexivity | exact H]].
      apply filter_In. split; [exact I|]. cbn [snd]. rewrite <- H.
      clear. induction image as [|i image IH]; simpl; [reflexivity|].
      now rewrite Ascii.eqb_refl.
    + intros [= -> _]. congruence.
Qed.

Lemma toUpperCase_empty (s : string) : toUpperCase s = "" -> s = "".
Proof.
  unfold toUpperCase. destruct s as [|c s]; [reflexivity|]. cbn [upper].
  destruct (isAscii c); [discriminate|].
  destruct (lookup upperTable (String c s)) as [[key image]|] eqn:L;
    [|discriminate].
  apply lookup_Some in L as [I _].
  destruct (upperTable_nonEmpty _ _ I) as [_ N].
  destruct image; discriminate.
Qed.

(** The ASCII characters with a given upper-case letter. *)
Lemma upcase_letter (c a : ascii) :
  between 65 90 a = true -> upcase c = a ->
  c = a \/ c = ascii_of_nat (code a + 32).
Proof.
  intros B <-.
  destruct c as [[] [] [] [] [] [] [] []];
    first [discriminate B | left; reflexivity | right; reflexivity].
Qed.

(** The test of [handleSubmit], [messageText.toUpperCase() === 'CONFIRM'],
    is case-insensitive equality with [CONFIRM]. *)
Lemma confirm_test (s : string) :
  String.eqb (toUpperCase s) "CONFIRM" = equalsIgnoreCase s "CONFIRM".
Proof. reflexivity. Qed.

Lemma equalsIgnoreCase_nonEmpty (s t : string) :
  equalsIgnoreCase s t = true -> nonEmpty t = true -> nonEmpty s = true.
Proof.
  unfold equalsIgnoreCase. intros E N. apply String.eqb_eq in E.
  destruct s as [|c s]; [|reflexivity].
  symmetry in E. apply toUpperCase_empty in E. subst t. discriminate.
Qed.

Lemma String_tail (a : ascii) (x y : string) : String a x = String a y -> x = y.
Proof. now intros [= ->]. Qed.

(** One character of the text against the head of a known upper case. *)
Ltac upper_step H :=
  let c := fresh "c" in
  let s := fresh "s" in
  let U := fresh "U" in
  let I := fresh "I" in
  let key := fresh "key" in
  let image := fresh "image" in
  apply upper_head in H; [|reflexivity];
  destruct H as [(c & s & -> & U & H) | (key & image & s & I & -> & H)];
  [ apply upcase_letter in U; [|reflexivity]; destruct U as [-> | ->]
  | vm_compute in I;
    repeat (destruct I as [I | I];
            [injection I as <- <-; simpl in H; repeat apply String_tail in H|]);
    try contradiction ].

(** All the texts with a known upper case, character by character. *)
Ltac spell H :=
  lazymatch type of H with
  | toUpperCase _ = EmptyString =>
      apply toUpperCase_empty in H; subst; reflexivity
  | toUpperCase _ = String _ _ => upper_step H; spell H
  end.

(** The texts whose upper case is [CONFIRM]: the word in either letter
    case, also with a dotless i or with the ligature of f and i. *)
Lemma confirm_spellings (s : string) :
  equalsIgnoreCase s "CONFIRM" = true <-> In s confirmSpellings.
Proof.
  split.
  - intros H. rewrite <- confirm_test in H. apply String.eqb_eq in H.
    assert (G : existsb (String.eqb s) confirmSpellings = true).
    { spell H. }
    apply existsb_exists in G as (x & I & E). apply String.eqb_eq in E.
    now subst.
  - intros I.
    assert (A : forallb (fun x => equalsIgnoreCase x "CONFIRM") confirmSpellings = true)
      by (vm_compute; reflexivity).
    rewrite forallb_forall in A. now apply A.
Qed.

Lemma startsWith_app (p s : string) : startsWith (p ++ s) p = true.
Proof.
  induction p as [|a p IH]; simpl; [reflexivity|].
  now rewrite Ascii.eqb_refl.
Qed.

Lemma includes_app (pre needle post : string) :
  includes (pre ++ needle ++ post) needle = true.
Proof.
  induction pre as [|c pre IH]; simpl.
  - destruct (needle ++ post) eqn:E; simpl; rewrite <- E, startsWith_app; reflexivity.
  - rewrite IH. apply orb_true_r.
Qed.

Lemma append_assoc (a b c : string) : (a ++ b) ++ c = a ++ (b ++ c).
Proof. induction a as [|x a IH]; simpl; [reflexivity | now rewrite IH]. Qed.

(** *** The marker pattern *)

Lemma expect_app (lit s : string) : expect lit (lit ++ s) = Some s.
Proof.
  induction lit as [|a lit IH]; simpl; [reflexivity|].
  now rewrite Ascii.eqb_refl.
Qed.

Lemma expect_inv (lit s r : string) : expect lit s = Some r -> s = lit ++ r.
Proof.
  revert s; induction lit as [|a lit IH]; intros s; simpl.
  - now intros [= ->].
  - destruct s as [|c s]; [discriminate|].
    destruct (Ascii.eqb_spec a c) as [->|]; [|discriminate].
    intros H. now rewrite (IH _ H).
Qed.

Lemma span_inv (p : ascii -> bool) (s h r : string) :
  span p s = (h, r) -> s = h ++ r /\ allChars p h = true.
Proof.
  revert h r; induction s as [|c s IH]; intros h r; simpl.
  - now intros [= <- <-].
  - destruct (p c) eqn:Pc.
    + destruct (span p s) as [h' r'] eqn:E. intros [= <- <-].
      destruct (IH _ _ eq_refl) as [-> A]. simpl. now rewrite Pc, A.
    + now intros [= <- <-].
Qed.

(** A run followed by a character outside the class is the greedy run. *)
Lemma span_app_stop (p : ascii -> bool) (h : string) (c : ascii) (r : string) :
  allChars p h = true -> p c = false ->
  span p (h ++ String c r) = (h, String c r).
Proof.
  intros A Pc; induction h as [|x h IH]; simpl in *.
  - now rewrite Pc.
  - apply andb_true_iff in A as [Px A]. now rewrite Px, (IH A).
Qed.

(** A run is a prefix of the greedy run. *)
Lemma span_app_prefix (p : ascii -> bool) (h r : string) :
  allChars p h = true ->
  exists h' r', span p (h ++ r) = (h ++ h', r').
Proof.
  intros A; induction h as [|x h IH]; simpl in *.
  - destruct (span p r) as [h' r'] eqn:E. now exists h', r'.
  - apply andb_true_iff in A as [Px A]. rewrite Px.
    destruct (IH A) as (h' & r' & ->). now exists h', r'.
Qed.

Lemma plus_inv (p : ascii -> bool) (s h r : string) :
  plus p s = Some (h, r) ->
  s = h ++ r /\ nonEmpty h = true /\ allChars p h = true.
Proof.
  unfold plus. destruct (span p s) as [h' r'] eqn:E.
  destruct h' as [|c h']; [discriminate|]. intros [= <- <-].
  destruct (span_inv _ _ _ _ E) as [-> A]. now repeat split.
Qed.

Lemma hexGroup_inv (s g r : string) :
  hexGroup s = Some (g, r) ->
  exists a, g = "0x" ++ a /\ s = g ++ r /\
            nonEmpty a = true /\ allChars isHexDigit a = true.
Proof.
  unfold hexGroup. destruct (expect "0x" s) as [r0|] eqn:E; [|discriminate].
  destruct (plus isHexDigit r0) as [[h r']|] eqn:P; [|discriminate].
  intros [= <- <-]. apply expect_inv in E. apply plus_inv in P as (-> & N & A).
  exists h. subst s. now repeat split.
Qed.

Lemma hexGroup_app (a r : string) :
  nonEmpty a = true -> allChars isHexDigit a = true ->
  hexGroup (("0x" ++ a) ++ String ":" r) = Some ("0x" ++ a, String ":" r).
Proof.
  intros N A. unfold hexGroup.
  change (("0x" ++ a) ++ String ":" r) with ("0x" ++ (a ++ String ":" r)).
  rewrite expect_app. unfold plus.
  rewrite (span_app_stop isHexDigit a ":" r A eq_refl).
  destruct a; [discriminate | reflexivity].
Qed.

Lemma matchAt_sound (s g1 g2 : string) :
  matchAt s = Some (g1, g2) -> MarkerAt s g1 g2.
Proof.
  unfold matchAt.
  destruct (expect "tx_data:" s) as [r0|] eqn:E0; [|discriminate].
  destruct (hexGroup r0) as [[x1 r1]|] eqn:H1; [|discriminate].
  destruct (expect ":" r1) as [r2|] eqn:E1; [|discriminate].
  destruct (hexGroup r2) as [[x2 r3]|] eqn:H2; [|discriminate].
  destruct (expect ":" r3) as [r4|] eqn:E2; [|discriminate].
  destruct (plus isDigit r4) as [[d post]|] eqn:P; [|discriminate].
  intros [= <- <-].
  apply expect_inv in E0, E1, E2.
  apply hexGroup_inv in H1 as (a & G1 & S1 & N1 & A1).
  apply hexGroup_inv in H2 as (b & G2 & S2 & N2 & A2).
  apply plus_inv in P as (S4 & N4 & A4).
  exists a, b, d, post. repeat split; try assumption.
  rewrite E0, S1, E1, S2, E2, S4. reflexivity.
Qed.

Lemma matchAt_complete (s g1 g2 : string) :
  MarkerAt s g1 g2 -> matchAt s = Some (g1, g2).
Proof.
  intros (a & b & d & post & -> & -> & -> & Na & Aa & Nb & Ab & Nd & Ad).
  unfold matchAt. rewrite expect_app.
  change (("0x" ++ a) ++ ":" ++ ?r) with (("0x" ++ a) ++ String ":" r).
  rewrite (hexGroup_app _ _ Na Aa).
  change (expect ":" (String ":" ?r)) with (Some r).
  cbv beta iota.
  change (("0x" ++ b) ++ ":" ++ ?r) with (("0x" ++ b) ++ String ":" r).
  rewrite (hexGroup_app _ _ Nb Ab).
  change (expect ":" (String ":" ?r)) with (Some r).
  cbv beta iota. unfold plus.
  destruct (span_app_prefix isDigit d post Ad) as (h' & r' & ->).
  destruct d; [discriminate | reflexivity].
Qed.

(** At a given position the matcher and the pattern agree, capture groups
    included. *)
Lemma matchAt_iff (s g1 g2 : string) :
  matchAt s = Some (g1, g2) <-> MarkerAt s g1 g2.
Proof. split; [apply matchAt_sound | apply matchAt_complete]. Qed.

Lemma txDataMatch_here (s : string) (m : string * string) :
  matchAt s = Some m -> txDataMatch s = Some m.
Proof. destruct s; cbn [txDataMatch]; now intros ->. Qed.

Lemma txDataMatch_later (c : ascii) (s : string) :
  matchAt (String c s) = None -> txDataMatch (String c s) = txDataMatch s.
Proof. cbn [txDataMatch]. now intros ->. Qed.

(** A match is a marker of the text. *)
Lemma txDataMatch_sound (s g1 g2 : string) :
  txDataMatch s = Some (g1, g2) -> Marker s g1 g2.
Proof.
  induction s as [|c s IH]; cbn [txDataMatch].
  - destruct (matchAt "") as [m|] eqn:E; [|discriminate].
    intros [= ->]. exists "", "". split; [reflexivity | now apply matchAt_sound].
  - destruct (matchAt (String c s)) as [m|] eqn:E.
    + intros [= ->]. exists "", (String c s).
      split; [reflexivity | now apply matchAt_sound].
    + intros H. destruct (IH H) as (pre & rest & -> & R).
      exists (String c pre), rest. now split.
Qed.

(** A text with a marker has a match. *)
Lemma txDataMatch_complete (s g1 g2 : string) :
  Marker s g1 g2 -> exists m, txDataMatch s = Some m.
Proof.
  intros (pre & rest & -> & M). induction pre as [|c pre IH].
  - exists (g1, g2). apply txDataMatch_here. now apply matchAt_complete.
  - destruct IH as [m IH].
    change (String c pre ++ rest) with (String c (pre ++ rest)).
    cbn [txDataMatch]. destruct (matchAt _) as [m'|]; [now exists m' | now exists m].
Qed.

(** The match is the leftmost marker: when no marker starts inside [pre],
    the groups are those of the marker that starts right after it. *)
Lemma txDataMatch_leftmost (pre rest g1 g2 : string) :
  MarkerAt rest g1 g2 ->
  (forall pre1 pre2 h1 h2,
     pre = pre1 ++ pre2 -> nonEmpty pre2 = true ->
     ~ MarkerAt (pre2 ++ rest) h1 h2) ->
  txDataMatch (pre ++ rest) = Some (g1, g2).
Proof.
  intros M. induction pre as [|c pre IH]; intros None_before.
  - apply txDataMatch_here. now apply matchAt_complete.
  - change (String c pre ++ rest) with (String c (pre ++ rest)).
    rewrite txDataMatch_later.
    + apply IH. intros pre1 pre2 h1 h2 -> N.
      apply (None_before (String c pre1) pre2); [reflexivity | exact N].
    + destruct (matchAt (String c (pre ++ rest))) as [[h1 h2]|] eqn:E;
        [|reflexivity].
      exfalso. apply matchAt_sound in E.
      apply (None_before "" (String c pre) h1 h2); [reflexivity | reflexivity | exact E].
Qed.

Lemma txDataMatch_includes (s : string) (m : string * string) :
  txDataMatch s = Some m -> includes s "tx_data:" = true.
Proof.
  destruct m as [g1 g2]. intros H.
  destruct (txDataMatch_sound _ _ _ H)
    as (pre & rest & -> & a & b & d & post & -> & _).
  apply includes_app.
Qed.

(* ================================================================== *)
(** ** Facts about the interpreter *)
(* ================================================================== *)

Section Run.
Context {S : Type} (env : Environment).

Lemma run_bind {A B} (p : Prog S A) (f : A -> Prog S B) (w : World S) :
  run env (bind p f) w =
  match run env p w with
  | (Returned a, w') => run env (f a) w'
  | (Uncaught e, w') => (Uncaught e, w')
  end.
Proof.
  revert w; induction p as [a|e|X e k IH]; intros w; simpl; try reflexivity.
  destruct (handle env e w) as [x w']. apply IH.
Qed.

Lemma run_tryCatch {A} (p : Prog S A) (h : Error -> Prog S A) (w : World S) :
  run env (tryCatch p h) w =
  match run env p w with
  | (Returned a, w') => (Returned a, w')
  | (Uncaught e, w') => run env (h e) w'
  end.
Proof.
  revert w; induction p as [a|e|X e k IH]; intros w; simpl; try reflexivity.
  destruct (handle env e w) as [x w']. apply IH.
Qed.

Lemma run_tryFinally {A} (p : Prog S A) (f : Prog S unit) (w : World S) :
  run env (tryFinally p f) w =
  match run env p w with
  | (Returned a, w') =>
      match run env f w' with
      | (Returned _, w'') => (Returned a, w'')
      | (Uncaught e, w'') => (Uncaught e, w'')
      end
  | (Uncaught e, w') =>
      match run env f w' with
      | (Returned _, w'') => (Uncaught e, w'')
      | (Uncaught e', w'') => (Uncaught e', w'')
      end
  end.
Proof.
  revert w; induction p as [a|e|X e k IH]; intros w; simpl.
  - rewrite run_bind. now destruct (run env f w) as [[]].
  - rewrite run_bind. now destruct (run env f w) as [[]].
  - destruct (handle env e w) as [x w']. apply IH.
Qed.

End Run.

Lemma issued_app {S} (w w' : World S) (t : list (Call * S)) :
  trace w' = (trace w ++ t)%list -> issued w w' = map fst t.
Proof.
  unfold issued, calls. intros ->. rewrite map_app.
  rewrite <- (length_map fst (trace w)).
  rewrite skipn_app, skipn_all, Nat.sub_diag. reflexivity.
Qed.

(* ================================================================== *)
(** ** [handleSendMessage] *)
(* ================================================================== *)

Section SendMessage.
Variables (env : Environment) (account text : option string).
Variable w : World State.

Let body := requestBody account text.
Let fetched := logCall (CallFetch BACKEND_ROUTE body) w.

(** The backend call fails, or its reply is unusable: the apology. *)
Lemma handleSendMessage_failure :
  replyText (backend env BACKEND_ROUTE body) = None ->
  run env (handleSendMessage account text) w = (Returned apology, fetched).
Proof.
  unfold replyText, handleSendMessage. simpl. fold body.
  destruct (backend env BACKEND_ROUTE body) as [resp|e]; simpl; [|reflexivity].
  destruct (ok resp); simpl; [|reflexivity].
  destruct (json resp) as [data|e]; simpl; [|reflexivity].
  destruct (Js.response data); [discriminate | reflexivity].
Qed.

(** A usable reply without a transaction to relay: the reply itself. *)
Lemma handleSendMessage_plain (r : string) :
  replyText (backend env BACKEND_ROUTE body) = Some r ->
  includes r "tx_data:" = false \/ txDataMatch r = None \/
  ethereum env = None \/ truthy account = false ->
  run env (handleSendMessage account text) w =
  (Returned r, withStore fetched (previewed r text (store fetched))).
Proof.
  intros R H. unfold replyText in R. unfold handleSendMessage. simpl. fold body.
  destruct (backend env BACKEND_ROUTE body) as [resp|e]; simpl in *; [|discriminate].
  destruct (ok resp); simpl in *; [|discriminate].
  destruct (json resp) as [data|e]; simpl in *; [|discriminate].
  rewrite R. simpl. fold fetched. unfold previewed.
  destruct (includes r "Transaction Preview:"); simpl;
    (destruct (includes r "tx_data:"); simpl; [|reflexivity]);
    (destruct (txDataMatch r) as [[toAddress valueHex]|]; simpl; [|reflexivity]);
    (destruct (ethereum env); simpl; [|reflexivity]);
    (destruct account as [[|c a]|]; simpl; try reflexivity);
    destruct H as [H|[H|[H|H]]]; discriminate.
Qed.

(** A usable reply with a marker, a provider and a connected account:
    the transaction is relayed and the reply replaced. *)
Lemma handleSendMessage_relay (r toAddress valueHex from : string) (p : Provider) :
  replyText (backend env BACKEND_ROUTE body) = Some r ->
  txDataMatch r = Some (toAddress, valueHex) ->
  ethereum env = Some p ->
  asTruthy account = Some from ->
  let m := eth_sendTransaction
             [{| Js.from := from; to := toAddress; value := valueHex; gas := "0x5208" |}] in
  let w1 := withStore fetched (previewed r text (store fetched)) in
  run env (handleSendMessage account text) w =
  (Returned (relayed (request p m)), logCall (CallRequest m) w1).
Proof.
  intros R M E A. assert (I := txDataMatch_includes _ _ M).
  unfold replyText in R. unfold handleSendMessage. simpl. fold body.
  destruct (backend env BACKEND_ROUTE body) as [resp|e]; simpl in *; [|discriminate].
  destruct (ok resp); simpl in *; [|discriminate].
  destruct (json resp) as [data|e]; simpl in *; [|discriminate].
  rewrite R. simpl. fold fetched. unfold previewed.
  destruct (includes r "Transaction Preview:"); simpl;
    rewrite I; simpl; rewrite M; simpl; rewrite E; simpl; rewrite A; simpl;
    rewrite E; destruct (request p _) as [txHash|[|[walletError_message|]]];
    reflexivity.
Qed.

End SendMessage.

Lemma asTruthy_None (v : option string) :
  asTruthy v = None <-> truthy v = false.
Proof. destruct v as [[|c s]|]; simpl; split; congruence. Qed.

Lemma asTruthy_Some (v : option string) (s : string) :
  asTruthy v = Some s <-> v = Some s /\ truthy v = true.
Proof.
  destruct v as [[|c t]|]; simpl; split;
    try (intros [= <-]; now split); try (intros [[= <-] _]; reflexivity);
    try discriminate; intros [? ?]; discriminate.
Qed.

Ltac plain R :=
  eexists _, _, _; rewrite (handleSendMessage_plain _ _ _ _ _ R); [|tauto];
  repeat (split; [reflexivity|]); now left.

(** [handleSendMessage] always returns: its outer handler catches every
    failure.  It sets no timer and registers no listener. *)
Lemma handleSendMessage_returns (env : Environment) (account text : option string)
  (w : World State) :
  exists reply w' t,
    run env (handleSendMessage account text) w = (Returned reply, w') /\
    timers w' = timers w /\ listeners w' = listeners w /\
    trace w' = (trace w ++ t)%list /\ sendCalls account text (store w) t.
Proof.
  destruct (replyText (backend env BACKEND_ROUTE (requestBody account text)))
    as [r|] eqn:R.
  - destruct (includes r "tx_data:") eqn:I;
      [destruct (txDataMatch r) as [[toAddress valueHex]|] eqn:M;
       [destruct (ethereum env) as [p|] eqn:E;
        [destruct (asTruthy account) as [from|] eqn:A|]|]|].
    + eexists _, _, _. rewrite (handleSendMessage_relay _ _ _ _ _ _ _ _ _ R M E A).
      split; [reflexivity|]. split; [reflexivity|]. split; [reflexivity|].
      split; [simpl; rewrite <- app_assoc; reflexivity|].
      right. eexists _, _. reflexivity.
    + apply asTruthy_None in A. plain R.
    + plain R.
    + plain R.
    + plain R.
  - eexists _, _, _. rewrite (handleSendMessage_failure _ _ _ _ R).
    repeat (split; [reflexivity|]). now left.
Qed.

(* ================================================================== *)
(** ** [handleSubmit] and the turn *)
(* ================================================================== *)

Opaque handleSendMessage.

Ltac resolve_with path :=
  match goal with
  | T : timers _ = [] |- context [run ?env (bind (bind (handleSendMessage ?a ?t) _) _) ?wx] =>
      destruct (handleSendMessage_returns env a t wx)
        as (reply & w' & tr & R & Tm & Ls & Tr & SC);
      rewrite !run_bind, R; simpl; rewrite ?Tm; simpl; rewrite ?T; simpl;
      path wx; try assumption; try reflexivity;
      try (exists reply, w'; repeat split; assumption)
  end.

(** Every turn follows one of the paths of [TurnPath]. *)
Theorem turn_path (env : Environment) (account : option string) (w : World State) :
  timers w = [] ->
  TurnPath env account w (turn env account w).
Proof.
  intros T. unfold turn, submit, exec, handleSubmit.
  destruct (nonEmpty (trim (inputText (store w)))) eqn:N; simpl;
    [|apply Ignored; [now left| |]; rewrite T; reflexivity].
  destruct (isLoading (store w)) eqn:L; simpl;
    [apply Ignored; [now right| |]; rewrite T; reflexivity|].
  destruct (awaitingConfirmation (store w)) eqn:AW.
  - destruct (String.eqb (toUpperCase (trim (inputText (store w)))) "CONFIRM") eqn:C.
    + simpl. destruct (truthy account) eqn:TA; simpl.
      * resolve_with ltac:(fun wx => apply (Confirmed env account w _ wx));
          left; now split; [left|].
      * destruct (ethereum env) as [p|] eqn:E; simpl.
        -- rewrite E. destruct (request p eth_requestAccounts) as [accounts|e] eqn:RQ; simpl.
           ++ destruct accounts as [|a accounts]; simpl.
              ** resolve_with ltac:(fun wx => apply (Confirmed env account w _ wx));
                   right; split; [assumption|]; exists p, []; now repeat split.
              ** rewrite T. simpl. unfold exec.
                 match goal with
                 | |- context [run env (bind (handleSendMessage ?acc ?txt) _) ?wx] =>
                     destruct (handleSendMessage_returns env acc txt wx)
                       as (reply & w' & tr & R & Tm & Ls & Tr & SC);
                     rewrite run_bind, R; simpl;
                     apply (Confirmed env account w _ wx); try assumption; try reflexivity;
                       [right; split; [assumption|]; exists p, (a :: accounts); now repeat split
                       |exists reply, w'; now repeat split]
                 end.
           ++ rewrite T. simpl. eapply ConnectFailed; eauto.
        -- resolve_with ltac:(fun wx => apply (Confirmed env account w _ wx));
          left; now split; [right|].
    + simpl. rewrite T. simpl.
      apply Cancelled; simpl; try assumption; try reflexivity.
      unfold append. now rewrite <- app_assoc.
  - simpl. resolve_with ltac:(fun wx => apply (Submitted env account w _ wx)).
Qed.

Transparent handleSendMessage.

(** *** What a resolved backend call leaves behind *)

Section Resolution.
Variables (env : Environment) (account text : option string).
Variables wX wF : World State.
Hypothesis resolved : Resolved env account text wX wF.

Let body := requestBody account text.
Let fetch := (CallFetch BACKEND_ROUTE body, store wX).

Lemma Resolved_failure :
  replyText (backend env BACKEND_ROUTE body) = None ->
  store wF = finished apology (store wX) /\
  trace wF = (trace wX ++ [fetch])%list.
Proof.
  intros R. destruct resolved as (reply & w' & Run & St & Tr).
  rewrite (handleSendMessage_failure _ _ _ _ R) in Run.
  injection Run as <- <-. now split.
Qed.

Lemma Resolved_plain (r : string) :
  replyText (backend env BACKEND_ROUTE body) = Some r ->
  includes r "tx_data:" = false \/ txDataMatch r = None \/
  ethereum env = None \/ truthy account = false ->
  store wF = finished r (previewed r text (store wX)) /\
  trace wF = (trace wX ++ [fetch])%list.
Proof.
  intros R H. destruct resolved as (reply & w' & Run & St & Tr).
  rewrite (handleSendMessage_plain _ _ _ _ _ R H) in Run.
  injection Run as <- <-. now split.
Qed.

Lemma Resolved_relay (r toAddress valueHex connected : string) (p : Provider) :
  replyText (backend env BACKEND_ROUTE body) = Some r ->
  txDataMatch r = Some (toAddress, valueHex) ->
  ethereum env = Some p ->
  asTruthy account = Some connected ->
  let m := eth_sendTransaction
             [{| from := connected; to := toAddress; value := valueHex; gas := "0x5208" |}] in
  store wF = finished (relayed (request p m)) (previewed r text (store wX)) /\
  trace wF = (trace wX ++ [fetch; (CallRequest m, previewed r text (store wX))])%list.
Proof.
  intros R M E A m. destruct resolved as (reply & w' & Run & St & Tr).
  rewrite (handleSendMessage_relay _ _ _ _ _ _ _ _ _ R M E A) in Run.
  injection Run as <- <-. split; [exact St|].
  rewrite Tr. simpl. now rewrite <- app_assoc.
Qed.

(** Whatever the reply, the calls of a resolution start with the backend
    call and go on with transaction requests only. *)
Lemma Resolved_calls :
  exists t, trace wF = (trace wX ++ t)%list /\ sendCalls account text (store wX) t.
Proof.
  destruct resolved as (reply & w' & Run & St & Tr).
  destruct (handleSendMessage_returns env account text wX)
    as (reply' & w'' & t & Run' & _ & _ & Tr' & SC).
  rewrite Run in Run'. injection Run' as <- <-.
  exists t. now rewrite Tr.
Qed.

End Resolution.

Lemma In_sendCalls (account text : option string) (s : State)
  (t : list (Call * State)) (route : string) (body : RequestBody) :
  sendCalls account text s t ->
  In (CallFetch route body) (map fst t) ->
  route = BACKEND_ROUTE /\ body = requestBody account text.
Proof.
  intros [->|(params & s' & ->)]; simpl; intros [H|H];
    try (injection H as <- <-; now split);
    try contradiction; destruct H as [H|[]]; discriminate.
Qed.

(** Every backend call of a turn is a call of [handleSendMessage], made
    from an accepted submission with the confirmation flag cleared. *)
Lemma turn_backend_call (env : Environment) (account : option string)
  (w : World State) (route : string) (body : RequestBody) :
  timers w = [] ->
  In (CallFetch route body) (issued w (turn env account w)) ->
  let st := store w in
  let messageText := trim (inputText st) in
  exists text wX pre,
    route = BACKEND_ROUTE /\ body = requestBody account text /\
    nonEmpty messageText = true /\ isLoading st = false /\
    (awaitingConfirmation st = false /\ text = Some messageText /\ pre = []
     \/
     awaitingConfirmation st = true /\
     String.eqb (toUpperCase messageText) "CONFIRM" = true /\
     text = pendingTransaction st /\
     (pre = [] \/
      truthy account = false /\
      pre = [(CallRequest eth_requestAccounts, accepted messageText false st)])) /\
    store wX = accepted messageText false st /\
    trace wX = (trace w ++ pre)%list /\
    Resolved env account text wX (turn env account w).
Proof.
  intros T I st messageText.
  destruct (turn_path env account w T)
    as [G St Tr | N L AW C St Tr | p e N L AW C TA E RQ St Tr
        | wX N L AW StX TrX Res | wX N L AW C StX Pre Res].
  - rewrite (issued_app w _ [] ) in I by (now rewrite app_nil_r). destruct I.
  - rewrite (issued_app w _ [] ) in I by (now rewrite app_nil_r). destruct I.
  - rewrite (issued_app w _ _ Tr) in I. destruct I as [I|[]]. discriminate.
  - destruct (Resolved_calls _ _ _ _ _ Res) as (t & Tr & SC).
    rewrite TrX in Tr. rewrite (issued_app w _ _ Tr) in I.
    destruct (In_sendCalls _ _ _ _ _ _ SC I) as [-> ->].
    exists (Some messageText), wX, []. rewrite app_nil_r.
    repeat split; try assumption. now left.
  - destruct (Resolved_calls _ _ _ _ _ Res) as (t & Tr & SC).
    destruct Pre as [[_ TrX] | (TA & p & accounts & E & RQ & TrX)].
    + rewrite TrX in Tr. rewrite (issued_app w _ _ Tr) in I.
      destruct (In_sendCalls _ _ _ _ _ _ SC I) as [-> ->].
      exists (pendingTransaction st), wX, []. rewrite app_nil_r.
      repeat split; try assumption. right. repeat split; try assumption. now left.
    + rewrite TrX, <- app_assoc in Tr. rewrite (issued_app w _ _ Tr) in I.
      rewrite map_app in I. apply in_app_or in I as [[I|[]]|I]; [discriminate|].
      destruct (In_sendCalls _ _ _ _ _ _ SC I) as [-> ->].
      eexists (pendingTransaction st), wX, _.
      repeat split; try eassumption. right. repeat split; try assumption.
      right. now split.
Qed.

(* ================================================================== *)
(** ** Properties of the chat controller *)
(* ================================================================== *)

Lemma lastMessage_finished (reply : string) (s : State) :
  lastMessage (finished reply s) = Some {| text := reply; type := bot |}.
Proof.
  unfold lastMessage, finished. simpl. rewrite map_app. simpl.
  apply last_last.
Qed.

Lemma messages_previewed (r : string) (text : option string) (s : State) :
  messages (previewed r text s) = messages s.
Proof. unfold previewed. now destruct (includes r _). Qed.

Lemma messages_resolved (reply r messageText : string) (text : option string)
  (s : State) :
  messages (finished reply (previewed r text (accepted messageText false s))) =
  (messages s ++ [{| text := messageText; type := user |};
                  {| text := reply; type := bot |}])%list.
Proof.
  unfold finished. simpl. rewrite messages_previewed. simpl.
  now rewrite <- app_assoc.
Qed.

Lemma requestFailed_replyText (r : Settled Response) :
  requestFailed r = true -> replyText r = None.
Proof.
  destruct r as [resp|e]; simpl; [|reflexivity].
  now destruct (ok resp).
Qed.

Lemma not_In_sendTransaction (account text : option string) (s : State)
  (t : list (Call * State)) (pre : list (Call * State)) :
  t = [(CallFetch BACKEND_ROUTE (requestBody account text), s)] ->
  pre = [] \/ (exists s', pre = [(CallRequest eth_requestAccounts, s')]) ->
  forall params,
    ~ In (CallRequest (eth_sendTransaction params)) (map fst (pre ++ t)%list).
Proof.
  intros -> [->|[s' ->]] params; simpl; intros H;
    repeat (destruct H as [H|H]; [discriminate|]); exact H.
Qed.

(** C8: every backend call of a turn that fails at the network level or
    is answered with a non-2xx status resolves the turn with the fixed
    apology as the last bot message; the loading flag is cleared and the
    controller is idle, so that a further submission is accepted. *)
Theorem C8_backend_failure_apology
  (env : Environment) (account : option string) (w : World State)
  (body : RequestBody) :
  timers w = [] ->
  In (CallFetch BACKEND_ROUTE body) (issued w (turn env account w)) ->
  requestFailed (backend env BACKEND_ROUTE body) = true ->
  let wF := turn env account w in
  messages (store wF) =
    (messages (store w) ++
       [{| text := trim (inputText (store w)); type := user |};
        {| text := "Sorry, there was an error processing your request. Please try again.";
           type := bot |}])%list /\
  isLoading (store wF) = false /\
  idle (store wF) = true.
Proof.
  intros T I F wF.
  destruct (turn_backend_call env account w _ _ T I)
    as (text & wX & pre & _ & -> & N & L & _ & StX & TrX & Res).
  apply requestFailed_replyText in F.
  destruct (Resolved_failure _ _ _ _ _ Res F) as [St _].
  unfold wF. rewrite St, StX. unfold idle. simpl.
  rewrite <- app_assoc. now repeat split.
Qed.

(** C9: a reply that contains [tx_data:] without matching the whole
    pattern is passed on untouched: no transaction request is made, and
    the raw reply is the bot message of the turn. *)
Theorem C9_malformed_marker_ignored
  (env : Environment) (account : option string) (w : World State)
  (body : RequestBody) (r : string) :
  timers w = [] ->
  In (CallFetch BACKEND_ROUTE body) (issued w (turn env account w)) ->
  replyText (backend env BACKEND_ROUTE body) = Some r ->
  includes r "tx_data:" = true ->
  txDataMatch r = None ->
  let wF := turn env account w in
  (forall params, ~ In (CallRequest (eth_sendTransaction params)) (issued w wF)) /\
  messages (store wF) =
    (messages (store w) ++
       [{| text := trim (inputText (store w)); type := user |};
        {| text := r; type := bot |}])%list /\
  isLoading (store wF) = false.
Proof.
  intros T I R _ M wF.
  destruct (turn_backend_call env account w _ _ T I)
    as (text & wX & pre & _ & -> & N & L & Cases & StX & TrX & Res).
  destruct (Resolved_plain _ _ _ _ _ Res r R) as [St Tr]; [tauto|].
  unfold wF. split; [|rewrite St, StX, messages_resolved; now split].
  rewrite TrX, <- app_assoc in Tr. rewrite (issued_app w _ _ Tr).
  apply (not_In_sendTransaction account text (store wX)); [reflexivity|].
  destruct Cases as [(_ & _ & ->)|(_ & _ & _ & [->|[_ ->]])]; eauto.
Qed.

(** C3: with no account connected, a reply that carries the preview
    marker leaves the controller awaiting confirmation, with the text
    that was sent to the backend as the pending transaction; no
    transaction request is made, whatever else the reply contains. *)
Theorem C3_preview_without_wallet
  (env : Environment) (account : option string) (w : World State)
  (body : RequestBody) (r : string) :
  timers w = [] ->
  truthy account = false ->
  In (CallFetch BACKEND_ROUTE body) (issued w (turn env account w)) ->
  replyText (backend env BACKEND_ROUTE body) = Some r ->
  includes r "Transaction Preview:" = true ->
  let wF := turn env account w in
  awaitingConfirmation (store wF) = true /\
  isLoading (store wF) = false /\
  pendingTransaction (store wF) = req_message body /\
  req_message body =
    (if awaitingConfirmation (store w) then pendingTransaction (store w)
     else Some (trim (inputText (store w)))) /\
  (forall params, ~ In (CallRequest (eth_sendTransaction params)) (issued w wF)) /\
  lastMessage (store wF) = Some {| text := r; type := bot |}.
Proof.
  intros T TA I R P wF.
  destruct (turn_backend_call env account w _ _ T I)
    as (text & wX & pre & _ & -> & N & L & Cases & StX & TrX & Res).
  destruct (Resolved_plain _ _ _ _ _ Res r R) as [St Tr]; [tauto|].
  unfold wF. rewrite St, lastMessage_finished. unfold previewed. rewrite P. simpl.
  repeat split.
  - destruct Cases as [(-> & -> & _)|(-> & _ & -> & _)]; reflexivity.
  - rewrite TrX, <- app_assoc in Tr. rewrite (issued_app w _ _ Tr).
    apply (not_In_sendTransaction account text (store wX)); [reflexivity|].
    destruct Cases as [(_ & _ & ->)|(_ & _ & _ & [->|[_ ->]])]; eauto.
Qed.

(** X24: with a provider present and a handler whose [account] is truthy,
    a reply that carries a [tx_data] marker makes the controller request
    the transaction from that account to the matched address, with the
    matched hexadecimal value and a gas of [0x5208].  In place of the
    reply, the bot message of the turn is the success text with the
    provider's transaction hash; the error text with the message of the
    rejection ([undefined] when the rejected value has none); or the
    apology, when the rejected value is [null] or [undefined] and reading
    its message throws. *)
Theorem relay_with_captured_account
  (env : Environment) (p : Provider) (account : option string)
  (connected : string) (w : World State) (body : RequestBody)
  (r toAddress valueHex : string) :
  timers w = [] ->
  ethereum env = Some p ->
  asTruthy account = Some connected ->
  In (CallFetch BACKEND_ROUTE body) (issued w (turn env account w)) ->
  replyText (backend env BACKEND_ROUTE body) = Some r ->
  txDataMatch r = Some (toAddress, valueHex) ->
  let m := eth_sendTransaction
             [{| from := connected; to := toAddress; value := valueHex;
                 gas := "0x5208" |}] in
  let wF := turn env account w in
  Marker r toAddress valueHex /\
  issued w wF = [CallFetch BACKEND_ROUTE body; CallRequest m] /\
  messages (store wF) =
    (messages (store w) ++
       [{| text := trim (inputText (store w)); type := user |};
        {| text :=
             match request p m with
             | Fulfilled txHash =>
                 "Transaction sent successfully! Transaction hash: " ++ txHash
             | Rejected (thrown (Some walletError_message)) =>
                 "Error sending transaction: " ++ walletError_message
             | Rejected (thrown None) =>
                 "Error sending transaction: undefined"
             | Rejected nullish =>
                 "Sorry, there was an error processing your request. Please try again."
             end;
           type := bot |}])%list /\
  isLoading (store wF) = false.
Proof.
  intros T E A I R M m wF.
  destruct (turn_backend_call env account w _ _ T I)
    as (text & wX & pre & _ & -> & N & L & Cases & StX & TrX & Res).
  destruct (Resolved_relay _ _ _ _ _ Res r _ _ _ p R M E A) as [St Tr].
  assert (pre = []) as ->.
  { apply asTruthy_Some in A as [_ A].
    destruct Cases as [(_ & _ & ->)|(_ & _ & _ & [->|[TA _]])];
      [reflexivity | reflexivity | congruence]. }
  rewrite app_nil_r in TrX. rewrite TrX in Tr. unfold wF.
  split; [now apply txDataMatch_sound|].
  split; [now rewrite (issued_app w _ _ Tr)|].
  rewrite St, StX, messages_resolved. now split.
Qed.

Lemma issued_nil {S} (w w' : World S) : trace w' = trace w -> issued w w' = [].
Proof. intros H. apply (issued_app w w' []). now rewrite app_nil_r. Qed.

(** The first call of a resolution, after the calls [pre] made before it. *)
Lemma Resolved_first_call (env : Environment) (account text : option string)
  (w wX wF : World State) (pre : list (Call * State)) :
  trace wX = (trace w ++ pre)%list ->
  Resolved env account text wX wF ->
  exists rest,
    issued w wF =
      (map fst pre ++ CallFetch BACKEND_ROUTE (requestBody account text) :: rest)%list.
Proof.
  intros TrX Res. destruct (Resolved_calls _ _ _ _ _ Res) as (t & Tr & SC).
  rewrite TrX, <- app_assoc in Tr. rewrite (issued_app w _ _ Tr), map_app.
  destruct SC as [->|(params & s' & ->)]; simpl; eauto.
Qed.

(** C2, as the code has it: a submission made while confirmation is
    awaited is ignored when its trimmed text is empty (nothing is appended
    and the confirmation stays awaited).  Otherwise it goes on to the
    confirmation path (a wallet-connection request, or the pending text
    sent to the backend) exactly when the trimmed text equals [CONFIRM]
    up to letter case, that is, when its upper case is [CONFIRM]; any
    other such submission issues no call, clears the confirmation state,
    appends the fixed cancellation message and leaves the controller
    idle.  The texts that equal [CONFIRM] up to letter case are the
    spellings of the word with each letter in either case, the [i] also
    dotless and [fi] also as a ligature: no other text confirms. *)
Theorem C2_confirmation_matching
  (env : Environment) (account : option string) (w : World State) :
  timers w = [] ->
  awaitingConfirmation (store w) = true ->
  isLoading (store w) = false ->
  let messageText := trim (inputText (store w)) in
  let wF := turn env account w in
  (nonEmpty messageText = false ->
   store wF = store w /\ issued w wF = []) /\
  (nonEmpty messageText = true ->
   ((exists c rest,
       issued w wF = c :: rest /\
       (c = CallRequest eth_requestAccounts \/
        c = CallFetch BACKEND_ROUTE
              (requestBody account (pendingTransaction (store w)))))
    <-> equalsIgnoreCase messageText "CONFIRM" = true) /\
   (equalsIgnoreCase messageText "CONFIRM" = false ->
    issued w wF = [] /\
    store wF =
      {| messages :=
           messages (store w) ++
             [{| text := messageText; type := user |};
              {| text := "Transaction cancelled. How else can I help you?";
                 type := bot |}];
         inputText := "";
         isLoading := false;
         awaitingConfirmation := false;
         pendingTransaction := None |} /\
    idle (store wF) = true)) /\
  (equalsIgnoreCase messageText "CONFIRM" = true <->
   In messageText confirmSpellings).
Proof.
  intros T AW L messageText wF. unfold wF, messageText.
  apply and_assoc. split; [|apply confirm_spellings].
  destruct (turn_path env account w T)
    as [[G|G] St Tr | N _ _ C St Tr | p e N _ _ C TA E RQ St Tr
        | wX _ _ AW' StX TrX Res | wX N _ _ C StX Pre Res];
    try congruence; try rewrite confirm_test in C;
    (split; [intros N' | intros N']); try congruence.
  - split; [exact St | now apply issued_nil].
  - rewrite (issued_nil _ _ Tr), C. split.
    + split; [intros (c & rest & H & _); discriminate | discriminate].
    + intros _. rewrite St. now repeat split.
  - rewrite (issued_app w _ _ Tr), C. split; [|discriminate].
    split; [reflexivity|]. intros _. simpl. eauto.
  - rewrite C. split; [|discriminate]. split; [reflexivity|]. intros _.
    destruct Pre as [[_ TrX] | (TA & p & accounts & E & RQ & TrX)].
    + rewrite <- (app_nil_r (trace w)) in TrX.
      destruct (Resolved_first_call _ _ _ _ _ _ _ TrX Res) as [rest ->].
      simpl. eauto.
    + destruct (Resolved_first_call _ _ _ _ _ _ _ TrX Res) as [rest ->].
      simpl. eauto.
Qed.

(** C10: a confirmation given with no account connected and no provider
    present skips the connection step: the only call of the turn is the
    backend call that resubmits the pending text, without a wallet
    address; its reply (or the apology, if it fails) is the only bot
    message appended, and no transaction request is made. *)
Theorem C10_confirm_without_provider
  (env : Environment) (account : option string) (w : World State) :
  timers w = [] ->
  awaitingConfirmation (store w) = true ->
  isLoading (store w) = false ->
  equalsIgnoreCase (trim (inputText (store w))) "CONFIRM" = true ->
  truthy account = false ->
  ethereum env = None ->
  let body := {| req_message := pendingTransaction (store w);
                 req_wallet_address := None |} in
  let wF := turn env account w in
  issued w wF = [CallFetch BACKEND_ROUTE body] /\
  messages (store wF) =
    (messages (store w) ++
       [{| text := trim (inputText (store w)); type := user |};
        {| text :=
             match replyText (backend env BACKEND_ROUTE body) with
             | Some r => r
             | None => apology
             end;
           type := bot |}])%list /\
  isLoading (store wF) = false.
Proof.
  intros T AW L C TA E body wF. unfold wF.
  assert (N := equalsIgnoreCase_nonEmpty _ _ C eq_refl).
  assert (B : requestBody account (pendingTransaction (store w)) = body)
    by (unfold requestBody; now rewrite TA).
  destruct (turn_path env account w T)
    as [[G|G] St Tr | _ _ _ C' St Tr | p e _ _ _ _ _ E' _ St Tr
        | wX _ _ AW' StX TrX Res | wX _ _ _ _ StX Pre Res];
    try congruence.
  - rewrite confirm_test in C'. congruence.
  - destruct Pre as [[_ TrX] | (_ & p & accounts & E' & _)]; [|congruence].
    destruct (replyText (backend env BACKEND_ROUTE body)) as [r|] eqn:R;
      rewrite <- B in R.
    + destruct (Resolved_plain _ _ _ _ _ Res r R) as [St Tr]; [tauto|].
      rewrite TrX in Tr. rewrite (issued_app w _ _ Tr), St, StX, messages_resolved, B.
      now repeat split.
    + destruct (Resolved_failure _ _ _ _ _ Res R) as [St Tr].
      rewrite TrX in Tr. rewrite (issued_app w _ _ Tr), St, StX, B.
      unfold finished; simpl. rewrite <- app_assoc. now repeat split.
Qed.

(** A resolution leaves the pending slot as it was, or holding the text
    it sent. *)
Lemma Resolved_pending (env : Environment) (account text : option string)
  (wX wF : World State) :
  Resolved env account text wX wF ->
  pendingTransaction (store wF) = pendingTransaction (store wX) \/
  pendingTransaction (store wF) = text.
Proof.
  intros Res.
  destruct (replyText (backend env BACKEND_ROUTE (requestBody account text)))
    as [r|] eqn:R.
  - assert (St : exists reply,
               store wF = finished reply (previewed r text (store wX))).
    { destruct (includes r "tx_data:") eqn:I;
        [destruct (txDataMatch r) as [[toAddress valueHex]|] eqn:M;
         [destruct (ethereum env) as [p|] eqn:E;
          [destruct (asTruthy account) as [connected|] eqn:A|]|]|];
        try (eexists; apply (Resolved_plain _ _ _ _ _ Res r R); tauto).
      - eexists. apply (Resolved_relay _ _ _ _ _ Res r _ _ _ p R M E A).
      - apply asTruthy_None in A.
        eexists; apply (Resolved_plain _ _ _ _ _ Res r R); tauto. }
    destruct St as [reply ->]. unfold previewed.
    destruct (includes r "Transaction Preview:"); simpl; auto.
  - destruct (Resolved_failure _ _ _ _ _ Res R) as [-> _]. now left.
Qed.

(** C5, as the code has it: the controller stores at most one pending
    transaction, in a slot that a turn leaves empty or holding the text
    that was pending.  While confirmation is awaited, a submission whose
    trimmed text is empty is ignored and clears nothing.  A cancellation
    (a non-empty submission other than [CONFIRM]) leaves the slot empty
    and the confirmation flag cleared.  A confirmation clears the flag
    before any call is made, and every backend call it makes carries the
    pending text. *)
Theorem C5_pending_transaction_slot
  (env : Environment) (account : option string) (w : World State) :
  timers w = [] ->
  awaitingConfirmation (store w) = true ->
  isLoading (store w) = false ->
  let messageText := trim (inputText (store w)) in
  let wF := turn env account w in
  (pendingTransaction (store wF) = None \/
   pendingTransaction (store wF) = pendingTransaction (store w)) /\
  (nonEmpty messageText = false -> store wF = store w) /\
  (nonEmpty messageText = true ->
   equalsIgnoreCase messageText "CONFIRM" = false ->
   pendingTransaction (store wF) = None /\
   awaitingConfirmation (store wF) = false) /\
  (equalsIgnoreCase messageText "CONFIRM" = true ->
   (exists c s rest,
      skipn (List.length (trace w)) (trace wF) = (c, s) :: rest /\
      awaitingConfirmation s = false) /\
   (forall body,
      In (CallFetch BACKEND_ROUTE body) (issued w wF) ->
      req_message body = pendingTransaction (store w))).
Proof.
  intros T AW L messageText wF. unfold wF, messageText.
  assert (Calls : forall body,
            In (CallFetch BACKEND_ROUTE body) (issued w (turn env account w)) ->
            req_message body = pendingTransaction (store w)).
  { intros body I.
    destruct (turn_backend_call env account w _ _ T I)
      as (text & wX & pre & _ & -> & _ & _ & Cases & _).
    destruct Cases as [(AW' & _)|(_ & _ & -> & _)]; [congruence | reflexivity]. }
  destruct (turn_path env account w T)
    as [[G|G] St Tr | N _ _ C St Tr | p e N _ _ C TA E RQ St Tr
        | wX _ _ AW' StX TrX Res | wX N _ _ C StX Pre Res];
    try congruence; try rewrite confirm_test in C.
  - split; [right; now rewrite St|]. split; [now intros _|].
    split; [congruence|]. intros C.
    apply equalsIgnoreCase_nonEmpty in C; [congruence | reflexivity].
  - rewrite St, C. simpl. split; [now left|]. split; [congruence|].
    split; [now intros _ _ | discriminate].
  - rewrite St, Tr, C. simpl. split; [now right|]. split; [congruence|].
    split; [discriminate|]. intros _. split; [|exact Calls].
    rewrite skipn_app, skipn_all, Nat.sub_diag. simpl. eauto.
  - rewrite C. split; [|split; [congruence|split; [discriminate|]]].
    + right. destruct (Resolved_pending _ _ _ _ _ Res) as [-> | ->];
        [now rewrite StX | reflexivity].
    + intros _. split; [|exact Calls].
      destruct (Resolved_calls _ _ _ _ _ Res) as (t & Tr & SC). rewrite Tr.
      destruct Pre as [[_ TrX] | (TA & p & accounts & E & RQ & TrX)]; rewrite TrX.
      * rewrite skipn_app, skipn_all, Nat.sub_diag. simpl.
        destruct SC as [->|(params & s' & ->)]; rewrite StX; simpl; eauto.
      * rewrite <- app_assoc, skipn_app, skipn_all, Nat.sub_diag. simpl. eauto.
Qed.

(** On a confirmation the confirm branch itself never resets the slot:
    it still holds the pending text when the turn is over. *)
Lemma confirm_keeps_pending
  (env : Environment) (account : option string) (w : World State) :
  timers w = [] ->
  awaitingConfirmation (store w) = true ->
  isLoading (store w) = false ->
  equalsIgnoreCase (trim (inputText (store w))) "CONFIRM" = true ->
  pendingTransaction (store (turn env account w)) = pendingTransaction (store w).
Proof.
  intros T AW L C. assert (N := equalsIgnoreCase_nonEmpty _ _ C eq_refl).
  destruct (turn_path env account w T)
    as [[G|G] St Tr | _ _ _ C' St Tr | p e _ _ _ _ TA E RQ St Tr
        | wX _ _ AW' StX TrX Res | wX _ _ _ _ StX Pre Res];
    try congruence.
  - rewrite confirm_test in C'. congruence.
  - now rewrite St.
  - destruct (Resolved_pending _ _ _ _ _ Res) as [-> | ->];
      [now rewrite StX | reflexivity].
Qed.

(* ================================================================== *)
(** ** Properties of the wallet session *)
(* ================================================================== *)

(** X7: After a connection made from the confirm branch, the pending text is
    resubmitted by code that was created before the connection: with the
    [account] of that render, which is not connected.  The backend call
    carries no wallet address and no transaction is requested, whatever
    the reply. *)
Lemma connect_first_resubmission
  (env : Environment) (p : Provider) (account : option string)
  (accounts : list string) (w : World State) :
  timers w = [] ->
  awaitingConfirmation (store w) = true ->
  isLoading (store w) = false ->
  equalsIgnoreCase (trim (inputText (store w))) "CONFIRM" = true ->
  truthy account = false ->
  ethereum env = Some p ->
  request p eth_requestAccounts = Fulfilled accounts ->
  issued w (turn env account w) =
    [CallRequest eth_requestAccounts;
     CallFetch BACKEND_ROUTE
       {| req_message := pendingTransaction (store w);
          req_wallet_address := None |}].
Proof.
  intros T AW L C TA E RQ.
  assert (N := equalsIgnoreCase_nonEmpty _ _ C eq_refl).
  assert (B : requestBody account (pendingTransaction (store w)) =
              {| req_message := pendingTransaction (store w);
                 req_wallet_address := None |})
    by (unfold requestBody; now rewrite TA).
  destruct (turn_path env account w T)
    as [[G|G] St Tr | _ _ _ C' St Tr | p' e _ _ _ _ _ E' RQ' St Tr
        | wX _ _ AW' StX TrX Res | wX _ _ _ _ StX Pre Res];
    try congruence.
  - rewrite confirm_test in C'. congruence.
  - destruct Pre as [[[TA'|E'] _] | (_ & p' & accounts' & _ & _ & TrX)];
      try congruence.
    assert (Tr : trace (turn env account w) =
                 (trace wX ++ [(CallFetch BACKEND_ROUTE
                                  (requestBody account (pendingTransaction (store w))),
                                store wX)])%list).
    { destruct (replyText (backend env BACKEND_ROUTE
                   (requestBody account (pendingTransaction (store w)))))
        as [r|] eqn:R.
      - apply (Resolved_plain _ _ _ _ _ Res r R). tauto.
      - apply (Resolved_failure _ _ _ _ _ Res R). }
    rewrite TrX, <- app_assoc in Tr.
    rewrite (issued_app w _ _ Tr), B. reflexivity.
Qed.

Import Wallet.

Lemma handleAccountsChanged_exec (env : Environment) (accounts : list string)
  (w : World State) :
  exec env (handleAccountsChanged accounts) w =
  withStore w {| account := hd_error accounts;
                 isConnecting := isConnecting (store w);
                 error := error (store w) |}.
Proof. destruct accounts; reflexivity. Qed.

Lemma emit_flags (env : Environment) (accounts : list string)
  (ls : list (string * Listener)) (w : World State) :
  isConnecting (store (emit env ls accounts w)) = isConnecting (store w) /\
  error (store (emit env ls accounts w)) = error (store w) /\
  trace (emit env ls accounts w) = trace w /\
  listeners (emit env ls accounts w) = listeners w.
Proof.
  revert w; induction ls as [|[event l] ls IH]; intros w; simpl; [tauto|].
  destruct (String.eqb event "accountsChanged"); [|apply IH].
  destruct l; simpl. rewrite handleAccountsChanged_exec.
  destruct (IH (withStore w {| account := hd_error accounts;
                               isConnecting := isConnecting (store w);
                               error := error (store w) |}))
    as (-> & -> & -> & ->). now repeat split.
Qed.

Lemma emit_account (env : Environment) (accounts : list string)
  (ls : list (string * Listener)) (w : World State) :
  account (store (emit env ls accounts w)) =
  if existsb (fun l => String.eqb (fst l) "accountsChanged") ls
  then hd_error accounts
  else account (store w).
Proof.
  revert w; induction ls as [|[event l] ls IH]; intros w; simpl; [reflexivity|].
  destruct (String.eqb event "accountsChanged"); simpl; [|apply IH].
  destruct l; simpl. rewrite handleAccountsChanged_exec, IH. simpl.
  now destruct (existsb _ ls).
Qed.

Lemma emit_unheard (env : Environment) (accounts : list string)
  (ls : list (string * Listener)) (w : World State) :
  ~ In accountsChangedListener ls -> emit env ls accounts w = w.
Proof.
  induction ls as [|[event l] ls IH]; simpl; [reflexivity|]. intros H.
  destruct (String.eqb_spec event "accountsChanged") as [->|_].
  - destruct l. exfalso. apply H. now left.
  - apply IH. intros I. apply H. now right.
Qed.

Lemma removeFirst_last (x : string * Listener) (ls : list (string * Listener)) :
  ~ In x ls -> removeFirst x (ls ++ [x]) = ls.
Proof.
  induction ls as [|y ls IH]; simpl; intros H.
  - unfold listener_eqb. rewrite String.eqb_refl. now destruct (snd x).
  - destruct (listener_eqb x y) eqn:Q.
    + exfalso. apply H. left. unfold listener_eqb in Q.
      apply andb_true_iff in Q as [Q _]. apply String.eqb_eq in Q.
      destruct x as [e []], y as [e' []]. simpl in Q. now subst.
    + f_equal. apply IH. intros I. apply H. now right.
Qed.


(** C4, as the code has it: with a provider present, [connectWallet]
    issues the account request with the connecting flag set and the error
    cleared, and the flag is cleared again however the request ends.  A
    non-empty account list sets the address to its first account, the
    error staying cleared; an empty list leaves the address alone and sets
    the "no accounts found" error; a rejection leaves the address alone
    and sets the error to the message of the rejected value, or to the
    fixed text [Failed to connect to wallet] when that value carries no
    message or an empty one.  In all these cases the handler returns.
    When the rejected value is [null] or [undefined], reading its message
    throws inside the [catch]: the error stays cleared and the handler
    ends with that exception, the flag being cleared all the same. *)
Theorem C4_connect_wallet (env : Environment) (p : Provider) (w : World State) :
  ethereum env = Some p ->
  let wF := connect env w in
  trace wF =
    (trace w ++
       [(CallRequest eth_requestAccounts,
         {| account := account (store w); isConnecting := true; error := None |})])%list /\
  isConnecting (store wF) = false /\
  match request p eth_requestAccounts with
  | Fulfilled [] =>
      account (store wF) = account (store w) /\
      error (store wF) =
        Some "No accounts found. Please create an account in MetaMask."
  | Fulfilled (first :: _) =>
      account (store wF) = Some first /\
      error (store wF) = None
  | Rejected (thrown error_message) =>
      account (store wF) = account (store w) /\
      error (store wF) =
        Some match error_message with
             | Some (String c m) => String c m
             | _ => "Failed to connect to wallet"
             end
  | Rejected nullish =>
      account (store wF) = account (store w) /\
      error (store wF) = None
  end /\
  fst (run env (connectWallet (isMetaMaskAvailable env)) w) =
    match request p eth_requestAccounts with
    | Rejected nullish => Uncaught TypeError
    | _ => Returned tt
    end.
Proof.
  intros E wF. unfold wF, connect, exec, connectWallet, isMetaMaskAvailable.
  rewrite E. simpl. rewrite E.
  destruct (request p eth_requestAccounts)
    as [[|first accounts]|[|[[|c m]|]]]; simpl; repeat split.
Qed.

(** C6: on mount with a provider present, the session registers its
    account-change listener and queries the current accounts, without
    touching the connecting flag; the answer sets the address to the first
    account, or to none.  Every later account-change notification does the
    same: first account of a non-empty list, [null] for an empty one.
    Teardown removes the listener, after which notifications no longer
    reach the session. *)
Theorem C6_account_subscription (env : Environment) (p : Provider) (w : World State) :
  ethereum env = Some p ->
  let wM := mount env w in
  listeners wM = (listeners w ++ [accountsChangedListener])%list /\
  trace wM = (trace w ++ [(CallRequest eth_accounts, store w)])%list /\
  isConnecting (store wM) = isConnecting (store w) /\
  error (store wM) = error (store w) /\
  match request p eth_accounts with
  | Fulfilled accounts => account (store wM) = hd_error accounts
  | Rejected _ => account (store wM) = account (store w)
  end /\
  (forall (accounts : list string) (w1 : World State),
     In accountsChangedListener (listeners w1) ->
     let w2 := accountsChanged env accounts w1 in
     account (store w2) = hd_error accounts /\
     isConnecting (store w2) = isConnecting (store w1) /\
     error (store w2) = error (store w1)) /\
  (~ In accountsChangedListener (listeners w) ->
   listeners (unmount env wM) = listeners w /\
   forall accounts : list string,
     accountsChanged env accounts (unmount env wM) = unmount env wM).
Proof.
  intros E wM.
  assert (M : listeners wM = (listeners w ++ [accountsChangedListener])%list /\
              trace wM = (trace w ++ [(CallRequest eth_accounts, store w)])%list /\
              isConnecting (store wM) = isConnecting (store w) /\
              error (store wM) = error (store w) /\
              match request p eth_accounts with
              | Fulfilled accounts => account (store wM) = hd_error accounts
              | Rejected _ => account (store wM) = account (store w)
              end).
  { unfold wM, mount, exec, mountEffect, isMetaMaskAvailable.
    rewrite E. simpl. rewrite E.
    destruct (request p eth_accounts) as [[|first accounts]|e]; simpl;
      now repeat split. }
  destruct M as (Ls & Tr & Co & Er & Ac).
  repeat (split; [assumption|]). split.
  - intros accounts w1 I w2. unfold w2, accountsChanged.
    destruct (emit_flags env accounts (listeners w1) w1) as (-> & -> & _).
    rewrite emit_account.
    assert (X : existsb (fun l => String.eqb (fst l) "accountsChanged")
                  (listeners w1) = true).
    { apply existsb_exists. exists accountsChangedListener. now split. }
    rewrite X. now repeat split.
  - intros NI.
    assert (U : listeners (unmount env wM) = listeners w).
    { unfold unmount, exec, cleanupEffect, isMetaMaskAvailable.
      rewrite E. simpl. rewrite Ls. now apply removeFirst_last. }
    split; [exact U|]. intros accounts. unfold accountsChanged.
    rewrite U. now apply emit_unheard.
Qed.

(** C7: [disconnectWallet] sets the address to [null] and nothing else:
    the connecting flag and the error are as they were, no call is made
    and no listener is touched (the provider, which lives in the
    environment, is out of the handler's reach).  It returns normally, and
    a second call leaves the world exactly as the first one did. *)
Theorem C7_disconnect_idempotent (env : Environment) (w : World State) :
  let w1 := disconnect env w in
  run env disconnectWallet w = (Returned tt, w1) /\
  account (store w1) = None /\
  isConnecting (store w1) = isConnecting (store w) /\
  error (store w1) = error (store w) /\
  trace w1 = trace w /\
  listeners w1 = listeners w /\
  timers w1 = timers w /\
  run env disconnectWallet w1 = (Returned tt, w1) /\
  disconnect env w1 = w1.
Proof. now repeat split. Qed.

(* ================================================================== *)
(** ** The properties at sample inputs *)
(* ================================================================== *)

Lemma relay_with_captured_account_witness :
  let r := "Transaction Preview: send 5 wei to 0xABC. tx_data:0xABC:0x5:5" in
  let w := Samples.world (Samples.typed "send 5 wei to 0xABC") in
  let body := requestBody (Some "0xme") (Some "send 5 wei to 0xABC") in
  let m := eth_sendTransaction
             [{| from := "0xme"; to := "0xABC"; value := "0x5"; gas := "0x5208" |}] in
  let approved := {| ethereum := Some Samples.approving;
                     backend := Samples.replying r |} in
  let denying := Samples.rejecting (newError "User denied transaction signature.") in
  let denied := {| ethereum := Some denying; backend := Samples.replying r |} in
  txDataMatch r = Some ("0xABC", "0x5") /\
  (issued w (turn approved (Some "0xme") w) =
     [CallFetch BACKEND_ROUTE body; CallRequest m] /\
   messages (store (turn approved (Some "0xme") w)) =
     [{| text := "send 5 wei to 0xABC"; type := user |};
      {| text := "Transaction sent successfully! Transaction hash: 0xHASH";
         type := bot |}]) /\
  (issued w (turn denied (Some "0xme") w) =
     [CallFetch BACKEND_ROUTE body; CallRequest m] /\
   messages (store (turn denied (Some "0xme") w)) =
     [{| text := "send 5 wei to 0xABC"; type := user |};
      {| text := "Error sending transaction: User denied transaction signature.";
         type := bot |}]).
Proof.
  intros r w body m approved denied'. intros denied.
  assert (H1 : timers w = []) by reflexivity.
  assert (H3 : asTruthy (Some "0xme") = Some "0xme") by reflexivity.
  assert (H6 : txDataMatch r = Some ("0xABC", "0x5")) by reflexivity.
  split; [exact H6|]. split.
  - assert (H2 : ethereum approved = Some Samples.approving) by reflexivity.
    assert (H4 : In (CallFetch BACKEND_ROUTE body)
                   (issued w (turn approved (Some "0xme") w)))
      by (vm_compute; auto).
    assert (H5 : replyText (backend approved BACKEND_ROUTE body) = Some r)
      by reflexivity.
    destruct (relay_with_captured_account approved Samples.approving (Some "0xme")
                "0xme" w body r "0xABC" "0x5" H1 H2 H3 H4 H5 H6) as (_ & I & M & _).
    split; [exact I | exact M].
  - assert (H2 : ethereum denied = Some denied') by reflexivity.
    assert (H4 : In (CallFetch BACKEND_ROUTE body)
                   (issued w (turn denied (Some "0xme") w)))
      by (vm_compute; auto).
    assert (H5 : replyText (backend denied BACKEND_ROUTE body) = Some r)
      by reflexivity.
    destruct (relay_with_captured_account denied denied' (Some "0xme")
                "0xme" w body r "0xABC" "0x5" H1 H2 H3 H4 H5 H6) as (_ & I & M & _).
    split; [exact I | exact M].
Defined.

(** C2 fails as stated: a submission of white space only, made while
    confirmation is awaited, is not [CONFIRM], yet it is ignored by the
    guard at the top of [handleSubmit]: nothing is cancelled and no
    message is appended. *)
Lemma C2_counterexample :
  let env := {| ethereum := Some Samples.approving;
                backend := Samples.replying "Done." |} in
  let w := Samples.world (Samples.awaiting "   ") in
  let wF := turn env None w in
  (awaitingConfirmation (store w) = true /\
   isLoading (store w) = false /\
   equalsIgnoreCase (trim (inputText (store w))) "CONFIRM" = false) /\
  (awaitingConfirmation (store wF) = true /\
   pendingTransaction (store wF) = Some "send 5 wei to 0xABC" /\
   messages (store wF) = []) /\
  ~ (idle (store wF) = true /\
     lastMessage (store wF) =
       Some {| text := "Transaction cancelled. How else can I help you?";
               type := bot |}).
Proof.
  vm_compute. repeat split. intros [H _]. discriminate.
Qed.

Lemma C2_witness :
  let env := {| ethereum := Some Samples.approving;
                backend := Samples.replying "Done." |} in
  let w := Samples.world (Samples.awaiting "please confirm") in
  let wF := turn env (Some "0xme") w in
  let spelled :=
    Samples.world (Samples.awaiting (fromCodes [194; 160] ++ "confırm ")) in
  (equalsIgnoreCase (trim (inputText (store w))) "CONFIRM" = false /\
   issued w wF = [] /\
   store wF =
     {| messages :=
          [{| text := "please confirm"; type := user |};
           {| text := "Transaction cancelled. How else can I help you?";
              type := bot |}];
        inputText := "";
        isLoading := false;
        awaitingConfirmation := false;
        pendingTransaction := None |} /\
   idle (store wF) = true) /\
  (trim (inputText (store spelled)) = "confırm" /\
   In "confırm" confirmSpellings /\
   exists c rest,
     issued spelled (turn env (Some "0xme") spelled) = c :: rest /\
     (c = CallRequest eth_requestAccounts \/
      c = CallFetch BACKEND_ROUTE
            (requestBody (Some "0xme") (Some "send 5 wei to 0xABC")))).
Proof.
  intros env w wF spelled.
  assert (H1 : timers w = []) by reflexivity.
  assert (H2 : awaitingConfirmation (store w) = true) by reflexivity.
  assert (H3 : isLoading (store w) = false) by reflexivity.
  assert (H4 : nonEmpty (trim (inputText (store w))) = true) by reflexivity.
  assert (H5 : equalsIgnoreCase (trim (inputText (store w))) "CONFIRM" = false)
    by reflexivity.
  assert (H6 : equalsIgnoreCase (trim (inputText (store spelled))) "CONFIRM" = true)
    by reflexivity.
  destruct (C2_confirmation_matching env (Some "0xme") w H1 H2 H3)
    as (_ & Answered & _).
  destruct (C2_confirmation_matching env (Some "0xme") spelled H1 H2 H3)
    as (_ & Confirmed & Spelling).
  split; [split; [exact H5 | exact (proj2 (Answered H4) H5)]|].
  split; [reflexivity|]. split; [exact (proj1 Spelling H6)|].
  exact (proj2 (proj1 (Confirmed eq_refl)) H6).
Defined.

Lemma C3_witness :
  let r := "Transaction Preview: send 5 wei to 0xABC. tx_data:0xABC:0x5:5" in
  let env := {| ethereum := Some Samples.approving;
                backend := Samples.replying r |} in
  let w := Samples.world (Samples.typed "send 5 wei to 0xABC") in
  let wF := turn env None w in
  awaitingConfirmation (store wF) = true /\
  pendingTransaction (store wF) = Some "send 5 wei to 0xABC" /\
  issued w wF =
    [CallFetch BACKEND_ROUTE
       {| req_message := Some "send 5 wei to 0xABC"; req_wallet_address := None |}].
Proof.
  intros r env w wF.
  pose (body := requestBody None (Some "send 5 wei to 0xABC")).
  assert (H1 : timers w = []) by reflexivity.
  assert (H2 : truthy None = false) by reflexivity.
  assert (H3 : In (CallFetch BACKEND_ROUTE body) (issued w (turn env None w)))
    by (vm_compute; auto).
  assert (H4 : replyText (backend env BACKEND_ROUTE body) = Some r) by reflexivity.
  assert (H5 : includes r "Transaction Preview:" = true) by reflexivity.
  destruct (C3_preview_without_wallet env None w body r H1 H2 H3 H4 H5)
    as (A & _ & P & _).
  split; [exact A|]. split; [exact P | reflexivity].
Defined.

(** C5 fails as stated: after a confirmation the stored pending
    transaction is still the confirmed text, not [null]; and a submission
    of white space only clears nothing either. *)
Lemma C5_counterexample :
  let env := {| ethereum := Some Samples.approving;
                backend := Samples.replying "Done." |} in
  let confirmed := turn env (Some "0xme") (Samples.world (Samples.awaiting "CONFIRM")) in
  let blank := turn env (Some "0xme") (Samples.world (Samples.awaiting "  ")) in
  (pendingTransaction (store confirmed) = Some "send 5 wei to 0xABC" /\
   lastMessage (store confirmed) = Some {| text := "Done."; type := bot |} /\
   idle (store confirmed) = true) /\
  pendingTransaction (store blank) = Some "send 5 wei to 0xABC" /\
  pendingTransaction (store confirmed) <> None /\
  pendingTransaction (store blank) <> None.
Proof.
  vm_compute. repeat split; discriminate.
Qed.

Lemma C5_witness :
  let env := {| ethereum := Some Samples.approving;
                backend := Samples.replying "Done." |} in
  let w := Samples.world (Samples.awaiting "no, thanks") in
  let wF := turn env (Some "0xme") w in
  let spelled := Samples.world (Samples.awaiting "conﬁrm") in
  (equalsIgnoreCase (trim (inputText (store w))) "CONFIRM" = false /\
   pendingTransaction (store wF) = None /\
   awaitingConfirmation (store wF) = false) /\
  (equalsIgnoreCase (trim (inputText (store spelled))) "CONFIRM" = true /\
   forall body,
     In (CallFetch BACKEND_ROUTE body)
        (issued spelled (turn env (Some "0xme") spelled)) ->
     req_message body = Some "send 5 wei to 0xABC").
Proof.
  intros env w wF spelled.
  assert (H1 : timers w = []) by reflexivity.
  assert (H2 : awaitingConfirmation (store w) = true) by reflexivity.
  assert (H3 : isLoading (store w) = false) by reflexivity.
  assert (H4 : nonEmpty (trim (inputText (store w))) = true) by reflexivity.
  assert (H5 : equalsIgnoreCase (trim (inputText (store w))) "CONFIRM" = false)
    by reflexivity.
  assert (H6 : equalsIgnoreCase (trim (inputText (store spelled))) "CONFIRM" = true)
    by reflexivity.
  destruct (C5_pending_transaction_slot env (Some "0xme") w H1 H2 H3)
    as (_ & _ & Cancel & _).
  destruct (C5_pending_transaction_slot env (Some "0xme") spelled H1 H2 H3)
    as (_ & _ & _ & Confirm).
  split; [split; [exact H5 | exact (Cancel H4 H5)]|].
  split; [exact H6 | exact (proj2 (Confirm H6))].
Defined.

Lemma C8_witness :
  let env := {| ethereum := Some Samples.approving;
                backend := Samples.unavailable |} in
  let w := Samples.world (Samples.typed " what is my balance? ") in
  let wF := turn env (Some "0xme") w in
  requestFailed
    (backend env BACKEND_ROUTE
       (requestBody (Some "0xme") (Some "what is my balance?"))) = true /\
  messages (store wF) =
    [{| text := "what is my balance?"; type := user |};
     {| text := "Sorry, there was an error processing your request. Please try again.";
        type := bot |}] /\
  isLoading (store wF) = false /\
  idle (store wF) = true.
Proof.
  intros env w wF.
  pose (body := requestBody (Some "0xme") (Some "what is my balance?")).
  assert (H1 : timers w = []) by reflexivity.
  assert (H2 : In (CallFetch BACKEND_ROUTE body) (issued w (turn env (Some "0xme") w)))
    by (vm_compute; auto).
  assert (H3 : requestFailed (backend env BACKEND_ROUTE body) = true) by reflexivity.
  split; [exact H3|].
  exact (C8_backend_failure_apology env (Some "0xme") w body H1 H2 H3).
Defined.

Lemma C9_witness :
  let r := "Here it is: tx_data:0xABC:5:5" in
  let env := {| ethereum := Some Samples.approving;
                backend := Samples.replying r |} in
  let w := Samples.world (Samples.typed "send 5 wei to 0xABC") in
  let wF := turn env (Some "0xme") w in
  (includes r "tx_data:" = true /\ txDataMatch r = None) /\
  issued w wF =
    [CallFetch BACKEND_ROUTE
       (requestBody (Some "0xme") (Some "send 5 wei to 0xABC"))] /\
  messages (store wF) =
    [{| text := "send 5 wei to 0xABC"; type := user |};
     {| text := r; type := bot |}].
Proof.
  intros r env w wF.
  pose (body := requestBody (Some "0xme") (Some "send 5 wei to 0xABC")).
  assert (H1 : timers w = []) by reflexivity.
  assert (H2 : In (CallFetch BACKEND_ROUTE body) (issued w (turn env (Some "0xme") w)))
    by (vm_compute; auto).
  assert (H3 : replyText (backend env BACKEND_ROUTE body) = Some r) by reflexivity.
  assert (H4 : includes r "tx_data:" = true) by reflexivity.
  assert (H5 : txDataMatch r = None) by reflexivity.
  destruct (C9_malformed_marker_ignored env (Some "0xme") w body r H1 H2 H3 H4 H5)
    as (_ & M & _).
  split; [now split|]. split; [reflexivity | exact M].
Defined.

Lemma C10_witness :
  let env := {| ethereum := None; backend := Samples.replying "Done." |} in
  let w := Samples.world (Samples.awaiting " Confirm ") in
  let wF := turn env None w in
  issued w wF =
    [CallFetch BACKEND_ROUTE
       {| req_message := Some "send 5 wei to 0xABC"; req_wallet_address := None |}] /\
  messages (store wF) =
    [{| text := "Confirm"; type := user |}; {| text := "Done."; type := bot |}] /\
  isLoading (store wF) = false.
Proof.
  intros env w wF.
  assert (H1 : timers w = []) by reflexivity.
  assert (H2 : awaitingConfirmation (store w) = true) by reflexivity.
  assert (H3 : isLoading (store w) = false) by reflexivity.
  assert (H4 : equalsIgnoreCase (trim (inputText (store w))) "CONFIRM" = true)
    by reflexivity.
  assert (H5 : truthy None = false) by reflexivity.
  assert (H6 : ethereum env = None) by reflexivity.
  exact (C10_confirm_without_provider env None w H1 H2 H3 H4 H5 H6).
Defined.

(** C4 fails as stated: a rejection whose message is empty does not set
    the error to the provider's message, but to the fixed fallback text. *)
Lemma C4_counterexample :
  let e := thrown (Some "") in
  let env := {| ethereum := Some (Samples.rejecting e);
                backend := Samples.offline |} in
  let wF := Wallet.connect env (Samples.world Samples.disconnected) in
  request (Samples.rejecting e) eth_requestAccounts = Rejected e /\
  Wallet.error (store wF) = Some "Failed to connect to wallet" /\
  Wallet.error (store wF) <> Some "".
Proof.
  vm_compute. repeat split. discriminate.
Qed.

Lemma C4_witness :
  let w := Samples.world Samples.disconnected in
  let approved := {| ethereum := Some Samples.approving;
                     backend := Samples.offline |} in
  let refusing := Samples.rejecting (newError "User rejected the request.") in
  let refused := {| ethereum := Some refusing; backend := Samples.offline |} in
  let unanswered := {| ethereum := Some Samples.silent;
                       backend := Samples.offline |} in
  (trace (Wallet.connect approved w) =
     [(CallRequest eth_requestAccounts,
       {| Wallet.account := None; Wallet.isConnecting := true;
          Wallet.error := None |})] /\
   Wallet.isConnecting (store (Wallet.connect approved w)) = false /\
   Wallet.account (store (Wallet.connect approved w)) = Some "0xme" /\
   Wallet.error (store (Wallet.connect approved w)) = None) /\
  (Wallet.isConnecting (store (Wallet.connect refused w)) = false /\
   Wallet.account (store (Wallet.connect refused w)) = None /\
   Wallet.error (store (Wallet.connect refused w)) =
     Some "User rejected the request.") /\
  (Wallet.isConnecting (store (Wallet.connect unanswered w)) = false /\
   Wallet.account (store (Wallet.connect unanswered w)) = None /\
   Wallet.error (store (Wallet.connect unanswered w)) = None /\
   fst (run unanswered (Wallet.connectWallet true) w) = Uncaught TypeError).
Proof.
  intros w approved refusing refused unanswered.
  assert (H1 : ethereum approved = Some Samples.approving) by reflexivity.
  assert (H2 : ethereum refused = Some refusing) by reflexivity.
  assert (H3 : ethereum unanswered = Some Samples.silent) by reflexivity.
  destruct (C4_connect_wallet approved Samples.approving w H1)
    as (T1 & C1 & [A1 E1] & _).
  destruct (C4_connect_wallet refused refusing w H2) as (_ & C2 & [A2 E2] & _).
  destruct (C4_connect_wallet unanswered Samples.silent w H3)
    as (_ & C3 & [A3 E3] & R3).
  split; [now repeat split|]. split; now repeat split.
Defined.

Lemma C6_witness :
  let env := {| ethereum := Some Samples.approving;
                backend := Samples.offline |} in
  let w := Samples.world Samples.disconnected in
  let wM := Wallet.mount env w in
  (Wallet.account (store wM) = Some "0xme" /\
   Wallet.isConnecting (store wM) = false) /\
  Wallet.account (store (Wallet.accountsChanged env [] wM)) = None /\
  Wallet.account (store (Wallet.accountsChanged env ["0xnew"; "0xme"] wM)) = Some "0xnew" /\
  listeners (Wallet.unmount env wM) = [].
Proof.
  intros env w wM.
  assert (H1 : ethereum env = Some Samples.approving) by reflexivity.
  destruct (C6_account_subscription env Samples.approving w H1)
    as (Ls & _ & Co & _ & Ac & Notified & Torn).
  split; [split; [exact Ac | exact Co]|].
  assert (I : In Wallet.accountsChangedListener (listeners (Wallet.mount env w)))
    by (vm_compute; auto).
  split; [exact (proj1 (Notified [] _ I))|].
  split; [exact (proj1 (Notified ["0xnew"; "0xme"] _ I))|].
  assert (NI : ~ In Wallet.accountsChangedListener (listeners w))
    by (intros []).
  exact (proj1 (Torn NI)).
Defined.

(* ================================================================== *)
(** ** Further properties of the chat controller *)
(* ================================================================== *)

(** The three ways a resolution can end: an unusable reply, a reply
    passed on, or a reply replaced by the outcome of a transaction
    request. *)
Lemma Resolved_cases (env : Environment) (account text : option string)
  (wX wF : World Chat.State) :
  Resolved env account text wX wF ->
  let body := requestBody account text in
  let fetch := (CallFetch BACKEND_ROUTE body, store wX) in
  (replyText (backend env BACKEND_ROUTE body) = None /\
   store wF = finished apology (store wX) /\
   trace wF = (trace wX ++ [fetch])%list)
  \/
  (exists r,
     replyText (backend env BACKEND_ROUTE body) = Some r /\
     (includes r "tx_data:" = false \/ txDataMatch r = None \/
      ethereum env = None \/ truthy account = false) /\
     store wF = finished r (previewed r text (store wX)) /\
     trace wF = (trace wX ++ [fetch])%list)
  \/
  (exists r toAddress valueHex connected p,
     replyText (backend env BACKEND_ROUTE body) = Some r /\
     txDataMatch r = Some (toAddress, valueHex) /\
     ethereum env = Some p /\
     asTruthy account = Some connected /\
     let m := eth_sendTransaction
                [{| from := connected; to := toAddress; value := valueHex;
                    gas := "0x5208" |}] in
     store wF = finished (relayed (request p m)) (previewed r text (store wX)) /\
     trace wF =
       (trace wX ++ [fetch; (CallRequest m, previewed r text (store wX))])%list).
Proof.
  intros Res body fetch. unfold body, fetch.
  destruct (replyText (backend env BACKEND_ROUTE (requestBody account text)))
    as [r|] eqn:R.
  - right.
    destruct (includes r "tx_data:") eqn:I;
      [destruct (txDataMatch r) as [[toAddress valueHex]|] eqn:M;
       [destruct (ethereum env) as [p|] eqn:E;
        [destruct (asTruthy account) as [connected|] eqn:A|]|]|].
    + right. exists r, toAddress, valueHex, connected, p.
      repeat (split; [first [reflexivity | assumption]|]).
      apply (Resolved_relay _ _ _ _ _ Res r _ _ _ p R M E A).
    + apply asTruthy_None in A. left. exists r. split; [reflexivity|].
      split; [tauto|]. apply (Resolved_plain _ _ _ _ _ Res r R). tauto.
    + left. exists r. split; [reflexivity|].
      split; [tauto|]. apply (Resolved_plain _ _ _ _ _ Res r R). tauto.
    + left. exists r. split; [reflexivity|].
      split; [tauto|]. apply (Resolved_plain _ _ _ _ _ Res r R). tauto.
    + left. exists r. split; [reflexivity|].
      split; [tauto|]. apply (Resolved_plain _ _ _ _ _ Res r R). tauto.
  - left. split; [reflexivity|]. apply (Resolved_failure _ _ _ _ _ Res R).
Qed.

(** What a resolution does to the state, whatever the reply: one bot
    message is appended and the turn stops loading; the input is left
    alone; every call was outstanding in a state that differs from the
    starting one in the confirmation flag and the pending slot at most. *)
Lemma Resolved_frame (env : Environment) (account text : option string)
  (wX wF : World Chat.State) :
  Resolved env account text wX wF ->
  (exists reply,
     messages (store wF) =
       (messages (store wX) ++ [{| text := reply; type := bot |}])%list) /\
  isLoading (store wF) = false /\
  inputText (store wF) = inputText (store wX) /\
  exists t,
    trace wF = (trace wX ++ t)%list /\
    forall c s, In (c, s) t ->
      messages s = messages (store wX) /\
      isLoading s = isLoading (store wX) /\
      inputText s = inputText (store wX).
Proof.
  intros Res.
  assert (P : forall r, messages (previewed r text (store wX)) = messages (store wX) /\
                        isLoading (previewed r text (store wX)) = isLoading (store wX) /\
                        inputText (previewed r text (store wX)) = inputText (store wX)).
  { intros r. unfold previewed. now destruct (includes r _). }
  destruct (Resolved_cases _ _ _ _ _ Res)
    as [(_ & -> & ->) | [(r & _ & _ & -> & ->)
                        | (r & toAddress & valueHex & connected & p & _ & _ & _ & _ & -> & ->)]];
    simpl; destruct (P r) as (Pm & Pl & Pi) || idtac.
  - split; [eauto|]. repeat (split; [reflexivity|]). eexists. split; [reflexivity|].
    intros c s [[= <- <-]|[]]. now repeat split.
  - rewrite Pm, Pi. split; [eauto|]. repeat (split; [reflexivity|]).
    eexists. split; [reflexivity|].
    intros c s [[= <- <-]|[]]. now repeat split.
  - rewrite Pm, Pi. split; [eauto|]. repeat (split; [reflexivity|]).
    eexists. split; [reflexivity|].
    intros c s [[= <- <-]|[[= <- <-]|[]]]; now repeat split.
Qed.

Lemma messages_grew (l : list Message) (m : Message) (rest : list Message) :
  (l ++ m :: rest)%list <> l.
Proof.
  intros H. apply (f_equal (@List.length Message)) in H.
  rewrite length_app in H. simpl in H. lia.
Qed.

(** X1: Every submission is either ignored or answered exactly once.  It is
    ignored, leaving state and trace as they were, exactly when the
    trimmed input is empty or a turn is in progress.  Otherwise the
    conversation grows by the trimmed input as a user message followed by
    one bot message, the input is cleared and the turn is no longer
    loading. *)
Theorem submission_ignored_or_answered
  (env : Environment) (account : option string) (w : World Chat.State) :
  timers w = [] ->
  let wF := turn env account w in
  let ignored := negb (nonEmpty (trim (inputText (store w)))) || isLoading (store w) in
  (ignored = true -> store wF = store w /\ trace wF = trace w) /\
  (ignored = false ->
   (exists reply,
      messages (store wF) =
        (messages (store w) ++
           [{| text := trim (inputText (store w)); type := user |};
            {| text := reply; type := bot |}])%list) /\
   inputText (store wF) = "" /\
   isLoading (store wF) = false) /\
  (messages (store wF) = messages (store w) <-> ignored = true).
Proof.
  intros T wF ignored.
  assert (A : ignored = false ->
              (exists reply,
                 messages (store wF) =
                   (messages (store w) ++
                      [{| text := trim (inputText (store w)); type := user |};
                       {| text := reply; type := bot |}])%list) /\
              inputText (store wF) = "" /\ isLoading (store wF) = false).
  { unfold ignored, wF. intros G. apply orb_false_iff in G as [G1 G2].
    apply negb_false_iff in G1.
    destruct (turn_path env account w T)
      as [[G|G] St Tr | _ _ _ C St Tr | p e _ _ _ C TA E RQ St Tr
          | wX _ _ AW StX TrX Res | wX _ _ _ C StX Pre Res];
      try congruence.
    - rewrite St. simpl. split; [eexists; reflexivity | now split].
    - rewrite St. simpl. rewrite <- app_assoc.
      split; [eexists; reflexivity | now split].
    - destruct (Resolved_frame _ _ _ _ _ Res) as ([reply M] & L & I & _).
      rewrite M, I, L, StX. simpl. rewrite <- app_assoc.
      split; [eexists; reflexivity | now split].
    - destruct (Resolved_frame _ _ _ _ _ Res) as ([reply M] & L & I & _).
      rewrite M, I, L, StX. simpl. rewrite <- app_assoc.
      split; [eexists; reflexivity | now split]. }
  assert (B : ignored = true -> store wF = store w /\ trace wF = trace w).
  { unfold ignored, wF. intros G. apply orb_true_iff in G as [G|G];
      [apply negb_true_iff in G|];
      destruct (turn_path env account w T)
        as [_ St Tr | N L _ _ _ _ | p e N L _ _ _ _ _ _ _
            | wX N L _ _ _ _ | wX N L _ _ _ _ _];
      try congruence; now split. }
  split; [exact B|]. split; [exact A|]. split.
  - intros M. destruct ignored; [reflexivity|].
    destruct (A eq_refl) as ([reply R] & _). rewrite R in M.
    now apply messages_grew in M.
  - intros G. now rewrite (proj1 (B G)).
Qed.

(** X2: While any call of a turn is outstanding the controller is loading,
    with the input cleared and the user's message already in the
    conversation. *)
Theorem calls_made_while_loading
  (env : Environment) (account : option string) (w : World Chat.State) :
  timers w = [] ->
  exists t,
    trace (turn env account w) = (trace w ++ t)%list /\
    forall c s, In (c, s) t ->
      isLoading s = true /\
      inputText s = "" /\
      messages s =
        (messages (store w) ++
           [{| text := trim (inputText (store w)); type := user |}])%list.
Proof.
  intros T.
  assert (R : forall wX pre text,
            store wX = accepted (trim (inputText (store w))) false (store w) ->
            trace wX = (trace w ++ pre)%list ->
            (forall c s, In (c, s) pre ->
               s = accepted (trim (inputText (store w))) false (store w)) ->
            Resolved env account text wX (turn env account w) ->
            exists t,
              trace (turn env account w) = (trace w ++ t)%list /\
              forall c s, In (c, s) t ->
                isLoading s = true /\ inputText s = "" /\
                messages s =
                  (messages (store w) ++
                     [{| text := trim (inputText (store w)); type := user |}])%list).
  { intros wX pre text StX TrX Pre Res.
    destruct (Resolved_frame _ _ _ _ _ Res) as (_ & _ & _ & t & Tr & F).
    exists (pre ++ t)%list. rewrite Tr, TrX, app_assoc. split; [reflexivity|].
    intros c s I. apply in_app_or in I as [I|I].
    - rewrite (Pre _ _ I). now repeat split.
    - destruct (F _ _ I) as (-> & -> & ->). rewrite StX. now repeat split. }
  destruct (turn_path env account w T)
    as [G St Tr | _ _ _ C St Tr | p e _ _ _ C TA E RQ St Tr
        | wX _ _ AW StX TrX Res | wX _ _ _ C StX Pre Res].
  - exists []. rewrite app_nil_r. split; [exact Tr | intros c s []].
  - exists []. rewrite app_nil_r. split; [exact Tr | intros c s []].
  - eexists. split; [exact Tr|]. intros c s [[= <- <-]|[]]. now repeat split.
  - eapply (R wX [] _ StX); [now rewrite app_nil_r | intros c s [] | exact Res].
  - destruct Pre as [[_ TrX] | (TA & p & accounts & E & RQ & TrX)].
    + eapply (R wX [] _ StX); [now rewrite app_nil_r | intros c s [] | exact Res].
    + eapply (R wX _ _ StX TrX); [|exact Res].
      intros c s [[= <- <-]|[]]. reflexivity.
Qed.

(** X3: A reply with a 2xx status whose body cannot be used (it does not
    parse, or it carries no [response]) is handled like a failed request:
    the apology is the bot message and the controller is idle. *)
Theorem unusable_body_apology
  (env : Environment) (account : option string) (w : World Chat.State)
  (body : RequestBody) (resp : Response) :
  timers w = [] ->
  In (CallFetch BACKEND_ROUTE body) (issued w (turn env account w)) ->
  backend env BACKEND_ROUTE body = Fulfilled resp ->
  ok resp = true ->
  match json resp with
  | Rejected _ => True
  | Fulfilled data => response data = None
  end ->
  let wF := turn env account w in
  messages (store wF) =
    (messages (store w) ++
       [{| text := trim (inputText (store w)); type := user |};
        {| text := "Sorry, there was an error processing your request. Please try again.";
           type := bot |}])%list /\
  idle (store wF) = true /\
  forall params, ~ In (CallRequest (eth_sendTransaction params)) (issued w wF).
Proof.
  intros T I B O J wF.
  destruct (turn_backend_call env account w _ _ T I)
    as (text & wX & pre & _ & -> & N & L & Cases & StX & TrX & Res).
  assert (R : replyText (backend env BACKEND_ROUTE (requestBody account text)) = None).
  { rewrite B. unfold replyText. rewrite O. now destruct (json resp). }
  destruct (Resolved_failure _ _ _ _ _ Res R) as [St Tr].
  unfold wF. rewrite St, StX. unfold idle. simpl. rewrite <- app_assoc.
  repeat split.
  rewrite TrX, <- app_assoc in Tr. rewrite (issued_app w _ _ Tr).
  apply (not_In_sendTransaction account text (store wX)); [reflexivity|].
  destruct Cases as [(_ & _ & ->)|(_ & _ & _ & [->|[_ ->]])]; eauto.
Qed.

(** X4: With a connected account and a provider, a reply that carries both
    the preview marker and a [tx_data] marker has the transaction
    requested from the wallet at once, before any confirmation, and still
    leaves the controller awaiting confirmation with the text as pending
    transaction. *)
Theorem preview_and_marker_both_act
  (env : Environment) (p : Provider) (account : option string)
  (connected : string) (w : World Chat.State) (body : RequestBody)
  (r toAddress valueHex : string) :
  timers w = [] ->
  ethereum env = Some p ->
  asTruthy account = Some connected ->
  In (CallFetch BACKEND_ROUTE body) (issued w (turn env account w)) ->
  replyText (backend env BACKEND_ROUTE body) = Some r ->
  includes r "Transaction Preview:" = true ->
  txDataMatch r = Some (toAddress, valueHex) ->
  let wF := turn env account w in
  In (CallRequest
        (eth_sendTransaction
           [{| from := connected; to := toAddress; value := valueHex;
               gas := "0x5208" |}]))
     (issued w wF) /\
  awaitingConfirmation (store wF) = true /\
  pendingTransaction (store wF) = req_message body /\
  isLoading (store wF) = false.
Proof.
  intros T E A I R P M wF.
  destruct (turn_backend_call env account w _ _ T I)
    as (text & wX & pre & _ & -> & N & L & Cases & StX & TrX & Res).
  destruct (Resolved_relay _ _ _ _ _ Res r _ _ _ p R M E A) as [St Tr].
  unfold wF. rewrite St. unfold previewed. rewrite P. simpl.
  split; [|now repeat split].
  rewrite TrX, <- app_assoc in Tr. rewrite (issued_app w _ _ Tr), map_app.
  apply in_or_app. right. simpl. auto.
Qed.

(** X5: A usable reply without the preview marker ends the turn idle, with
    the pending slot as it was: after a confirmation the controller does
    not await confirmation again. *)
Theorem reply_without_preview_idle
  (env : Environment) (account : option string) (w : World Chat.State)
  (body : RequestBody) (r : string) :
  timers w = [] ->
  In (CallFetch BACKEND_ROUTE body) (issued w (turn env account w)) ->
  replyText (backend env BACKEND_ROUTE body) = Some r ->
  includes r "Transaction Preview:" = false ->
  let wF := turn env account w in
  idle (store wF) = true /\
  pendingTransaction (store wF) = pendingTransaction (store w).
Proof.
  intros T I R P wF.
  destruct (turn_backend_call env account w _ _ T I)
    as (text & wX & pre & _ & -> & N & L & Cases & StX & TrX & Res).
  assert (St : exists reply, store (turn env account w) =
                             finished reply (previewed r text (store wX))).
  { destruct (Resolved_cases _ _ _ _ _ Res)
      as [(R' & _) | [(r' & R' & _ & St & _)
                     | (r' & toAddress & valueHex & connected & p & R' & _ & _ & _ & St & _)]];
      rewrite R in R'; [discriminate | |]; injection R' as <-; eauto. }
  destruct St as [reply St]. unfold wF. rewrite St. unfold previewed, idle.
  rewrite P, StX. now split.
Qed.

(** X6: A confirmation given with no account connected and a provider that
    rejects the connection request ends the turn with the fixed
    connection-failure message (the provider's own message is not shown):
    no backend call is made, the confirmation is no longer awaited and the
    pending text stays in its slot. *)
Theorem confirm_connect_rejected
  (env : Environment) (p : Provider) (e : Error) (account : option string)
  (w : World Chat.State) :
  timers w = [] ->
  awaitingConfirmation (store w) = true ->
  isLoading (store w) = false ->
  equalsIgnoreCase (trim (inputText (store w))) "CONFIRM" = true ->
  truthy account = false ->
  ethereum env = Some p ->
  request p eth_requestAccounts = Rejected e ->
  let wF := turn env account w in
  issued w wF = [CallRequest eth_requestAccounts] /\
  store wF =
    {| messages :=
         messages (store w) ++
           [{| text := trim (inputText (store w)); type := user |};
            {| text := "Failed to connect wallet. Please connect your wallet and try again.";
               type := bot |}];
       inputText := "";
       isLoading := false;
       awaitingConfirmation := false;
       pendingTransaction := pendingTransaction (store w) |}.
Proof.
  intros T AW L C TA E RQ wF. unfold wF.
  assert (N := equalsIgnoreCase_nonEmpty _ _ C eq_refl).
  destruct (turn_path env account w T)
    as [[G|G] St Tr | _ _ _ C' St Tr | p' e' _ _ _ _ _ E' RQ' St Tr
        | wX _ _ AW' StX TrX Res | wX _ _ _ _ StX Pre Res];
    try congruence.
  - rewrite confirm_test in C'. congruence.
  - rewrite (issued_app w _ _ Tr), St. unfold finished, accepted. simpl.
    rewrite <- app_assoc. now split.
  - destruct Pre as [[[TA'|E'] _] | (_ & p' & accounts & E' & RQ' & _)];
      congruence.
Qed.

(** The calls of a turn, in order: at most one connection request (made
    only for a falsy account), then at most one backend call, then at most
    one transaction request. *)
Lemma turn_issued
  (env : Environment) (account : option string) (w : World Chat.State) :
  timers w = [] ->
  let wF := turn env account w in
  exists pre post,
    issued w wF = (pre ++ post)%list /\
    (pre = [] \/
     pre = [CallRequest eth_requestAccounts] /\ truthy account = false) /\
    (post = [] \/
     exists text,
       text = (if awaitingConfirmation (store w)
               then pendingTransaction (store w)
               else Some (trim (inputText (store w)))) /\
       (post = [CallFetch BACKEND_ROUTE (requestBody account text)] \/
        exists r toAddress valueHex connected p,
          replyText (backend env BACKEND_ROUTE (requestBody account text)) = Some r /\
          txDataMatch r = Some (toAddress, valueHex) /\
          ethereum env = Some p /\
          asTruthy account = Some connected /\
          post = [CallFetch BACKEND_ROUTE (requestBody account text);
                  CallRequest
                    (eth_sendTransaction
                       [{| from := connected; to := toAddress;
                           value := valueHex; gas := "0x5208" |}])])).
Proof.
  intros T wF. unfold wF.
  assert (R : forall wX pre text,
            trace wX = (trace w ++ pre)%list ->
            Resolved env account text wX (turn env account w) ->
            exists post,
              issued w (turn env account w) = (map fst pre ++ post)%list /\
              (post = [CallFetch BACKEND_ROUTE (requestBody account text)] \/
               exists r toAddress valueHex connected p,
                 replyText (backend env BACKEND_ROUTE (requestBody account text)) = Some r /\
                 txDataMatch r = Some (toAddress, valueHex) /\
                 ethereum env = Some p /\
                 asTruthy account = Some connected /\
                 post = [CallFetch BACKEND_ROUTE (requestBody account text);
                         CallRequest
                           (eth_sendTransaction
                              [{| from := connected; to := toAddress;
                                  value := valueHex; gas := "0x5208" |}])])).
  { intros wX pre text TrX Res.
    destruct (Resolved_cases _ _ _ _ _ Res)
      as [(_ & _ & Tr) | [(r & _ & _ & _ & Tr)
                        | (r & toAddress & valueHex & connected & p & R & M & E & A & _ & Tr)]];
      rewrite TrX, <- app_assoc in Tr; rewrite (issued_app w _ _ Tr), map_app;
      eexists; (split; [reflexivity|]); simpl; [now left | now left|].
    right. exists r, toAddress, valueHex, connected, p. now repeat split. }
  destruct (turn_path env account w T)
    as [G St Tr | _ _ _ C St Tr | p e _ _ _ C TA E RQ St Tr
        | wX _ _ AW StX TrX Res | wX _ _ AW C StX Pre Res].
  - exists [], []. rewrite (issued_nil _ _ Tr). auto.
  - exists [], []. rewrite (issued_nil _ _ Tr). auto.
  - exists [CallRequest eth_requestAccounts], [].
    rewrite (issued_app w _ _ Tr). auto.
  - rewrite <- (app_nil_r (trace w)) in TrX.
    destruct (R _ _ _ TrX Res) as (post & I & P).
    exists [], post. split; [exact I|]. split; [now left|]. right.
    eexists. split; [|exact P]. now rewrite AW.
  - destruct Pre as [[_ TrX] | (TA & p & accounts & E & RQ & TrX)].
    + rewrite <- (app_nil_r (trace w)) in TrX.
      destruct (R _ _ _ TrX Res) as (post & I & P).
      exists [], post. split; [exact I|]. split; [now left|]. right.
      eexists. split; [|exact P]. now rewrite AW.
    + destruct (R _ _ _ TrX Res) as (post & I & P).
      exists [CallRequest eth_requestAccounts], post.
      split; [exact I|]. split; [now right|]. right.
      eexists. split; [|exact P]. now rewrite AW.
Qed.

Lemma requestBody_wallet_address (account text : option string) :
  req_wallet_address (requestBody account text) = asTruthy account.
Proof. now destruct account as [[|c s]|]. Qed.

(** X8: A turn makes at most one backend call.  It goes to the fixed route,
    carries the wallet address exactly when an account is connected, and
    its message is the trimmed input, or the pending text when the turn is
    a confirmation. *)
Theorem one_backend_call_per_turn
  (env : Environment) (account : option string) (w : World Chat.State) :
  timers w = [] ->
  let made := issued w (turn env account w) in
  List.length
    (filter (fun c => match c with CallFetch _ _ => true | _ => false end) made) <= 1 /\
  forall route body,
    In (CallFetch route body) made ->
    route = BACKEND_ROUTE /\
    req_wallet_address body = asTruthy account /\
    req_message body =
      (if awaitingConfirmation (store w) then pendingTransaction (store w)
       else Some (trim (inputText (store w)))).
Proof.
  intros T made. unfold made.
  destruct (turn_issued env account w T) as (pre & post & -> & Pre & Post).
  assert (P : pre = [] \/ pre = [CallRequest eth_requestAccounts]) by tauto.
  destruct Post as [->|(text & -> & [->|(r & toAddress & valueHex & connected & p
                                         & _ & _ & _ & _ & ->)])];
    destruct P as [->| ->]; simpl; (split; [lia|]);
    intros route body I; try contradiction;
    repeat (destruct I as [I|I]; try discriminate; try contradiction);
    injection I as <- <-; rewrite requestBody_wallet_address; now repeat split.
Qed.

(** X9: A turn requests at most one transaction, and only a well-formed one:
    from the connected account of the handler, with a provider present, to
    the address and with the value of a marker found in the reply of this
    turn's backend call, both [0x]-prefixed hexadecimal, and with a gas of
    [0x5208]. *)
Theorem transaction_requests_wellformed
  (env : Environment) (account : option string) (w : World Chat.State) :
  timers w = [] ->
  let made := issued w (turn env account w) in
  List.length
    (filter (fun c => match c with
                      | CallRequest (eth_sendTransaction _) => true
                      | _ => false
                      end) made) <= 1 /\
  forall params,
    In (CallRequest (eth_sendTransaction params)) made ->
    exists connected toAddress valueHex body r,
      params = [{| from := connected; to := toAddress; value := valueHex;
                   gas := "0x5208" |}] /\
      asTruthy account = Some connected /\
      ethereum env <> None /\
      In (CallFetch BACKEND_ROUTE body) made /\
      replyText (backend env BACKEND_ROUTE body) = Some r /\
      Marker r toAddress valueHex.
Proof.
  intros T made. unfold made.
  destruct (turn_issued env account w T) as (pre & post & -> & Pre & Post).
  assert (P : pre = [] \/ pre = [CallRequest eth_requestAccounts]) by tauto.
  destruct Post as [->|(text & -> & [->|(r & toAddress & valueHex & connected & p
                                         & R & M & E & A & ->)])];
    destruct P as [->| ->]; simpl; (split; [lia|]);
    intros params I; try contradiction;
    repeat (destruct I as [I|I]; try discriminate; try contradiction);
    injection I as <-;
    eexists connected, toAddress, valueHex, _, r;
    (split; [reflexivity|]); (split; [assumption|]); (split; [congruence|]);
    (split; [|split; [exact R | now apply txDataMatch_sound]]);
    simpl; auto.
Qed.

(* ================================================================== *)
(** ** Properties of the wallet badge *)
(* ================================================================== *)

Lemma take_all (n : nat) (s : string) :
  String.length s <= n -> Connector.take n s = s.
Proof.
  revert n; induction s as [|c s IH]; intros [|n]; simpl; intros H;
    try reflexivity; try lia.
  f_equal. apply IH. lia.
Qed.

Lemma take_min (n : nat) (s : string) :
  Connector.take (Nat.min n (String.length s)) s = Connector.take n s.
Proof.
  revert n; induction s as [|c s IH]; intros [|n]; simpl; try reflexivity.
  f_equal. apply IH.
Qed.

Lemma length_take (n : nat) (s : string) :
  String.length (Connector.take n s) = Nat.min n (String.length s).
Proof.
  revert n; induction s as [|c s IH]; intros [|n]; simpl; try reflexivity.
  f_equal. apply IH.
Qed.

Lemma length_drop (n : nat) (s : string) :
  String.length (Connector.drop n s) = String.length s - n.
Proof.
  revert n; induction s as [|c s IH]; intros [|n]; simpl; try reflexivity.
  apply IH.
Qed.

Lemma length_append (s t : string) :
  String.length (s ++ t) = String.length s + String.length t.
Proof. induction s as [|c s IH]; simpl; [reflexivity | now rewrite IH]. Qed.

Lemma take_append (s t : string) :
  Connector.take (String.length s) (s ++ t) = s.
Proof. induction s as [|c s IH]; simpl; [now destruct t | now rewrite IH]. Qed.

Lemma drop_append (s t : string) :
  Connector.drop (String.length s) (s ++ t) = t.
Proof. induction s as [|c s IH]; simpl; [now destruct t | exact IH]. Qed.

Lemma substring_head (s : string) (n : nat) :
  Connector.substring s 0 (Some (Z.of_nat n)) = Connector.take n s.
Proof.
  unfold Connector.substring, Connector.clamp.
  replace (Z.to_nat (Z.min (Z.max 0 0) (Z.of_nat (String.length s)))) with 0 by lia.
  replace (Z.to_nat (Z.min (Z.max 0 (Z.of_nat n)) (Z.of_nat (String.length s))))
    with (Nat.min n (String.length s)) by lia.
  rewrite Nat.max_0_l, Nat.min_0_l, Nat.sub_0_r. simpl Connector.drop.
  replace (Connector.drop 0 s) with s by now destruct s.
  apply take_min.
Qed.

Lemma substring_tail (s : string) (n : nat) :
  Connector.substring s (Z.of_nat (String.length s) - Z.of_nat n) None =
  Connector.drop (String.length s - n) s.
Proof.
  unfold Connector.substring, Connector.clamp.
  replace (Z.to_nat
             (Z.min (Z.max 0 (Z.of_nat (String.length s) - Z.of_nat n))
                (Z.of_nat (String.length s))))
    with (String.length s - n) by lia.
  rewrite Nat.max_r, Nat.min_l by lia.
  apply take_all. rewrite length_drop. lia.
Qed.

Lemma formatAddress_eq (s : string) :
  nonEmpty s = true ->
  Connector.formatAddress (Some s) =
  Connector.take 6 s ++ "..." ++ Connector.drop (String.length s - 4) s.
Proof.
  intros N. unfold Connector.formatAddress. simpl. rewrite N.
  change 6%Z with (Z.of_nat 6). change 4%Z with (Z.of_nat 4).
  rewrite (substring_head s 6), (substring_tail s 4). reflexivity.
Qed.

(** X11: [formatAddress] gives nothing for a missing or empty address.  For
    any other address the result has at most 13 characters: up to six from
    the start, three dots, up to four from the end; it is shorter than the
    address only when the address has more than 13 characters. *)
Theorem formatAddress_length (address : option string) :
  (truthy address = false -> Connector.formatAddress address = "") /\
  forall s, address = Some s -> nonEmpty s = true ->
    String.length (Connector.formatAddress address) =
      Nat.min 6 (String.length s) + 3 + Nat.min 4 (String.length s) /\
    (String.length (Connector.formatAddress address) < String.length s <->
     13 < String.length s).
Proof.
  split.
  - intros H. apply asTruthy_None in H. unfold Connector.formatAddress. now rewrite H.
  - intros s -> N.
    rewrite (formatAddress_eq s N), !length_append, length_take, length_drop.
    simpl String.length. split; lia.
Qed.

(** X12: An address of ten characters or more is shown as its first six and
    its last four characters around three dots. *)
Theorem formatAddress_long (first middle last : string) :
  String.length first = 6 -> String.length last = 4 ->
  Connector.formatAddress (Some (first ++ middle ++ last)) =
  first ++ "..." ++ last.
Proof.
  intros H6 H4.
  assert (N : nonEmpty (first ++ middle ++ last) = true)
    by (destruct first; [discriminate | reflexivity]).
  rewrite (formatAddress_eq _ N).
  rewrite <- H6 at 1. rewrite take_append.
  replace (String.length (first ++ middle ++ last) - 4)
    with (String.length (first ++ middle))
    by (rewrite !length_append; lia).
  rewrite <- (append_assoc first middle last), drop_append. reflexivity.
Qed.

(** X13: An address of at most four characters appears twice, whole, on both
    sides of the dots. *)
Theorem formatAddress_short (s : string) :
  nonEmpty s = true -> String.length s <= 4 ->
  Connector.formatAddress (Some s) = s ++ "..." ++ s.
Proof.
  intros N L. rewrite (formatAddress_eq s N).
  rewrite take_all by lia.
  replace (String.length s - 4) with 0 by lia.
  now destruct s.
Qed.

(* ================================================================== *)
(** ** Further properties of the wallet session *)
(* ================================================================== *)

(** X14: Without a provider the session is inert: mounting and unmounting
    change nothing, and [connectWallet] makes no request and only sets the
    error that asks for the extension, which the badge shows beside the
    install link. *)
Theorem session_without_provider (env : Environment) (w : World State) :
  ethereum env = None ->
  mount env w = w /\
  unmount env w = w /\
  let wF := connect env w in
  trace wF = trace w /\
  listeners wF = listeners w /\
  store wF =
    {| account := account (store w);
       isConnecting := isConnecting (store w);
       error := Some "MetaMask is not installed. Please install MetaMask to connect your wallet." |} /\
  (truthy (account (store w)) = false ->
   Connector.view env (store wF) =
     [Connector.Link "Install MetaMask" "https://metamask.io/download/";
      Connector.ErrorText
        "MetaMask is not installed. Please install MetaMask to connect your wallet."]).
Proof.
  intros E.
  unfold mount, unmount, connect, exec, mountEffect, cleanupEffect, connectWallet,
    isMetaMaskAvailable.
  rewrite E. simpl. repeat split.
  intros A. unfold Connector.view, Connector.WalletConnector, Connector.useWallet,
    isMetaMaskAvailable. simpl. now rewrite A, E.
Qed.

(** X15: What the badge shows around a connection attempt made with no
    account connected: while the request is outstanding, a disabled
    button labelled [Connecting...] and no error; afterwards the
    abbreviated first account with the disconnect button, or the enabled
    connect button with the error: the message of the rejected value, or
    the fixed text when it has none or an empty one.  After a rejection
    with [null] or [undefined] no error was set, and the enabled connect
    button is all there is. *)
Theorem badge_around_connect (env : Environment) (p : Provider) (w : World State) :
  ethereum env = Some p ->
  truthy (account (store w)) = false ->
  let wF := connect env w in
  (exists s,
     trace wF = (trace w ++ [(CallRequest eth_requestAccounts, s)])%list /\
     Connector.view env s =
       [Connector.Button "Connecting..." Connector.connectWallet true]) /\
  match request p eth_requestAccounts with
  | Fulfilled [] =>
      Connector.view env (store wF) =
        [Connector.Button "Connect Wallet" Connector.connectWallet false;
         Connector.ErrorText "No accounts found. Please create an account in MetaMask."]
  | Fulfilled (first :: _) =>
      nonEmpty first = true ->
      Connector.view env (store wF) =
        [Connector.Badge (Connector.formatAddress (Some first));
         Connector.Button "Disconnect" Connector.disconnectWallet false]
  | Rejected (thrown error_message) =>
      Connector.view env (store wF) =
        [Connector.Button "Connect Wallet" Connector.connectWallet false;
         Connector.ErrorText
           match error_message with
           | Some (String c m) => String c m
           | _ => "Failed to connect to wallet"
           end]
  | Rejected nullish =>
      Connector.view env (store wF) =
        [Connector.Button "Connect Wallet" Connector.connectWallet false]
  end.
Proof.
  intros E A wF. unfold wF, connect, exec, connectWallet, isMetaMaskAvailable.
  rewrite E. simpl. rewrite E.
  unfold Connector.view, Connector.WalletConnector, Connector.useWallet,
    isMetaMaskAvailable.
  destruct (request p eth_requestAccounts)
    as [[|first accounts]|[|[[|c m]|]]]; simpl; rewrite ?E, ?A; simpl;
    (split; [eexists; split; [reflexivity|]; simpl; rewrite ?A, ?E; reflexivity|]);
    try reflexivity.
  intros N. now rewrite N.
Qed.

Lemma store_eq (s t : State) :
  account s = account t -> isConnecting s = isConnecting t -> error s = error t ->
  s = t.
Proof. destruct s, t; simpl; now intros -> -> ->. Qed.

(** X16: Notifications do not accumulate: after two notifications in a row the
    state is as if only the second had arrived. *)
Theorem last_notification_wins
  (env : Environment) (first second : list string) (w : World State) :
  store (accountsChanged env second (accountsChanged env first w)) =
  store (accountsChanged env second w).
Proof.
  unfold accountsChanged.
  destruct (emit_flags env first (listeners w) w) as (C1 & E1 & _ & L1).
  rewrite L1.
  destruct (emit_flags env second (listeners w) (emit env (listeners w) first w))
    as (C2 & E2 & _).
  destruct (emit_flags env second (listeners w) w) as (C3 & E3 & _).
  apply store_eq; [|congruence|congruence].
  rewrite !emit_account.
  destruct (existsb _ (listeners w)); reflexivity.
Qed.

(** Each step of the session keeps the connecting flag clear at rest and
    adds only account requests to the trace, recorded with the flag set
    for an authorization request and clear for the query on mount. *)
Lemma session_step (env : Environment) (e : Session.Event) (w : World State) :
  isConnecting (store w) = false ->
  isConnecting (store (Session.step env w e)) = false /\
  exists t,
    trace (Session.step env w e) = (trace w ++ t)%list /\
    forallb Session.consistent t = true.
Proof.
  intros C. destruct e as [| | | |accounts]; simpl.
  - unfold mount, exec, mountEffect, isMetaMaskAvailable.
    destruct (ethereum env) as [p|] eqn:E; simpl; rewrite ?E.
    + destruct (request p eth_accounts) as [[|first accounts]|e]; simpl;
        (split; [assumption|]); eexists; (split; [reflexivity|]); simpl.
        all: unfold Session.consistent; simpl; now rewrite C.
    + split; [assumption|]. exists []. now rewrite app_nil_r.
  - unfold unmount, exec, cleanupEffect, isMetaMaskAvailable.
    destruct (ethereum env); simpl; (split; [assumption|]);
      exists []; now rewrite app_nil_r.
  - unfold connect, exec, connectWallet, isMetaMaskAvailable.
    destruct (ethereum env) as [p|] eqn:E; simpl; rewrite ?E.
    + destruct (request p eth_requestAccounts) as [[|first accounts]|[|m]]; simpl;
        (split; [reflexivity|]); eexists; (split; [reflexivity|]); reflexivity.
    + split; [assumption|]. exists []. now rewrite app_nil_r.
  - split; [assumption|]. exists []. now rewrite app_nil_r.
  - unfold accountsChanged.
    destruct (emit_flags env accounts (listeners w) w) as (-> & _ & -> & _).
    split; [assumption|]. exists []. now rewrite app_nil_r.
Qed.

(** X17: Over any sequence of mounts, unmounts, connection attempts,
    disconnections and provider notifications, the session is never left
    connecting, and the only calls it makes are the two account requests:
    the authorization request, outstanding with the connecting flag set,
    and the query on mount, outstanding with the flag clear. *)
Theorem session_never_left_connecting
  (env : Environment) (es : list Session.Event) (w : World State) :
  isConnecting (store w) = false ->
  forallb Session.consistent (trace w) = true ->
  let wF := Session.steps env es w in
  isConnecting (store wF) = false /\
  forallb Session.consistent (trace wF) = true /\
  forallb Session.accountRequest (calls wF) = true.
Proof.
  assert (G : forall es w,
            isConnecting (store w) = false ->
            forallb Session.consistent (trace w) = true ->
            isConnecting (store (Session.steps env es w)) = false /\
            forallb Session.consistent (trace (Session.steps env es w)) = true).
  { clear es w. unfold Session.steps.
    induction es as [|e es IH]; intros w C T; simpl; [now split|].
    destruct (session_step env e w C) as (C' & t & Tr & F).
    apply IH; [exact C'|]. rewrite Tr, forallb_app, T, F. reflexivity. }
  intros C T wF.
  destruct (G es w C T) as [H1 H2]. split; [exact H1|]. split; [exact H2|].
  unfold calls. rewrite forallb_forall in H2 |- *.
  intros c I. apply in_map_iff in I as ([c' s] & <- & I).
  specialize (H2 _ I). unfold Session.consistent in H2. simpl in *.
  destruct c' as [route body|[| |params]]; simpl; congruence.
Qed.

(** X18: Disconnecting is local and does not unsubscribe: after mount, a
    connection and a disconnection, the next notification with a
    non-empty account list sets the address again, and no further
    authorization request is made. *)
Theorem notification_after_disconnect_reconnects
  (env : Environment) (p : Provider) (first : string) (rest : list string)
  (w : World State) :
  ethereum env = Some p ->
  let disconnected :=
    Session.steps env [Session.Mount; Session.Connect; Session.Disconnect] w in
  let wF := Session.step env disconnected (Session.AccountsChanged (first :: rest)) in
  account (store disconnected) = None /\
  account (store wF) = Some first /\
  trace wF = trace disconnected /\
  calls disconnected =
    (calls w ++ [CallRequest eth_accounts; CallRequest eth_requestAccounts])%list.
Proof.
  intros E disconnected wF.
  assert (D : account (store disconnected) = None /\
              In accountsChangedListener (listeners disconnected) /\
              calls disconnected =
                (calls w ++ [CallRequest eth_accounts; CallRequest eth_requestAccounts])%list).
  { unfold disconnected, Session.steps, calls. simpl.
    unfold disconnect, connect, mount, exec, disconnectWallet, connectWallet,
      mountEffect, isMetaMaskAvailable.
    rewrite E. simpl. rewrite E.
    destruct (request p eth_accounts) as [[|a1 l1]|e1]; simpl; rewrite ?E;
      destruct (request p eth_requestAccounts) as [[|a2 l2]|[|m2]]; simpl;
      (split; [reflexivity|]);
      (split; [apply in_or_app; right; simpl; auto|]);
      rewrite !map_app, <- app_assoc; reflexivity. }
  destruct D as (A & I & Cs). split; [exact A|].
  unfold wF. simpl. unfold accountsChanged.
  destruct (emit_flags env (first :: rest) (listeners disconnected) disconnected)
    as (_ & _ & -> & _).
  rewrite emit_account.
  assert (X : existsb (fun l => String.eqb (fst l) "accountsChanged")
                (listeners disconnected) = true).
  { apply existsb_exists. exists accountsChangedListener. now split. }
  rewrite X. now repeat split.
Qed.

(* ================================================================== *)
(** ** Properties of the application *)
(* ================================================================== *)

(** *** Submissions and timers, one step at a time *)

Opaque handleSendMessage.

(** A pending resubmission, when its timer fires, is a resolution from
    the world it fires in. *)
Lemma callback_resolved (env : Environment) (account text : option string)
  (wx : World Chat.State) :
  let wF := exec env (callbackBody (resendPending account text)) wx in
  Resolved env account text wx wF /\ timers wF = timers wx.
Proof.
  unfold exec, callbackBody.
  destruct (handleSendMessage_returns env account text wx)
    as (reply & w' & tr & R & Tm & Ls & Tr & SC).
  rewrite run_bind, R. simpl. split; [|exact Tm].
  exists reply, w'. now repeat split.
Qed.

(** A submission sets no timer, unless it is a confirmation that first
    connects the wallet: then it stops after the connection request, still
    loading, with the resubmission scheduled. *)
Lemma submit_timers (env : Environment) (account : option string)
  (w : World Chat.State) :
  timers w = [] ->
  let w' := submit env account w in
  timers w' = []
  \/
  (nonEmpty (trim (inputText (store w))) = true /\
   isLoading (store w) = false /\
   awaitingConfirmation (store w) = true /\
   String.eqb (toUpperCase (trim (inputText (store w)))) "CONFIRM" = true /\
   truthy account = false /\
   (exists p first rest,
      ethereum env = Some p /\
      request p eth_requestAccounts = Fulfilled (first :: rest)) /\
   store w' = accepted (trim (inputText (store w))) false (store w) /\
   trace w' =
     (trace w ++
        [(CallRequest eth_requestAccounts,
          accepted (trim (inputText (store w))) false (store w))])%list /\
   timers w' = [(resendPending account (pendingTransaction (store w)), 1000)]).
Proof.
  intros T. unfold submit, exec, handleSubmit.
  destruct (nonEmpty (trim (inputText (store w)))) eqn:N; simpl; [|now left].
  destruct (isLoading (store w)) eqn:L; simpl; [now left|].
  assert (Direct : forall (text : option string) (wx : World Chat.State),
            timers wx = [] ->
            timers
              (snd (run env
                 (exit <-
                    (response <- handleSendMessage account text ;;
                     setMessages (append {| text := response; type := bot |}) ;;
                     Ret FallThrough) ;;
                  match exit with
                  | Return => Ret tt
                  | FallThrough => setIsLoading false
                  end) wx)) = []).
  { intros text wx Tx.
    destruct (handleSendMessage_returns env account text wx)
      as (reply & w' & tr & R & Tm & _).
    rewrite !run_bind, R. simpl. now rewrite Tm. }
  destruct (awaitingConfirmation (store w)) eqn:AW.
  - destruct (String.eqb (toUpperCase (trim (inputText (store w)))) "CONFIRM") eqn:C.
    + simpl. destruct (truthy account) eqn:TA; simpl.
      * left. now apply Direct.
      * destruct (ethereum env) as [p|] eqn:E; simpl.
        -- rewrite E.
           destruct (request p eth_requestAccounts) as [[|first rest]|e] eqn:RQ; simpl.
           ++ left. now apply Direct.
           ++ right. rewrite T. repeat split. now exists p, first, rest.
           ++ now left.
        -- left. now apply Direct.
    + simpl. now left.
  - simpl. left. now apply Direct.
Qed.

Transparent handleSendMessage.

(** When a submission sets no timer, the turn is over with it. *)
Lemma turn_is_submit (env : Environment) (account : option string)
  (w : World Chat.State) :
  timers (submit env account w) = [] ->
  store (turn env account w) = store (submit env account w) /\
  trace (turn env account w) = trace (submit env account w).
Proof. intros H. unfold turn. rewrite H. now split. Qed.

(** A submission made while loading is ignored. *)
Lemma submit_while_loading (env : Environment) (account : option string)
  (w : World Chat.State) :
  isLoading (store w) = true -> submit env account w = w.
Proof.
  intros L. unfold submit, exec, handleSubmit. rewrite L, orb_true_r. reflexivity.
Qed.

(** What a resolution does to the confirmation state: nothing, or it
    awaits confirmation of the text it sent. *)
Lemma Resolved_awaiting (env : Environment) (account text : option string)
  (wX wF : World Chat.State) :
  Resolved env account text wX wF ->
  isLoading (store wF) = false /\
  (awaitingConfirmation (store wF) = awaitingConfirmation (store wX) /\
   pendingTransaction (store wF) = pendingTransaction (store wX)
   \/
   awaitingConfirmation (store wF) = true /\
   pendingTransaction (store wF) = text).
Proof.
  intros Res.
  assert (P : forall reply r,
            store wF = finished reply (previewed r text (store wX)) ->
            isLoading (store wF) = false /\
            (awaitingConfirmation (store wF) = awaitingConfirmation (store wX) /\
             pendingTransaction (store wF) = pendingTransaction (store wX)
             \/
             awaitingConfirmation (store wF) = true /\
             pendingTransaction (store wF) = text)).
  { intros reply r ->. unfold previewed.
    destruct (includes r "Transaction Preview:"); simpl; auto. }
  destruct (Resolved_cases _ _ _ _ _ Res)
    as [(_ & St & _) | [(r & _ & _ & St & _)
                       | (r & toAddress & valueHex & connected & p & _ & _ & _ & _ & St & _)]].
  - rewrite St. simpl. auto.
  - exact (P _ _ St).
  - exact (P _ _ St).
Qed.

(** The trace and the conversation only grow in a turn. *)
Lemma turn_extends (env : Environment) (account : option string)
  (w : World Chat.State) :
  timers w = [] ->
  (exists t, trace (turn env account w) = (trace w ++ t)%list) /\
  (exists ms, messages (store (turn env account w)) = (messages (store w) ++ ms)%list).
Proof.
  intros T.
  destruct (turn_path env account w T)
    as [G St Tr | _ _ _ C St Tr | p e _ _ _ C TA E RQ St Tr
        | wX _ _ AW StX TrX Res | wX _ _ _ C StX Pre Res].
  - split; [exists [] | exists []]; rewrite app_nil_r; congruence.
  - split; [exists []; rewrite app_nil_r; congruence|].
    rewrite St. simpl. eauto.
  - split; [eauto|]. rewrite St. simpl. rewrite <- app_assoc. eauto.
  - destruct (Resolved_frame _ _ _ _ _ Res) as ([reply M] & _ & _ & t & Tr & _).
    split; [exists t; congruence|].
    rewrite M, StX. simpl. rewrite <- app_assoc. eauto.
  - destruct (Resolved_frame _ _ _ _ _ Res) as ([reply M] & _ & _ & t & Tr & _).
    split.
    + destruct Pre as [[_ TrX] | (_ & p & accounts & _ & _ & TrX)];
        rewrite Tr, TrX, <- ?app_assoc; eauto.
    + rewrite M, StX. simpl. rewrite <- app_assoc. eauto.
Qed.

(** *** The chat component between events *)

Lemma rerender_frame (env : Environment) (previous next : option string)
  (c : World Chat.State) :
  let c' := App.rerender env previous next c in
  timers c' = timers c /\
  trace c' = trace c /\
  inputText (store c') = inputText (store c) /\
  isLoading (store c') = isLoading (store c) /\
  awaitingConfirmation (store c') = awaitingConfirmation (store c) /\
  pendingTransaction (store c') = pendingTransaction (store c) /\
  (messages (store c') = messages (store c) /\
   (App.sameValue previous next = true \/ truthy next = false)
   \/
   exists connected,
     asTruthy next = Some connected /\
     App.sameValue previous next = false /\
     messages (store c') =
       (messages (store c) ++
          [{| text := App.connectedNotice connected; type := bot |}])%list).
Proof.
  unfold App.rerender.
  destruct (App.sameValue previous next) eqn:Same; [now repeat split; auto|].
  unfold exec, App.accountEffect.
  destruct (asTruthy next) as [connected|] eqn:A; simpl.
  - repeat split. right. now exists connected.
  - apply asTruthy_None in A. repeat split. left. now split; [|right].
Qed.

Lemma stable_frame (c c' : World Chat.State) :
  timers c' = timers c ->
  isLoading (store c') = isLoading (store c) ->
  awaitingConfirmation (store c') = awaitingConfirmation (store c) ->
  pendingTransaction (store c') = pendingTransaction (store c) ->
  App.Stable c -> App.Stable c'.
Proof. unfold App.Stable. now intros -> -> -> ->. Qed.

Lemma stable_submit (env : Environment) (account : option string)
  (c : World Chat.State) :
  App.Stable c -> App.Stable (submit env account c).
Proof.
  intros [P [[T L] | (Rs & L & A)]];
    [|rewrite (submit_while_loading _ _ _ L); split; [exact P | now right]].
  destruct (submit_timers env account c T)
    as [T' | (N & _ & AW & C & TA & _ & St & Tr & Tm)].
  - unfold App.Stable. rewrite T'. destruct (turn_is_submit _ _ _ T') as [<- _].
    assert (Q : isLoading (store (turn env account c)) = false /\
                (awaitingConfirmation (store (turn env account c)) = true ->
                 exists text,
                   pendingTransaction (store (turn env account c)) = Some text /\
                   nonEmpty text = true)).
    { assert (R : forall text wX,
                store wX = accepted (trim (inputText (store c))) false (store c) ->
                (exists t, text = Some t /\ nonEmpty t = true) ->
                Resolved env account text wX (turn env account c) ->
                isLoading (store (turn env account c)) = false /\
                (awaitingConfirmation (store (turn env account c)) = true ->
                 exists t,
                   pendingTransaction (store (turn env account c)) = Some t /\
                   nonEmpty t = true)).
      { intros text wX StX (t & -> & Nt) Res.
        destruct (Resolved_awaiting _ _ _ _ _ Res) as (L' & [[A' _] | [_ P']]).
        - split; [exact L'|]. rewrite A', StX. discriminate.
        - split; [exact L'|]. intros _. now exists t. }
      destruct (turn_path env account c T)
        as [G St Tr | _ _ _ C St Tr | p e _ _ _ C TA E RQ St Tr
            | wX N _ AW StX TrX Res | wX _ _ AW C StX Pre Res].
      - rewrite St. now split.
      - rewrite St. simpl. split; [reflexivity | discriminate].
      - rewrite St. simpl. split; [reflexivity | discriminate].
      - apply (R (Some (trim (inputText (store c)))) wX StX); [now eexists | exact Res].
      - destruct (P AW) as (t & Pt & Nt).
        apply (R (pendingTransaction (store c)) wX StX); [now exists t | exact Res]. }
    destruct Q as [L' P']. split; [exact P' | left; now split].
  - unfold App.Stable. rewrite St, Tm. split; [discriminate|]. right.
    destruct (P AW) as (text & Pt & Nt).
    split; [|now split].
    exists account, text. rewrite Pt. now repeat split.
Qed.

Lemma stable_timeout (env : Environment) (c : World Chat.State) :
  App.Stable c -> App.Stable (fire env (timers c) (clearTimers c)).
Proof.
  intros [P [[T L] | ((account & text & T & TA & N) & L & A)]]; rewrite T; simpl.
  - split; [exact P | left; now split].
  - destruct (callback_resolved env account (Some text) (clearTimers c)) as [Res Tm].
    destruct (Resolved_awaiting _ _ _ _ _ Res) as (L' & [[A' _] | [A' P']]).
    + split; [simpl in A'; rewrite A', A; discriminate|]. left. now split.
    + split; [intros _; now exists text|]. left. now split.
Qed.

Lemma stable_change (env : Environment) (value : string) (c : World Chat.State) :
  App.Stable c -> App.Stable (App.change env value c).
Proof.
  unfold App.change. destruct (isLoading (store c)) eqn:L; [trivial|].
  now apply stable_frame.
Qed.

Lemma stable_step (env : Environment) (e : App.Event) (w : App.World) :
  App.Stable (App.chat w) -> App.Stable (App.chat (App.step env w e)).
Proof.
  intros S. destruct e as [e|value| |]; simpl.
  - destruct (rerender_frame env (Wallet.account (store (App.wallet w)))
                (Wallet.account (store (Session.step env (App.wallet w) e)))
                (App.chat w)) as (T & _ & _ & L & A & P & _).
    exact (stable_frame _ _ T L A P S).
  - now apply stable_change.
  - now apply stable_submit.
  - now apply stable_timeout.
Qed.

Lemma stable_initial : App.Stable (App.chat App.initial).
Proof. split; [discriminate | left; now split]. Qed.

Lemma steps_snoc (env : Environment) (es : list App.Event) (e : App.Event)
  (w : App.World) :
  App.steps env (es ++ [e]) w = App.step env (App.steps env es w) e.
Proof. unfold App.steps. now rewrite fold_left_app. Qed.

Lemma stable_steps (env : Environment) (es : list App.Event) (w : App.World) :
  App.Stable (App.chat w) -> App.Stable (App.chat (App.steps env es w)).
Proof.
  revert w; induction es as [|e es IH]; intros w S; simpl; [exact S|].
  apply IH. now apply stable_step.
Qed.

Lemma wallet_steps (env : Environment) (es : list App.Event) (w : App.World) :
  Wallet.isConnecting (store (App.wallet w)) = false ->
  Wallet.isConnecting (store (App.wallet (App.steps env es w))) = false.
Proof.
  revert w; induction es as [|e es IH]; intros w C; simpl; [exact C|].
  apply IH. destruct e as [e|value| |]; simpl; try exact C.
  exact (proj1 (session_step env e _ C)).
Qed.

(** X19: In every state the application reaches from its initial state,
    whatever the events: when confirmation is awaited a non-empty pending
    text is stored; the controller is loading exactly when a resubmission
    timer is pending, and at most one is; and the wallet session is not
    connecting. *)
Theorem reachable_states_stable (env : Environment) (es : list App.Event) :
  let w := App.steps env es App.initial in
  let c := store (App.chat w) in
  (awaitingConfirmation c = true ->
   exists text, pendingTransaction c = Some text /\ nonEmpty text = true) /\
  (isLoading c = true <-> timers (App.chat w) <> []) /\
  List.length (timers (App.chat w)) <= 1 /\
  Wallet.isConnecting (store (App.wallet w)) = false.
Proof.
  intros w c.
  destruct (stable_steps env es App.initial stable_initial)
    as [P [[T L] | ((account & text & T & _) & L & _)]]; fold w in P, T, L; fold c in P, L.
  - split; [exact P|]. rewrite T, L. repeat split; try discriminate; try congruence.
    + simpl. lia.
    + now apply wallet_steps.
  - split; [exact P|]. rewrite T, L. repeat split; try discriminate.
    + simpl. lia.
    + now apply wallet_steps.
Qed.

Lemma calls_app {S} (c c' : World S) (t : list (Call * S)) :
  trace c' = (trace c ++ t)%list -> calls c' = (calls c ++ map fst t)%list.
Proof. unfold calls. intros ->. apply map_app. Qed.

Lemma callsok_extend (c c' : World Chat.State) (t : list (Call * Chat.State)) :
  App.CallsOk c ->
  trace c' = (trace c ++ t)%list ->
  (forall route body,
     In (CallFetch route body) (map fst t) ->
     route = BACKEND_ROUTE /\
     exists text, req_message body = Some text /\ nonEmpty text = true) ->
  App.CallsOk c'.
Proof.
  intros Ok Tr New route body I. rewrite (calls_app _ _ _ Tr) in I.
  apply in_app_or in I as [I|I]; [now apply Ok | now apply New].
Qed.

Lemma callsok_same (c c' : World Chat.State) :
  App.CallsOk c -> trace c' = trace c -> App.CallsOk c'.
Proof.
  intros Ok Tr. apply (callsok_extend c c' [] Ok); [now rewrite app_nil_r|].
  intros route body [].
Qed.

Lemma callsok_submit (env : Environment) (account : option string)
  (c : World Chat.State) :
  App.Stable c -> App.CallsOk c -> App.CallsOk (submit env account c).
Proof.
  intros [P [[T L] | (Rs & L & A)]] Ok;
    [|now rewrite (submit_while_loading _ _ _ L)].
  destruct (submit_timers env account c T)
    as [T' | (N & _ & AW & C & TA & _ & St & Tr & Tm)].
  - destruct (turn_is_submit _ _ _ T') as [_ Tr].
    destruct (turn_extends env account c T) as [[t Tt] _].
    rewrite Tt in Tr. apply (callsok_extend c _ t Ok (eq_sym Tr)).
    intros route body I. rewrite <- (issued_app c _ _ Tt) in I.
    destruct (turn_backend_call env account c _ _ T I)
      as (text & wX & pre & -> & -> & N & _ & Cases & _).
    split; [reflexivity|].
    destruct Cases as [(_ & -> & _)|(AW & _ & -> & _)]; simpl;
      [now eexists | exact (P AW)].
  - apply (callsok_extend c _ _ Ok Tr).
    intros route body [I|[]]. discriminate.
Qed.

Lemma callsok_timeout (env : Environment) (c : World Chat.State) :
  App.Stable c -> App.CallsOk c ->
  App.CallsOk (fire env (timers c) (clearTimers c)).
Proof.
  intros [P [[T L] | ((account & text & T & TA & N) & L & A)]] Ok; rewrite T; simpl.
  - now apply (callsok_same c).
  - destruct (callback_resolved env account (Some text) (clearTimers c)) as [Res _].
    destruct (Resolved_calls _ _ _ _ _ Res) as (t & Tr & SC).
    apply (callsok_extend c _ t Ok Tr).
    intros route body I. destruct (In_sendCalls _ _ _ _ _ _ SC I) as [-> ->].
    split; [reflexivity | now exists text].
Qed.

Lemma callsok_step (env : Environment) (e : App.Event) (w : App.World) :
  App.Stable (App.chat w) -> App.CallsOk (App.chat w) ->
  App.CallsOk (App.chat (App.step env w e)).
Proof.
  intros S Ok. destruct e as [e|value| |]; simpl.
  - apply (callsok_same _ _ Ok). apply rerender_frame.
  - apply (callsok_same _ _ Ok). unfold App.change.
    now destruct (isLoading (store (App.chat w))).
  - now apply callsok_submit.
  - now apply callsok_timeout.
Qed.

(** X20: Over the life of the application every backend call goes to the
    fixed route and carries a non-empty message: neither a submission nor
    a resubmission ever posts [null] or an empty text. *)
Theorem backend_messages_never_empty
  (env : Environment) (es : list App.Event) (route : string) (body : RequestBody) :
  In (CallFetch route body) (calls (App.chat (App.steps env es App.initial))) ->
  route = BACKEND_ROUTE /\
  exists text, req_message body = Some text /\ nonEmpty text = true.
Proof.
  assert (G : forall es w,
            App.Stable (App.chat w) -> App.CallsOk (App.chat w) ->
            App.CallsOk (App.chat (App.steps env es w))).
  { clear. intros es. induction es as [|e es IH]; intros w S Ok; simpl; [exact Ok|].
    apply IH; [now apply stable_step | now apply callsok_step]. }
  apply (G es App.initial stable_initial). intros r b [].
Qed.

Lemma messages_step (env : Environment) (e : App.Event) (w : App.World) :
  App.Stable (App.chat w) ->
  exists ms,
    messages (store (App.chat (App.step env w e))) =
    (messages (store (App.chat w)) ++ ms)%list.
Proof.
  intros [P [[T L] | ((account & text & T & TA & N) & L & A)]];
    destruct e as [e|value| |]; simpl.
  - destruct (rerender_frame env (Wallet.account (store (App.wallet w)))
                (Wallet.account (store (Session.step env (App.wallet w) e)))
                (App.chat w)) as (_ & _ & _ & _ & _ & _ & [[M _] | (a & _ & _ & M)]);
      rewrite M; [exists []; now rewrite app_nil_r | eauto].
  - unfold App.change. rewrite L. simpl. exists []. now rewrite app_nil_r.
  - destruct (submit_timers env (Wallet.account (store (App.wallet w))) (App.chat w) T)
      as [T' | (_ & _ & _ & _ & _ & _ & St & _)].
    + destruct (turn_is_submit _ _ _ T') as [<- _]. now apply turn_extends.
    + rewrite St. simpl. eauto.
  - rewrite T. simpl. exists []. now rewrite app_nil_r.
  - destruct (rerender_frame env (Wallet.account (store (App.wallet w)))
                (Wallet.account (store (Session.step env (App.wallet w) e)))
                (App.chat w)) as (_ & _ & _ & _ & _ & _ & [[M _] | (a & _ & _ & M)]);
      rewrite M; [exists []; now rewrite app_nil_r | eauto].
  - unfold App.change. rewrite L. exists []. now rewrite app_nil_r.
  - rewrite (submit_while_loading _ _ _ L). exists []. now rewrite app_nil_r.
  - rewrite T. cbn [fire].
    destruct (callback_resolved env account (Some text) (clearTimers (App.chat w)))
      as [Res _].
    destruct (Resolved_frame _ _ _ _ _ Res) as ([reply M] & _). rewrite M. simpl. eauto.
Qed.

(** X21: The conversation is append-only: whatever happens after a state the
    application has reached, its messages stay, in order, at the start of
    the conversation; none is removed or edited. *)
Theorem conversation_only_grows
  (env : Environment) (before after : list App.Event) :
  exists ms,
    messages (store (App.chat (App.steps env (before ++ after) App.initial))) =
    (messages (store (App.chat (App.steps env before App.initial))) ++ ms)%list.
Proof.
  unfold App.steps at 1. rewrite fold_left_app.
  fold (App.steps env before App.initial).
  assert (S := stable_steps env before App.initial stable_initial).
  generalize dependent (App.steps env before App.initial). clear before.
  induction after as [|e es IH]; intros w S; simpl.
  - exists []. now rewrite app_nil_r.
  - destruct (messages_step env e w S) as [ms1 M1].
    destruct (IH _ (stable_step env e w S)) as [ms2 M2].
    exists (ms1 ++ ms2)%list. rewrite M2, M1. now rewrite app_assoc.
Qed.

Lemma sameValue_refl (a : option string) : App.sameValue a a = true.
Proof. destruct a; simpl; [apply String.eqb_refl | reflexivity]. Qed.

(** X22: What wallet events add to the conversation.  A disconnection adds
    nothing.  A notification (heard by the registered listener) adds one
    notice with the new address when the first account is a non-empty
    address other than the current one, and nothing otherwise.  Neither
    touches the rest of the chat state. *)
Theorem wallet_notice (env : Environment) (w : App.World) :
  In accountsChangedListener (listeners (App.wallet w)) ->
  let current := Wallet.account (store (App.wallet w)) in
  store (App.chat (App.step env w (App.Session Session.Disconnect))) =
    store (App.chat w) /\
  forall accounts,
    let w' := App.step env w (App.Session (Session.AccountsChanged accounts)) in
    Wallet.account (store (App.wallet w')) = hd_error accounts /\
    trace (App.chat w') = trace (App.chat w) /\
    timers (App.chat w') = timers (App.chat w) /\
    messages (store (App.chat w')) =
      match asTruthy (hd_error accounts) with
      | Some first =>
          if App.sameValue current (Some first) then messages (store (App.chat w))
          else (messages (store (App.chat w)) ++
                  [{| text := "Your wallet has been connected successfully! Your address is: "
                                ++ first;
                      type := bot |}])%list
      | None => messages (store (App.chat w))
      end.
Proof.
  intros I current. split.
  - simpl. unfold App.rerender, disconnect, exec. simpl. fold current.
    destruct current; reflexivity.
  - intros accounts w'.
    assert (A : Wallet.account (store (App.wallet w')) = hd_error accounts).
    { unfold w'. simpl. unfold accountsChanged. rewrite emit_account.
      assert (X : existsb (fun l => String.eqb (fst l) "accountsChanged")
                    (listeners (App.wallet w)) = true).
      { apply existsb_exists. exists accountsChangedListener. now split. }
      now rewrite X. }
    split; [exact A|].
    destruct (rerender_frame env current (Wallet.account (store (App.wallet w')))
                (App.chat w))
      as (T & Tr & _ & _ & _ & _ & M).
    split; [exact Tr|]. split; [exact T|].
    change (App.chat w')
      with (App.rerender env current (Wallet.account (store (App.wallet w')))
              (App.chat w)).
    rewrite A in M |- *.
    destruct M as [[M [Same|F]] | (first & F & Same & M)]; rewrite M.
    + destruct (asTruthy (hd_error accounts)) as [first|] eqn:F; [|reflexivity].
      apply asTruthy_Some in F as [F _]. now rewrite <- F, Same.
    + apply asTruthy_None in F. now rewrite F.
    + rewrite F. apply asTruthy_Some in F as [F _]. now rewrite <- F, Same.
Qed.

(** A notification heard by the session, seen from the chat component
    when the new first account is a non-empty address and none was
    connected. *)
Lemma wallet_notice_frame (env : Environment) (w : App.World)
  (accounts : list string) :
  In accountsChangedListener (listeners (App.wallet w)) ->
  let w' := App.step env w (App.Session (Session.AccountsChanged accounts)) in
  Wallet.account (store (App.wallet w')) = hd_error accounts /\
  trace (App.chat w') = trace (App.chat w) /\
  timers (App.chat w') = timers (App.chat w) /\
  (Wallet.account (store (App.wallet w)) = None ->
   forall first, hd_error accounts = Some first -> nonEmpty first = true ->
   messages (store (App.chat w')) =
     (messages (store (App.chat w)) ++
        [{| text := App.connectedNotice first; type := bot |}])%list).
Proof.
  intros I w'.
  assert (A : Wallet.account (store (App.wallet w')) = hd_error accounts).
  { unfold w'. simpl. unfold accountsChanged. rewrite emit_account.
    assert (X : existsb (fun l => String.eqb (fst l) "accountsChanged")
                  (listeners (App.wallet w)) = true).
    { apply existsb_exists. exists accountsChangedListener. now split. }
    now rewrite X. }
  split; [exact A|].
  destruct (rerender_frame env (Wallet.account (store (App.wallet w)))
              (Wallet.account (store (App.wallet w'))) (App.chat w))
    as (T & Tr & _ & _ & _ & _ & M).
  split; [exact Tr|]. split; [exact T|].
  intros None_before first F N.
  change (App.chat w')
    with (App.rerender env (Wallet.account (store (App.wallet w)))
            (Wallet.account (store (App.wallet w'))) (App.chat w)).
  rewrite A, F, None_before in M |- *.
  destruct M as [[_ [Same|Falsy]] | (a & Fa & _ & M)].
  - discriminate.
  - simpl in Falsy. congruence.
  - simpl in Fa. rewrite N in Fa. injection Fa as <-. exact M.
Qed.

(** X23: A confirmation that connects the wallet first, followed by the
    provider's notification of the new account and then by the timer: the
    wallet is connected, the conversation gets the user's message, the
    connection notice and one reply, in this order; yet the resubmitted
    request, made by the callback created before the connection, carries
    no wallet address, and no transaction is requested. *)
Theorem confirm_connect_notify_resubmit
  (env : Environment) (p : Provider) (first : string) (rest : list string)
  (notified : string) (others : list string) (w : App.World) :
  let c := store (App.chat w) in
  timers (App.chat w) = [] ->
  isLoading c = false ->
  awaitingConfirmation c = true ->
  equalsIgnoreCase (trim (inputText c)) "CONFIRM" = true ->
  Wallet.account (store (App.wallet w)) = None ->
  In accountsChangedListener (listeners (App.wallet w)) ->
  ethereum env = Some p ->
  request p eth_requestAccounts = Fulfilled (first :: rest) ->
  nonEmpty notified = true ->
  let wF :=
    App.steps env
      [App.Submit;
       App.Session (Session.AccountsChanged (notified :: others));
       App.Timeout] w in
  Wallet.account (store (App.wallet wF)) = Some notified /\
  (exists reply,
     messages (store (App.chat wF)) =
       (messages c ++
          [{| text := trim (inputText c); type := user |};
           {| text := "Your wallet has been connected successfully! Your address is: "
                        ++ notified;
              type := bot |};
           {| text := reply; type := bot |}])%list) /\
  issued (App.chat w) (App.chat wF) =
    [CallRequest eth_requestAccounts;
     CallFetch BACKEND_ROUTE
       {| req_message := pendingTransaction c; req_wallet_address := None |}] /\
  isLoading (store (App.chat wF)) = false.
Proof.
  intros c T L AW C A I E RQ N wF. subst c.
  (* the submission stops with the resubmission scheduled *)
  destruct (submit_timers env (Wallet.account (store (App.wallet w))) (App.chat w) T)
    as [T1 | (_ & _ & _ & _ & _ & _ & St1 & Tr1 & Tm1)].
  { exfalso. revert T1. unfold submit, exec, handleSubmit.
    rewrite (equalsIgnoreCase_nonEmpty _ _ C eq_refl), L, AW, confirm_test, C, A.
    simpl. rewrite E. simpl. rewrite ?E, RQ. simpl. rewrite T. discriminate. }
  rewrite A in St1, Tr1, Tm1.
  set (c1 := submit env None (App.chat w)) in *.
  (* the notification connects the wallet and adds the notice *)
  set (w1 := {| App.wallet := App.wallet w; App.chat := c1 |}).
  assert (W1 : App.step env w App.Submit = w1) by (unfold w1, c1; simpl; now rewrite A).
  destruct (wallet_notice_frame env w1 (notified :: others) I) as (A2 & Tr2 & T2 & M2).
  specialize (M2 A notified eq_refl N).
  set (w2 := App.step env w1 (App.Session (Session.AccountsChanged (notified :: others)))) in *.
  (* the timer fires *)
  unfold wF, App.steps. cbn [fold_left]. rewrite W1. fold w2.
  cbn [App.step App.wallet App.chat].
  split; [exact A2|].
  assert (Tm2 : timers (App.chat w2) =
                [(resendPending None (pendingTransaction (store (App.chat w))), 1000)])
    by (rewrite T2; exact Tm1).
  rewrite Tm2. cbn [fire].
  destruct (callback_resolved env None (pendingTransaction (store (App.chat w)))
              (clearTimers (App.chat w2)))
    as [Res _].
  destruct (Resolved_frame _ _ _ _ _ Res) as ([reply M] & L3 & _).
  assert (Tr3 : trace (exec env
                         (callbackBody
                            (resendPending None (pendingTransaction (store (App.chat w)))))
                         (clearTimers (App.chat w2))) =
                (trace (clearTimers (App.chat w2)) ++
                   [(CallFetch BACKEND_ROUTE
                       (requestBody None (pendingTransaction (store (App.chat w)))),
                     store (clearTimers (App.chat w2)))])%list).
  { destruct (Resolved_cases _ _ _ _ _ Res)
      as [(_ & _ & Tr) | [(r & _ & _ & _ & Tr)
                        | (r & toAddress & valueHex & connected & p' & _ & _ & _ & F & _)]];
      [exact Tr | exact Tr | discriminate]. }
  split; [|split; [|exact L3]].
  - exists reply. rewrite M.
    change (store (clearTimers (App.chat w2))) with (store (App.chat w2)).
    rewrite M2. change (App.chat w1) with c1. rewrite St1.
    unfold accepted, App.connectedNotice. simpl. now rewrite <- !app_assoc.
  - change (trace (clearTimers (App.chat w2))) with (trace (App.chat w2)) in Tr3.
    rewrite Tr2 in Tr3. change (App.chat w1) with c1 in Tr3.
    rewrite Tr1, <- app_assoc in Tr3.
    rewrite (issued_app _ _ _ Tr3). reflexivity.
Qed.

(** C1: the relay is missed on the connect-first path.  A transfer is
    asked for with no wallet connected and previewed; the user confirms,
    the wallet is connected from the confirm branch and the provider
    announces the account; the timer then resubmits the pending text.
    When its reply arrives a provider is present, the account is
    connected and the reply carries a marker, yet the resubmission runs
    with the [account] of the render that set the timer: the request
    carries no wallet address, no transaction is requested and the raw
    reply is the bot message.  The same request made with the wallet
    connected beforehand is relayed. *)
Theorem C1_stale_account_no_relay :
  let r := "Transaction Preview: send 5 wei to 0xABC. tx_data:0xABC:0x5:5" in
  let env := {| ethereum := Some Samples.unauthorized;
                backend := Samples.replying r |} in
  let anonymous := {| req_message := Some "send 5 wei to 0xABC";
                      req_wallet_address := None |} in
  let asked :=
    App.steps env
      [App.Session Session.Mount; App.Change "send 5 wei to 0xABC"; App.Submit;
       App.Change "confirm"]
      App.initial in
  let wF :=
    App.steps env
      [App.Submit; App.Session (Session.AccountsChanged ["0xme"]); App.Timeout]
      asked in
  let direct :=
    App.steps env
      [App.Session Session.Mount; App.Session Session.Connect;
       App.Change "send 5 wei to 0xABC"; App.Submit]
      App.initial in
  (Wallet.account (store (App.wallet asked)) = None /\
   awaitingConfirmation (store (App.chat asked)) = true /\
   pendingTransaction (store (App.chat asked)) = Some "send 5 wei to 0xABC") /\
  (Wallet.account (store (App.wallet wF)) = Some "0xme" /\
   isSome (ethereum env) = true /\
   txDataMatch r = Some ("0xABC", "0x5")) /\
  (calls (App.chat wF) =
     [CallFetch BACKEND_ROUTE anonymous;
      CallRequest eth_requestAccounts;
      CallFetch BACKEND_ROUTE anonymous] /\
   lastMessage (store (App.chat wF)) = Some {| text := r; type := bot |}) /\
  (calls (App.chat direct) =
     [CallFetch BACKEND_ROUTE
        {| req_message := Some "send 5 wei to 0xABC";
           req_wallet_address := Some "0xme" |};
      CallRequest
        (eth_sendTransaction
           [{| from := "0xme"; to := "0xABC"; value := "0x5"; gas := "0x5208" |}])] /\
   lastMessage (store (App.chat direct)) =
     Some {| text := "Transaction sent successfully! Transaction hash: 0xHASH";
             type := bot |}).
Proof. vm_compute. repeat split. Qed.

(* ================================================================== *)
(** ** The match is the first marker *)
(* ================================================================== *)

(** X10: [txDataMatch] returns the capture groups of the first marker of the
    text and nothing else: it answers [(g1, g2)] exactly when the text
    splits into a prefix in which no marker starts and a rest that begins
    with a marker whose groups are [g1] and [g2]. *)
Theorem txDataMatch_first_marker (s g1 g2 : string) :
  txDataMatch s = Some (g1, g2) <->
  exists pre rest,
    s = pre ++ rest /\
    MarkerAt rest g1 g2 /\
    forall pre1 pre2 h1 h2,
      pre = pre1 ++ pre2 -> nonEmpty pre2 = true ->
      ~ MarkerAt (pre2 ++ rest) h1 h2.
Proof.
  split.
  - induction s as [|c s IH]; cbn [txDataMatch].
    + destruct (matchAt "") as [m|] eqn:E; [|discriminate].
      intros [= ->]. exists "", "". split; [reflexivity|].
      split; [now apply matchAt_sound|].
      intros [|x pre1] [|y pre2]; simpl; discriminate.
    + destruct (matchAt (String c s)) as [m|] eqn:E.
      * intros [= ->]. exists "", (String c s). split; [reflexivity|].
        split; [now apply matchAt_sound|].
        intros [|x pre1] [|y pre2]; simpl; discriminate.
      * intros H. destruct (IH H) as (pre & rest & -> & M & First).
        exists (String c pre), rest. split; [reflexivity|]. split; [exact M|].
        intros [|x pre1] pre2 h1 h2 P N.
        -- simpl in P. subst pre2. intros M'.
           apply matchAt_complete in M'. simpl in M'. congruence.
        -- simpl in P. injection P as -> P. now apply (First pre1 pre2).
  - intros (pre & rest & -> & M & First). now apply txDataMatch_leftmost.
Qed.

(* ================================================================== *)
(** ** Instances of the further properties *)
(* ================================================================== *)

Lemma submission_ignored_or_answered_witness :
  let env := {| ethereum := Some Samples.approving;
                backend := Samples.replying "Done." |} in
  let w := Samples.world (Samples.typed " hello ") in
  let wF := turn env (Some "0xme") w in
  timers w = [] /\
  (exists reply,
     messages (store wF) =
       [{| text := "hello"; type := user |}; {| text := reply; type := bot |}]) /\
  inputText (store wF) = "" /\
  isLoading (store wF) = false.
Proof.
  intros env w wF.
  assert (H1 : timers w = []) by reflexivity.
  split; [exact H1|].
  exact (proj1 (proj2 (submission_ignored_or_answered env (Some "0xme") w H1)) eq_refl).
Defined.

Lemma calls_made_while_loading_witness :
  let env := {| ethereum := Some Samples.approving;
                backend := Samples.replying "tx_data:0xABC:0x5:5" |} in
  let w := Samples.world (Samples.typed " send 5 wei to 0xABC ") in
  timers w = [] /\
  exists t,
    trace (turn env (Some "0xme") w) = (trace w ++ t)%list /\
    forall c s, In (c, s) t ->
      isLoading s = true /\
      inputText s = "" /\
      messages s = [{| text := "send 5 wei to 0xABC"; type := user |}].
Proof.
  intros env w.
  assert (H1 : timers w = []) by reflexivity.
  exact (conj H1 (calls_made_while_loading env (Some "0xme") w H1)).
Defined.

Lemma unusable_body_apology_witness :
  let env := {| ethereum := Some Samples.approving;
                backend := fun _ _ =>
                  Fulfilled {| ok := true;
                               json := Fulfilled {| response := None |} |} |} in
  let w := Samples.world (Samples.typed "hello") in
  let wF := turn env (Some "0xme") w in
  issued w wF = [CallFetch BACKEND_ROUTE (requestBody (Some "0xme") (Some "hello"))] /\
  messages (store wF) =
    [{| text := "hello"; type := user |};
     {| text := "Sorry, there was an error processing your request. Please try again.";
        type := bot |}] /\
  idle (store wF) = true.
Proof.
  intros env w wF.
  set (body := requestBody (Some "0xme") (Some "hello")).
  set (resp := {| ok := true; json := Fulfilled {| response := None |} |}).
  assert (H1 : timers w = []) by reflexivity.
  assert (H2 : In (CallFetch BACKEND_ROUTE body) (issued w (turn env (Some "0xme") w)))
    by (vm_compute; auto).
  assert (H3 : backend env BACKEND_ROUTE body = Fulfilled resp) by reflexivity.
  assert (H4 : ok resp = true) by reflexivity.
  assert (H5 : match json resp with
               | Rejected _ => True
               | Fulfilled data => response data = None
               end) by reflexivity.
  destruct (unusable_body_apology env (Some "0xme") w body resp H1 H2 H3 H4 H5)
    as (M & I & _).
  split; [reflexivity|]. split; [exact M | exact I].
Defined.

Lemma preview_and_marker_both_act_witness :
  let r := "Transaction Preview: send 5 wei to 0xABC. tx_data:0xABC:0x5:5" in
  let env := {| ethereum := Some Samples.approving;
                backend := Samples.replying r |} in
  let w := Samples.world (Samples.typed "send 5 wei to 0xABC") in
  let wF := turn env (Some "0xme") w in
  includes r "Transaction Preview:" = true /\
  txDataMatch r = Some ("0xABC", "0x5") /\
  In (CallRequest
        (eth_sendTransaction
           [{| from := "0xme"; to := "0xABC"; value := "0x5"; gas := "0x5208" |}]))
     (issued w wF) /\
  awaitingConfirmation (store wF) = true /\
  pendingTransaction (store wF) = Some "send 5 wei to 0xABC" /\
  isLoading (store wF) = false.
Proof.
  intros r env w wF.
  set (body := requestBody (Some "0xme") (Some "send 5 wei to 0xABC")).
  assert (H1 : timers w = []) by reflexivity.
  assert (H2 : ethereum env = Some Samples.approving) by reflexivity.
  assert (H3 : asTruthy (Some "0xme") = Some "0xme") by reflexivity.
  assert (H4 : In (CallFetch BACKEND_ROUTE body) (issued w (turn env (Some "0xme") w)))
    by (vm_compute; auto).
  assert (H5 : replyText (backend env BACKEND_ROUTE body) = Some r) by reflexivity.
  assert (H6 : includes r "Transaction Preview:" = true) by reflexivity.
  assert (H7 : txDataMatch r = Some ("0xABC", "0x5")) by reflexivity.
  split; [exact H6|]. split; [exact H7|].
  exact (preview_and_marker_both_act env Samples.approving (Some "0xme") "0xme" w body
           r "0xABC" "0x5" H1 H2 H3 H4 H5 H6 H7).
Defined.

Lemma reply_without_preview_idle_witness :
  let env := {| ethereum := None; backend := Samples.replying "Done." |} in
  let w := Samples.world (Samples.awaiting " Confirm ") in
  let wF := turn env None w in
  awaitingConfirmation (store w) = true /\
  idle (store wF) = true /\
  pendingTransaction (store wF) = Some "send 5 wei to 0xABC".
Proof.
  intros env w wF.
  set (body := requestBody None (Some "send 5 wei to 0xABC")).
  assert (H1 : timers w = []) by reflexivity.
  assert (H2 : In (CallFetch BACKEND_ROUTE body) (issued w (turn env None w)))
    by (vm_compute; auto).
  assert (H3 : replyText (backend env BACKEND_ROUTE body) = Some "Done.") by reflexivity.
  assert (H4 : includes "Done." "Transaction Preview:" = false) by reflexivity.
  split; [reflexivity|].
  exact (reply_without_preview_idle env None w body "Done." H1 H2 H3 H4).
Defined.

Lemma confirm_connect_rejected_witness :
  let e := newError "User rejected the request." in
  let env := {| ethereum := Some (Samples.rejecting e);
                backend := Samples.replying "Done." |} in
  let w := Samples.world (Samples.awaiting "confirm") in
  let wF := turn env None w in
  issued w wF = [CallRequest eth_requestAccounts] /\
  store wF =
    {| messages :=
         [{| text := "confirm"; type := user |};
          {| text := "Failed to connect wallet. Please connect your wallet and try again.";
             type := bot |}];
       inputText := "";
       isLoading := false;
       awaitingConfirmation := false;
       pendingTransaction := Some "send 5 wei to 0xABC" |}.
Proof.
  intros e env w wF.
  assert (H1 : timers w = []) by reflexivity.
  assert (H2 : awaitingConfirmation (store w) = true) by reflexivity.
  assert (H3 : isLoading (store w) = false) by reflexivity.
  assert (H4 : equalsIgnoreCase (trim (inputText (store w))) "CONFIRM" = true)
    by reflexivity.
  assert (H5 : truthy None = false) by reflexivity.
  assert (H6 : ethereum env = Some (Samples.rejecting e)) by reflexivity.
  assert (H7 : request (Samples.rejecting e) eth_requestAccounts = Rejected e)
    by reflexivity.
  exact (confirm_connect_rejected env (Samples.rejecting e) e None w
           H1 H2 H3 H4 H5 H6 H7).
Defined.

Lemma connect_first_resubmission_witness :
  let r := "tx_data:0xABC:0x5:5" in
  let env := {| ethereum := Some Samples.approving;
                backend := Samples.replying r |} in
  let w := Samples.world (Samples.awaiting "confirm") in
  request Samples.approving eth_requestAccounts = Fulfilled ["0xme"; "0xother"] /\
  txDataMatch r = Some ("0xABC", "0x5") /\
  issued w (turn env None w) =
    [CallRequest eth_requestAccounts;
     CallFetch BACKEND_ROUTE
       {| req_message := Some "send 5 wei to 0xABC"; req_wallet_address := None |}].
Proof.
  intros r env w.
  assert (H1 : timers w = []) by reflexivity.
  assert (H2 : awaitingConfirmation (store w) = true) by reflexivity.
  assert (H3 : isLoading (store w) = false) by reflexivity.
  assert (H4 : equalsIgnoreCase (trim (inputText (store w))) "CONFIRM" = true)
    by reflexivity.
  assert (H5 : truthy None = false) by reflexivity.
  assert (H6 : ethereum env = Some Samples.approving) by reflexivity.
  assert (H7 : request Samples.approving eth_requestAccounts =
               Fulfilled ["0xme"; "0xother"]) by reflexivity.
  split; [exact H7|]. split; [reflexivity|].
  exact (connect_first_resubmission env Samples.approving None ["0xme"; "0xother"] w
           H1 H2 H3 H4 H5 H6 H7).
Defined.

Lemma one_backend_call_per_turn_witness :
  let env := {| ethereum := Some Samples.approving;
                backend := Samples.replying "Done." |} in
  let w := Samples.world (Samples.typed " hello ") in
  let made := issued w (turn env (Some "0xme") w) in
  made =
    [CallFetch BACKEND_ROUTE
       {| req_message := Some "hello"; req_wallet_address := Some "0xme" |}] /\
  forall route body,
    In (CallFetch route body) made ->
    route = BACKEND_ROUTE /\
    req_wallet_address body = Some "0xme" /\
    req_message body = Some "hello".
Proof.
  intros env w made.
  assert (H1 : timers w = []) by reflexivity.
  split; [reflexivity|].
  exact (proj2 (one_backend_call_per_turn env (Some "0xme") w H1)).
Defined.

Lemma transaction_requests_wellformed_witness :
  let env := {| ethereum := Some Samples.approving;
                backend := Samples.replying "tx_data:0xABC:0x5:5" |} in
  let w := Samples.world (Samples.typed "send 5 wei to 0xABC") in
  let made := issued w (turn env (Some "0xme") w) in
  List.length made = 2 /\
  forall params,
    In (CallRequest (eth_sendTransaction params)) made ->
    exists connected toAddress valueHex body r,
      params = [{| from := connected; to := toAddress; value := valueHex;
                   gas := "0x5208" |}] /\
      asTruthy (Some "0xme") = Some connected /\
      ethereum env <> None /\
      In (CallFetch BACKEND_ROUTE body) made /\
      replyText (backend env BACKEND_ROUTE body) = Some r /\
      Marker r toAddress valueHex.
Proof.
  intros env w made.
  assert (H1 : timers w = []) by reflexivity.
  split; [reflexivity|].
  exact (proj2 (transaction_requests_wellformed env (Some "0xme") w H1)).
Defined.

Lemma formatAddress_long_witness :
  String.length "0x1234" = 6 /\
  String.length "cdef" = 4 /\
  Connector.formatAddress (Some "0x1234567890abcdef") = "0x1234...cdef".
Proof.
  split; [reflexivity|]. split; [reflexivity|].
  exact (formatAddress_long "0x1234" "567890ab" "cdef" eq_refl eq_refl).
Defined.

Lemma formatAddress_short_witness :
  nonEmpty "0x1" = true /\
  String.length "0x1" <= 4 /\
  Connector.formatAddress (Some "0x1") = "0x1...0x1".
Proof.
  assert (H : String.length "0x1" <= 4) by (simpl; lia).
  split; [reflexivity|]. split; [exact H|].
  exact (formatAddress_short "0x1" eq_refl H).
Defined.

Lemma session_without_provider_witness :
  let env := {| ethereum := None; backend := Samples.offline |} in
  let w := Samples.world Samples.disconnected in
  mount env w = w /\
  unmount env w = w /\
  trace (connect env w) = [] /\
  Connector.view env (store (connect env w)) =
    [Connector.Link "Install MetaMask" "https://metamask.io/download/";
     Connector.ErrorText
       "MetaMask is not installed. Please install MetaMask to connect your wallet."].
Proof.
  intros env w.
  destruct (session_without_provider env w eq_refl) as (M & U & T & _ & _ & V).
  split; [exact M|]. split; [exact U|]. split; [exact T|].
  exact (V eq_refl).
Defined.

Lemma badge_around_connect_witness :
  let w := Samples.world Samples.disconnected in
  let approved := {| ethereum := Some Samples.approving;
                     backend := Samples.offline |} in
  let unanswered := {| ethereum := Some Samples.silent;
                       backend := Samples.offline |} in
  truthy (account (store w)) = false /\
  Connector.view approved (store (connect approved w)) =
    [Connector.Badge "0xme...0xme";
     Connector.Button "Disconnect" Connector.disconnectWallet false] /\
  Connector.view unanswered (store (connect unanswered w)) =
    [Connector.Button "Connect Wallet" Connector.connectWallet false].
Proof.
  intros w approved unanswered.
  split; [reflexivity|]. split.
  - exact (proj2 (badge_around_connect approved Samples.approving w eq_refl eq_refl)
             eq_refl).
  - exact (proj2 (badge_around_connect unanswered Samples.silent w eq_refl eq_refl)).
Defined.

Lemma session_never_left_connecting_witness :
  let env := {| ethereum := Some Samples.approving; backend := Samples.offline |} in
  let w := Samples.world Samples.disconnected in
  let wF :=
    Session.steps env
      [Session.Mount; Session.Connect; Session.AccountsChanged [];
       Session.Disconnect; Session.Unmount] w in
  calls wF = [CallRequest eth_accounts; CallRequest eth_requestAccounts] /\
  isConnecting (store wF) = false /\
  forallb Session.consistent (trace wF) = true /\
  forallb Session.accountRequest (calls wF) = true.
Proof.
  intros env w wF.
  split; [reflexivity|].
  exact (session_never_left_connecting env
           [Session.Mount; Session.Connect; Session.AccountsChanged [];
            Session.Disconnect; Session.Unmount] w eq_refl eq_refl).
Defined.

Lemma notification_after_disconnect_reconnects_witness :
  let env := {| ethereum := Some Samples.approving; backend := Samples.offline |} in
  let w := Samples.world Samples.disconnected in
  let disconnected :=
    Session.steps env [Session.Mount; Session.Connect; Session.Disconnect] w in
  let wF := Session.step env disconnected (Session.AccountsChanged ["0xnew"]) in
  account (store disconnected) = None /\
  account (store wF) = Some "0xnew" /\
  trace wF = trace disconnected /\
  calls disconnected = [CallRequest eth_accounts; CallRequest eth_requestAccounts].
Proof.
  intros env w disconnected wF.
  exact (notification_after_disconnect_reconnects env Samples.approving "0xnew" [] w
           eq_refl).
Defined.

Lemma backend_messages_never_empty_witness :
  let env := {| ethereum := None; backend := Samples.replying "Done." |} in
  let es := [App.Change " hello "; App.Submit] in
  let body := {| req_message := Some "hello"; req_wallet_address := None |} in
  calls (App.chat (App.steps env es App.initial)) = [CallFetch BACKEND_ROUTE body] /\
  exists text, req_message body = Some text /\ nonEmpty text = true.
Proof.
  intros env es body.
  assert (H : In (CallFetch BACKEND_ROUTE body)
                (calls (App.chat (App.steps env es App.initial))))
    by (vm_compute; auto).
  split; [reflexivity|].
  exact (proj2 (backend_messages_never_empty env es BACKEND_ROUTE body H)).
Defined.

Lemma wallet_notice_witness :
  let env := {| ethereum := Some Samples.accountless; backend := Samples.offline |} in
  let w := App.steps env [App.Session Session.Mount] App.initial in
  let w' := App.step env w (App.Session (Session.AccountsChanged ["0xnew"])) in
  listeners (App.wallet w) = [accountsChangedListener] /\
  store (App.chat (App.step env w (App.Session Session.Disconnect))) =
    store (App.chat w) /\
  account (store (App.wallet w')) = Some "0xnew" /\
  messages (store (App.chat w')) =
    (messages (store (App.chat w)) ++
       [{| text := "Your wallet has been connected successfully! Your address is: 0xnew";
           type := bot |}])%list.
Proof.
  intros env w w'.
  assert (H : In accountsChangedListener (listeners (App.wallet w)))
    by (vm_compute; auto).
  destruct (wallet_notice env w H) as (D & N).
  destruct (N ["0xnew"]) as (A & _ & _ & M).
  split; [reflexivity|]. split; [exact D|]. split; [exact A | exact M].
Defined.

Lemma confirm_connect_notify_resubmit_witness :
  let env := {| ethereum := Some Samples.approving;
                backend := Samples.replying "tx_data:0xABC:0x5:5" |} in
  let w := {| App.wallet :=
                {| store := Samples.disconnected; trace := []; timers := [];
                   listeners := [accountsChangedListener] |};
              App.chat := Samples.world (Samples.awaiting "confirm") |} in
  let wF :=
    App.steps env
      [App.Submit; App.Session (Session.AccountsChanged ["0xme"]); App.Timeout] w in
  account (store (App.wallet wF)) = Some "0xme" /\
  (exists reply,
     messages (store (App.chat wF)) =
       [{| text := "confirm"; type := user |};
        {| text := "Your wallet has been connected successfully! Your address is: 0xme";
           type := bot |};
        {| text := reply; type := bot |}]) /\
  issued (App.chat w) (App.chat wF) =
    [CallRequest eth_requestAccounts;
     CallFetch BACKEND_ROUTE
       {| req_message := Some "send 5 wei to 0xABC"; req_wallet_address := None |}] /\
  isLoading (store (App.chat wF)) = false.
Proof.
  intros env w wF.
  assert (H1 : timers (App.chat w) = []) by reflexivity.
  assert (H2 : isLoading (store (App.chat w)) = false) by reflexivity.
  assert (H3 : awaitingConfirmation (store (App.chat w)) = true) by reflexivity.
  assert (H4 : equalsIgnoreCase (trim (inputText (store (App.chat w)))) "CONFIRM" = true)
    by reflexivity.
  assert (H5 : account (store (App.wallet w)) = None) by reflexivity.
  assert (H6 : In accountsChangedListener (listeners (App.wallet w)))
    by (left; reflexivity).
  assert (H7 : ethereum env = Some Samples.approving) by reflexivity.
  assert (H8 : request Samples.approving eth_requestAccounts =
               Fulfilled ["0xme"; "0xother"]) by reflexivity.
  assert (H9 : nonEmpty "0xme" = true) by reflexivity.
  exact (confirm_connect_notify_resubmit env Samples.approving "0xme" ["0xother"]
           "0xme" [] w H1 H2 H3 H4 H5 H6 H7 H8 H9).
Defined.
